(** * libportal: screencast and remote-desktop sessions

    A shallow embedding of [libportal/remote.c]: the establishment of a
    session (CreateSession, SelectDevices, SelectSources), the Start round
    trip, Close, the retrieval of the PipeWire descriptor and the nine
    input-injection calls.

    GLib and GDBus are collaborators of the file.  They are modelled by
    the small part of their behaviour the file relies on: a registry of
    signal subscriptions, a cancellable with its connected handlers, a
    source of random integers, the descriptor table of the process, and
    a chronological trace of everything the file asks them to do. *)

From Stdlib Require Import ZArith String List Bool Lia FinFun DecimalString DecimalZ DecimalPos.
Import ListNotations.
Local Open Scope string_scope.
Local Open Scope list_scope.
Local Open Scope Z_scope.

(** ** GVariant values *)

(** A [double] is only ever passed through to the bus; it is kept as its
    64-bit pattern. *)
Definition double := Z.

Unset Elimination Schemes.
Inductive GVariant : Type :=
| GV_boolean (b : bool)
| GV_int32 (i : Z)
| GV_uint32 (u : Z)
| GV_double (d : double)
| GV_string (s : string)
| GV_object_path (o : string)
| GV_handle (h : Z)
| GV_array (element_type : string) (items : list GVariant)
| GV_tuple (items : list GVariant)
| GV_vardict (entries : list (string * GVariant)).
Set Elimination Schemes.

(** The [a{sv}] dictionaries: entries in order, duplicates possible. *)
Definition vardict := list (string * GVariant).

Fixpoint g_variant_get_type_string (v : GVariant) : string :=
  match v with
  | GV_boolean _ => "b"
  | GV_int32 _ => "i"
  | GV_uint32 _ => "u"
  | GV_double _ => "d"
  | GV_string _ => "s"
  | GV_object_path _ => "o"
  | GV_handle _ => "h"
  | GV_array elt _ => String.append "a" elt
  | GV_tuple items =>
      String.append "("
        (String.append (String.concat "" (map g_variant_get_type_string items)) ")")
  | GV_vardict _ => "a{sv}"
  end.

(** [g_variant_lookup_value]: the first entry with the key decides; a value
    of another type than the expected one gives NULL. *)
Fixpoint g_variant_lookup_value (dict : vardict) (key expected_type : string)
  : option GVariant :=
  match dict with
  | [] => None
  | (k, v) :: rest =>
      if String.eqb k key
      then if String.eqb (g_variant_get_type_string v) expected_type
           then Some v else None
      else g_variant_lookup_value rest key expected_type
  end.

Definition g_strconcat (parts : list string) : string := String.concat "" parts.

(** [g_strdup_printf ("portal%d", n)] *)
Definition portal_token (n : Z) : string :=
  String.append "portal" (NilZero.string_of_int (Z.to_int n)).

Definition G_MAXINT : Z := 2147483647.

(** ** The objects of the library *)

(** Modelled from the spec: the enumerations and the session struct are
    declared in headers that are not among the sources.  The file names
    the two session types and the states Active and Closed; the third
    state is the spec's Init, "just created".  Of the session the file
    reads the portal, the identifier, the type, the state and the device
    mask, and has the streams set. *)
Inductive XdpSessionType := XDP_SESSION_SCREENCAST | XDP_SESSION_REMOTE_DESKTOP.

Inductive XdpSessionState := XDP_SESSION_INITIAL | XDP_SESSION_ACTIVE | XDP_SESSION_CLOSED.

Definition XdpSessionType_eqb (a b : XdpSessionType) : bool :=
  match a, b with
  | XDP_SESSION_SCREENCAST, XDP_SESSION_SCREENCAST => true
  | XDP_SESSION_REMOTE_DESKTOP, XDP_SESSION_REMOTE_DESKTOP => true
  | _, _ => false
  end.

Definition XdpSessionState_eqb (a b : XdpSessionState) : bool :=
  match a, b with
  | XDP_SESSION_INITIAL, XDP_SESSION_INITIAL => true
  | XDP_SESSION_ACTIVE, XDP_SESSION_ACTIVE => true
  | XDP_SESSION_CLOSED, XDP_SESSION_CLOSED => true
  | _, _ => false
  end.

(** [XdpPortal]: the bus connection is the environment below; the sender
    name is what the object paths are built from. *)
Record XdpPortal := { sender : string }.

Module XdpSession.
Record t := {
  portal : XdpPortal;
  id : string;
  type : XdpSessionType;
  state : XdpSessionState;
  devices : Z;
  streams : option GVariant
}.
End XdpSession.

(** Modelled from the spec: [_xdp_session_new] lives in session.c, which
    is not among the sources.  The spec has establishment resolve "with a
    new Session (kind K, id as above, state Init)" whose device mask and
    stream list are "unset/empty until the session reaches the active
    lifecycle state". *)
Definition _xdp_session_new (portal : XdpPortal) (id : string) (type : XdpSessionType)
  : XdpSession.t :=
  {| XdpSession.portal := portal;
     XdpSession.id := id;
     XdpSession.type := type;
     XdpSession.state := XDP_SESSION_INITIAL;
     XdpSession.devices := 0;
     XdpSession.streams := None |}.

(** Modelled from the spec: the three setters of session.c are not among
    the sources.  The spec has the Start flow "apply" the granted devices
    and streams to the Session and "set" its lifecycle state; each setter
    writes its field. *)
Definition _xdp_session_set_devices (s : XdpSession.t) (devices : Z) : XdpSession.t :=
  {| XdpSession.portal := XdpSession.portal s;
     XdpSession.id := XdpSession.id s;
     XdpSession.type := XdpSession.type s;
     XdpSession.state := XdpSession.state s;
     XdpSession.devices := devices;
     XdpSession.streams := XdpSession.streams s |}.

Definition _xdp_session_set_streams (s : XdpSession.t) (streams : GVariant) : XdpSession.t :=
  {| XdpSession.portal := XdpSession.portal s;
     XdpSession.id := XdpSession.id s;
     XdpSession.type := XdpSession.type s;
     XdpSession.state := XdpSession.state s;
     XdpSession.devices := XdpSession.devices s;
     XdpSession.streams := Some streams |}.

Definition _xdp_session_set_session_state (s : XdpSession.t) (state : XdpSessionState)
  : XdpSession.t :=
  {| XdpSession.portal := XdpSession.portal s;
     XdpSession.id := XdpSession.id s;
     XdpSession.type := XdpSession.type s;
     XdpSession.state := state;
     XdpSession.devices := XdpSession.devices s;
     XdpSession.streams := XdpSession.streams s |}.

(** ** The environment: bus, cancellable, random numbers, trace *)

(** The signal handlers and cancellation handlers the file registers. *)
Inductive SignalCallback :=
| cb_session_created | cb_devices_selected | cb_sources_selected | cb_session_started.

Inductive CancelledCallback := cb_create_cancelled | cb_start_cancelled.

(** Every subscription of the file is for the member "Response" of the
    request interface, sent by the portal; what differs is the object path
    and the handler. *)
Record Subscription := {
  sub_id : Z;
  sub_object_path : string;
  sub_callback : SignalCallback
}.

Inductive GIOErrorEnum := G_IO_ERROR_FAILED | G_IO_ERROR_CANCELLED.

Inductive TaskResult :=
| task_pointer (session : XdpSession.t)
| task_boolean (b : bool)
| task_error (code : GIOErrorEnum) (message : string).

(** One [g_dbus_connection_call].  The file never passes a reply callback,
    so every call is fire-and-forget; [with_cancellable] records whether a
    non-NULL cancellable was handed over. *)
Record BusCall := {
  bus_name : string;
  object_path : string;
  interface_name : string;
  method_name : string;
  parameters : option GVariant;
  with_cancellable : bool
}.

Inductive Event :=
| ev_subscribe (s : Subscription)
| ev_unsubscribe (id : Z)
| ev_call (c : BusCall)
| ev_call_sync (c : BusCall)
| ev_connect (id : Z) (cb : CancelledCallback)
| ev_disconnect (id : Z)
| ev_return (r : TaskResult)
| ev_critical
| ev_warning
| ev_export
| ev_unexport
| ev_emit (signal : string).

Record GCancellable := {
  cancelled : bool;
  handlers : list (Z * CancelledCallback);
  next_handler : positive
}.

Record Env := {
  subscriptions : list Subscription;
  next_subscription : positive;
  cancellable : option GCancellable;
  random : list Z;
  trace : list Event
}.

Definition log (ev : Event) (e : Env) : Env :=
  {| subscriptions := subscriptions e;
     next_subscription := next_subscription e;
     cancellable := cancellable e;
     random := random e;
     trace := trace e ++ [ev] |}.

(** [g_random_int_range (lo, hi)]: the next number of the source, brought
    into [lo, hi). *)
Definition g_random_int_range (lo hi : Z) (e : Env) : Z * Env :=
  (lo + (hd 0 (random e)) mod (hi - lo),
   {| subscriptions := subscriptions e;
      next_subscription := next_subscription e;
      cancellable := cancellable e;
      random := tl (random e);
      trace := trace e |}).

(** Subscription identifiers are handed out from a counter and are never 0. *)
Definition g_dbus_connection_signal_subscribe
  (path : string) (cb : SignalCallback) (e : Env) : Z * Env :=
  let s := {| sub_id := Z.pos (next_subscription e);
              sub_object_path := path;
              sub_callback := cb |} in
  (sub_id s,
   log (ev_subscribe s)
     {| subscriptions := subscriptions e ++ [s];
        next_subscription := Pos.succ (next_subscription e);
        cancellable := cancellable e;
        random := random e;
        trace := trace e |}).

Definition g_dbus_connection_signal_unsubscribe (id : Z) (e : Env) : Env :=
  log (ev_unsubscribe id)
    {| subscriptions := filter (fun s => negb (sub_id s =? id)) (subscriptions e);
       next_subscription := next_subscription e;
       cancellable := cancellable e;
       random := random e;
       trace := trace e |}.

Definition g_dbus_connection_call (c : BusCall) (e : Env) : Env := log (ev_call c) e.

Definition g_task_get_cancellable (e : Env) : option GCancellable := cancellable e.

(** [g_task_return_*] complete the task: the result is handed over and
    the caller's callback is run, inside the call when it is made from a
    later iteration of the main loop than the one that created the task
    and no cancellation is pending, from an idle source otherwise.  The
    trace records the completion at the place of the call. *)
Definition g_task_return_pointer (s : XdpSession.t) (e : Env) : Env :=
  log (ev_return (task_pointer s)) e.

Definition g_task_return_boolean (b : bool) (e : Env) : Env :=
  log (ev_return (task_boolean b)) e.

Definition g_task_return_new_error (code : GIOErrorEnum) (message : string) (e : Env) : Env :=
  log (ev_return (task_error code message)) e.

(** [g_signal_connect (cancellable, "cancelled", cb, call)]; without a
    cancellable there is nothing to connect to. *)
Definition g_signal_connect (cb : CancelledCallback) (e : Env) : Z * Env :=
  match cancellable e with
  | None => (0, e)
  | Some c =>
      let id := Z.pos (next_handler c) in
      (id,
       log (ev_connect id cb)
         {| subscriptions := subscriptions e;
            next_subscription := next_subscription e;
            cancellable := Some {| cancelled := cancelled c;
                                   handlers := handlers c ++ [(id, cb)];
                                   next_handler := Pos.succ (next_handler c) |};
            random := random e;
            trace := trace e |})
  end.

Definition g_signal_handler_disconnect (id : Z) (e : Env) : Env :=
  log (ev_disconnect id)
    {| subscriptions := subscriptions e;
       next_subscription := next_subscription e;
       cancellable :=
         match cancellable e with
         | None => None
         | Some c =>
             Some {| cancelled := cancelled c;
                     handlers := filter (fun h => negb (fst h =? id)) (handlers c);
                     next_handler := next_handler c |}
         end;
       random := random e;
       trace := trace e |}.

(** ** File descriptors

    [xdp_session_open_pipewire_remote] hands a descriptor to its caller.
    What it relies on of GLib's [GUnixFDList] and of the system below it
    is modelled here: which descriptors are open, which file each refers
    to, how a duplicate is made and what freeing a list closes. *)

(** An open file of the system, by name.  The descriptors of the process
    refer to open files, several of them possibly to the same one. *)
Definition File := string.

(** The descriptor table of the process: every open descriptor with the
    file it refers to. *)
Definition Descriptors := list (Z * File).

(** The file a descriptor refers to, [None] when it is not open. *)
Fixpoint fd_file (fd : Z) (t : Descriptors) : option File :=
  match t with
  | [] => None
  | (n, f) :: rest => if n =? fd then Some f else fd_file fd rest
  end.

(** The first number from [n] on that is not open, among [fuel] numbers;
    [n + fuel] when they all are. *)
Fixpoint lowest_free_from (fuel : nat) (n : Z) (t : Descriptors) : Z :=
  match fuel with
  | O => n
  | S k => match fd_file n t with
           | Some _ => lowest_free_from k (n + 1) t
           | None => n
           end
  end.

(** A new descriptor gets the lowest number that is not open; among the
    numbers from 0 to the size of the table one is free. *)
Definition install (f : File) (t : Descriptors) : Z * Descriptors :=
  let n := lowest_free_from (length t) 0 t in (n, (n, f) :: t).

(** [close (fd)]; closing a descriptor that is not open changes nothing. *)
Definition close (fd : Z) (t : Descriptors) : Descriptors :=
  filter (fun d => negb (fst d =? fd)) t.

(** The descriptors that come with a message are installed in the process
    when the message is received, in their order. *)
Fixpoint receive (files : list File) (t : Descriptors) : list Z * Descriptors :=
  match files with
  | [] => ([], t)
  | f :: rest =>
      let '(fd, t) := install f t in
      let '(fds, t) := receive rest t in
      (fd :: fds, t)
  end.

(** [GUnixFDList]: the array [fds] of the descriptors of a message, [nfd]
    its length.  The list owns them: when it is freed it closes them. *)
Definition GUnixFDList := list Z.

(** The finalizer closes [fds[0]] to [fds[nfd - 1]]. *)
Definition g_unix_fd_list_finalize (fds : GUnixFDList) (t : Descriptors) : Descriptors :=
  fold_left (fun t fd => close fd t) fds t.

(** [g_autoptr(GUnixFDList)]: the reference is dropped when the variable
    goes out of scope; the function holds the only one. *)
Definition glib_autoptr_cleanup_GUnixFDList (fd_list : option GUnixFDList)
  (t : Descriptors) : Descriptors :=
  match fd_list with
  | Some fds => g_unix_fd_list_finalize fds t
  | None => t
  end.

(** The element [fds[index]] of a C array.  A read before the array has
    no defined result. *)
Definition array_get (fds : list Z) (index : Z) : option Z :=
  if index <? 0 then None else nth_error fds (Z.to_nat index).

(** [dup_close_on_exec_fd]: [fcntl (fd, F_DUPFD_CLOEXEC, 0)], a new
    descriptor for the file of [fd]; -1 when [fd] is not open or the system
    does not grant one more descriptor. *)
Definition dup_close_on_exec_fd (fd : Z) (granted : bool) (t : Descriptors)
  : Z * Descriptors :=
  match fd_file fd t with
  | Some f => if granted then install f t else (-1, t)
  | None => (-1, t)
  end.

(** [g_unix_fd_list_get (list, index, NULL)]: a duplicate of the
    descriptor at the index, which the caller owns.  The function checks
    that there is a list and that the index is below [nfd], with a critical
    warning and -1 otherwise; it does not check the index from below, so
    that a negative index reads before the array ([None]). *)
Definition g_unix_fd_list_get (fd_list : option GUnixFDList) (index : Z) (granted : bool)
  (t : Descriptors) (e : Env) : option (Z * Descriptors * Env) :=
  match fd_list with
  | None => Some (-1, t, log ev_critical e)
  | Some fds =>
      if index <? Z.of_nat (length fds) then
        match array_get fds index with
        | Some fd =>
            let '(r, t) := dup_close_on_exec_fd fd granted t in
            Some (r, t, e)
        | None => None
        end
      else Some (-1, t, log ev_critical e)
  end.

(** A session-level operation works on the session its pointer designates;
    the world holds that session next to the environment. *)
Record World := { env : Env; session : XdpSession.t }.

Definition lift (f : Env -> Env) (w : World) : World :=
  {| env := f (env w); session := session w |}.

Definition update_session (f : XdpSession.t -> XdpSession.t) (w : World) : World :=
  {| env := env w; session := f (session w) |}.

(** A process that has subscribed to nothing yet. *)
Definition fresh_env (rand : list Z) : Env :=
  {| subscriptions := [];
     next_subscription := 1;
     cancellable := None;
     random := rand;
     trace := [] |}.

Definition new_cancellable : GCancellable :=
  {| cancelled := false; handlers := []; next_handler := 1 |}.

(** ** The call blocks *)

(** [CreateCall].  The [task] of the C struct is the task of the
    environment (its cancellable and the returns logged in the trace); a
    NULL string of the zeroed block is the empty string. *)
Module CreateCall.
Record t := {
  portal : XdpPortal;
  id : string;
  type : XdpSessionType;
  devices : Z;
  outputs : Z;
  multiple : bool;
  signal_id : Z;
  request_path : string;
  cancelled_id : Z
}.

Definition set_id (v : string) (c : t) : t :=
  {| portal := portal c; id := v; type := type c; devices := devices c;
     outputs := outputs c; multiple := multiple c; signal_id := signal_id c;
     request_path := request_path c; cancelled_id := cancelled_id c |}.

Definition set_signal_id (v : Z) (c : t) : t :=
  {| portal := portal c; id := id c; type := type c; devices := devices c;
     outputs := outputs c; multiple := multiple c; signal_id := v;
     request_path := request_path c; cancelled_id := cancelled_id c |}.

Definition set_request_path (v : string) (c : t) : t :=
  {| portal := portal c; id := id c; type := type c; devices := devices c;
     outputs := outputs c; multiple := multiple c; signal_id := signal_id c;
     request_path := v; cancelled_id := cancelled_id c |}.

Definition set_cancelled_id (v : Z) (c : t) : t :=
  {| portal := portal c; id := id c; type := type c; devices := devices c;
     outputs := outputs c; multiple := multiple c; signal_id := signal_id c;
     request_path := request_path c; cancelled_id := v |}.
End CreateCall.

(** [XdpParent]: the window to export; export and unexport are calls into
    the host, logged in the trace. *)
Record XdpParent := { parent_window : string }.

(** [StartCall].  [session] points to the session of the world the call
    runs in; [parent_handle] starts NULL when a parent was given. *)
Module StartCall.
Record t := {
  portal : XdpPortal;
  parent : option XdpParent;
  parent_handle : option string;
  signal_id : Z;
  request_path : string;
  cancelled_id : Z
}.

Definition set_parent_handle (v : option string) (c : t) : t :=
  {| portal := portal c; parent := parent c; parent_handle := v;
     signal_id := signal_id c; request_path := request_path c;
     cancelled_id := cancelled_id c |}.

Definition set_signal_id (v : Z) (c : t) : t :=
  {| portal := portal c; parent := parent c; parent_handle := parent_handle c;
     signal_id := v; request_path := request_path c;
     cancelled_id := cancelled_id c |}.

Definition set_request_path (v : string) (c : t) : t :=
  {| portal := portal c; parent := parent c; parent_handle := parent_handle c;
     signal_id := signal_id c; request_path := v;
     cancelled_id := cancelled_id c |}.

Definition set_cancelled_id (v : Z) (c : t) : t :=
  {| portal := portal c; parent := parent c; parent_handle := parent_handle c;
     signal_id := signal_id c; request_path := request_path c;
     cancelled_id := v |}.
End StartCall.

(** ** The constants of the private headers *)

(** [portal-private.h] and [portal.h] are included by the file but are
    not among the sources: the names and paths of the portal and the
    device bits are parameters of the development. *)
Class Headers := {
  PORTAL_BUS_NAME : string;
  PORTAL_OBJECT_PATH : string;
  REQUEST_PATH_PREFIX : string;
  SESSION_PATH_PREFIX : string;
  REQUEST_INTERFACE : string;
  SESSION_INTERFACE : string;
  XDP_DEVICE_NONE : Z;
  XDP_DEVICE_KEYBOARD : Z;
  XDP_DEVICE_POINTER : Z;
  XDP_DEVICE_TOUCHSCREEN : Z
}.

(** The values the portal's D-Bus interface uses, for running the model on
    concrete inputs. *)
Definition desktop_portal : Headers :=
  {| PORTAL_BUS_NAME := "org.freedesktop.portal.Desktop";
     PORTAL_OBJECT_PATH := "/org/freedesktop/portal/desktop";
     REQUEST_PATH_PREFIX := "/org/freedesktop/portal/desktop/request/";
     SESSION_PATH_PREFIX := "/org/freedesktop/portal/desktop/session/";
     REQUEST_INTERFACE := "org.freedesktop.portal.Request";
     SESSION_INTERFACE := "org.freedesktop.portal.Session";
     XDP_DEVICE_NONE := 0;
     XDP_DEVICE_KEYBOARD := 1;
     XDP_DEVICE_POINTER := 2;
     XDP_DEVICE_TOUCHSCREEN := 4 |}.

(** A client whose unique bus name is [:1.42], as it appears in object
    paths, and the first request path it gets when the random source
    starts with 11. *)
Definition example_portal : XdpPortal := {| sender := "1_42" |}.

Definition request_11 : string := "/org/freedesktop/portal/desktop/request/1_42/portal11".
Definition request_33 : string := "/org/freedesktop/portal/desktop/request/1_42/portal33".
Definition session_22 : string := "/org/freedesktop/portal/desktop/session/1_42/portal22".

Definition example_session (type : XdpSessionType) (state : XdpSessionState) (devices : Z)
  : XdpSession.t :=
  {| XdpSession.portal := example_portal;
     XdpSession.id := session_22;
     XdpSession.type := type;
     XdpSession.state := state;
     XdpSession.devices := devices;
     XdpSession.streams := None |}.

Definition example_world (type : XdpSessionType) (state : XdpSessionState) (devices : Z)
  : World :=
  {| env := fresh_env []; session := example_session type state devices |}.

Definition example_start_call : StartCall.t :=
  {| StartCall.portal := example_portal;
     StartCall.parent := None;
     StartCall.parent_handle := Some "";
     StartCall.signal_id := 1;
     StartCall.request_path := request_11;
     StartCall.cancelled_id := 0 |}.

Definition example_create_call : CreateCall.t :=
  {| CreateCall.portal := example_portal;
     CreateCall.id := session_22;
     CreateCall.type := XDP_SESSION_SCREENCAST;
     CreateCall.devices := 0;
     CreateCall.outputs := 1;
     CreateCall.multiple := false;
     CreateCall.signal_id := 2;
     CreateCall.request_path := request_11;
     CreateCall.cancelled_id := 0 |}.

(** The descriptors of a process that has opened nothing yet. *)
Definition example_descriptors : Descriptors := [(0, "stdin"); (1, "stdout"); (2, "stderr")].

Section Remote.
Context {headers : Headers}.

(** ** Session establishment *)

Definition create_call_free (call : CreateCall.t) (e : Env) : Env :=
  let e := if CreateCall.signal_id call =? 0 then e
           else g_dbus_connection_signal_unsubscribe (CreateCall.signal_id call) e in
  let e := if CreateCall.cancelled_id call =? 0 then e
           else g_signal_handler_disconnect (CreateCall.cancelled_id call) e in
  e.

(** The handlers take the block their [data] points to and give back what
    is left of it: [None] once [create_call_free] has run. *)
Definition sources_selected (response : Z) (ret : vardict)
  (call : CreateCall.t) (e : Env) : option CreateCall.t * Env :=
  let e :=
    if response =? 0 then
      let session := _xdp_session_new (CreateCall.portal call) (CreateCall.id call)
                       (CreateCall.type call) in
      g_task_return_pointer session e
    else if response =? 1 then
      g_task_return_new_error G_IO_ERROR_CANCELLED "Remote desktop canceled" e
    else if response =? 2 then
      g_task_return_new_error G_IO_ERROR_FAILED "Remote desktop failed" e
    else e in
  (None, create_call_free call e).

Definition select_sources (call : CreateCall.t) (e : Env) : CreateCall.t * Env :=
  let '(r, e) := g_random_int_range 0 G_MAXINT e in
  let token := portal_token r in
  let handle := g_strconcat [REQUEST_PATH_PREFIX; sender (CreateCall.portal call); "/"; token] in
  let '(sid, e) := g_dbus_connection_signal_subscribe handle cb_sources_selected e in
  let call := CreateCall.set_signal_id sid call in
  let options :=
    [("handle_token", GV_string token);
     ("types", GV_uint32 (CreateCall.outputs call));
     ("multiple", GV_boolean (CreateCall.multiple call))] in
  let e :=
    g_dbus_connection_call
      {| bus_name := PORTAL_BUS_NAME;
         object_path := PORTAL_OBJECT_PATH;
         interface_name := "org.freedesktop.portal.ScreenCast";
         method_name := "SelectSources";
         parameters := Some (GV_tuple [GV_object_path (CreateCall.id call); GV_vardict options]);
         with_cancellable :=
           match g_task_get_cancellable e with Some _ => true | None => false end |} e in
  (call, e).

Definition devices_selected (response : Z) (ret : vardict)
  (call : CreateCall.t) (e : Env) : option CreateCall.t * Env :=
  let '(live, e) :=
    if response =? 0 then
      let e := g_dbus_connection_signal_unsubscribe (CreateCall.signal_id call) e in
      let call := CreateCall.set_signal_id 0 call in
      if negb (CreateCall.outputs call =? 0) then
        let '(call, e) := select_sources call e in (Some call, e)
      else
        let e := g_task_return_pointer
                   (_xdp_session_new (CreateCall.portal call) (CreateCall.id call)
                      (CreateCall.type call)) e in
        (None, create_call_free call e)
    else if response =? 1 then
      (Some call, g_task_return_new_error G_IO_ERROR_CANCELLED "Remote desktop canceled" e)
    else if response =? 2 then
      (Some call, g_task_return_new_error G_IO_ERROR_FAILED "Remote desktop failed" e)
    else (Some call, e) in
  if negb (response =? 0) then
    match live with
    | Some call => (None, create_call_free call e)
    | None => (None, e)
    end
  else (live, e).

Definition select_devices (call : CreateCall.t) (e : Env) : CreateCall.t * Env :=
  let '(r, e) := g_random_int_range 0 G_MAXINT e in
  let token := portal_token r in
  let handle := g_strconcat [REQUEST_PATH_PREFIX; sender (CreateCall.portal call); "/"; token] in
  let '(sid, e) := g_dbus_connection_signal_subscribe handle cb_devices_selected e in
  let call := CreateCall.set_signal_id sid call in
  let options :=
    [("handle_token", GV_string token);
     ("type", GV_uint32 (CreateCall.devices call))] in
  let e :=
    g_dbus_connection_call
      {| bus_name := PORTAL_BUS_NAME;
         object_path := PORTAL_OBJECT_PATH;
         interface_name := "org.freedesktop.portal.RemoteDesktop";
         method_name := "SelectDevices";
         parameters := Some (GV_tuple [GV_object_path (CreateCall.id call); GV_vardict options]);
         with_cancellable :=
           match g_task_get_cancellable e with Some _ => true | None => false end |} e in
  (call, e).

Definition session_created (response : Z) (ret : vardict)
  (call : CreateCall.t) (e : Env) : option CreateCall.t * Env :=
  let '(live, e) :=
    if response =? 0 then
      let e := g_dbus_connection_signal_unsubscribe (CreateCall.signal_id call) e in
      let call := CreateCall.set_signal_id 0 call in
      if XdpSessionType_eqb (CreateCall.type call) XDP_SESSION_REMOTE_DESKTOP then
        let '(call, e) := select_devices call e in (Some call, e)
      else
        let '(call, e) := select_sources call e in (Some call, e)
    else if response =? 1 then
      (Some call, g_task_return_new_error G_IO_ERROR_CANCELLED "CreateSession canceled" e)
    else if response =? 2 then
      (Some call, g_task_return_new_error G_IO_ERROR_FAILED "CreateSession failed" e)
    else (Some call, e) in
  if negb (response =? 0) then
    match live with
    | Some call => (None, create_call_free call e)
    | None => (None, e)
    end
  else (live, e).

Definition create_cancelled_cb (call : CreateCall.t) (e : Env) : Env :=
  g_dbus_connection_call
    {| bus_name := PORTAL_BUS_NAME;
       object_path := CreateCall.request_path call;
       interface_name := REQUEST_INTERFACE;
       method_name := "Close";
       parameters := None;
       with_cancellable := false |} e.

Definition create_session (call : CreateCall.t) (e : Env) : CreateCall.t * Env :=
  let '(r, e) := g_random_int_range 0 G_MAXINT e in
  let token := portal_token r in
  let call := CreateCall.set_request_path
                (g_strconcat [REQUEST_PATH_PREFIX; sender (CreateCall.portal call); "/"; token])
                call in
  let '(sid, e) := g_dbus_connection_signal_subscribe (CreateCall.request_path call)
                     cb_session_created e in
  let call := CreateCall.set_signal_id sid call in
  let '(r', e) := g_random_int_range 0 G_MAXINT e in
  let session_token := portal_token r' in
  let call := CreateCall.set_id
                (g_strconcat [SESSION_PATH_PREFIX; sender (CreateCall.portal call); "/";
                              session_token])
                call in
  let cancellable := g_task_get_cancellable e in
  let '(call, e) :=
    match cancellable with
    | Some _ =>
        let '(hid, e) := g_signal_connect cb_create_cancelled e in
        (CreateCall.set_cancelled_id hid call, e)
    | None => (call, e)
    end in
  let options :=
    [("handle_token", GV_string token);
     ("session_handle_token", GV_string session_token)] in
  let e :=
    g_dbus_connection_call
      {| bus_name := PORTAL_BUS_NAME;
         object_path := PORTAL_OBJECT_PATH;
         interface_name :=
           if XdpSessionType_eqb (CreateCall.type call) XDP_SESSION_REMOTE_DESKTOP
           then "org.freedesktop.portal.RemoteDesktop"
           else "org.freedesktop.portal.ScreenCast";
         method_name := "CreateSession";
         parameters := Some (GV_tuple [GV_vardict options]);
         with_cancellable := match cancellable with Some _ => true | None => false end |} e in
  (call, e).

(** [g_task_new (portal, cancellable, callback, data)]: the task of the
    operation gets the caller's cancellable, NULL or not. *)
Definition g_task_new (c : option GCancellable) (e : Env) : Env :=
  {| subscriptions := subscriptions e;
     next_subscription := next_subscription e;
     cancellable := c;
     random := random e;
     trace := trace e |}.

(** The zeroed block of [g_new0 (CreateCall, 1)] with its fields filled in. *)
Definition new_create_call (portal : XdpPortal) (type : XdpSessionType)
  (devices outputs : Z) (multiple : bool) : CreateCall.t :=
  {| CreateCall.portal := portal;
     CreateCall.id := "";
     CreateCall.type := type;
     CreateCall.devices := devices;
     CreateCall.outputs := outputs;
     CreateCall.multiple := multiple;
     CreateCall.signal_id := 0;
     CreateCall.request_path := "";
     CreateCall.cancelled_id := 0 |}.

Definition xdp_portal_create_screencast_session (portal : XdpPortal)
  (outputs : Z) (multiple : bool) (cancellable : option GCancellable) (e : Env)
  : CreateCall.t * Env :=
  let call := new_create_call portal XDP_SESSION_SCREENCAST XDP_DEVICE_NONE outputs multiple in
  let e := g_task_new cancellable e in
  create_session call e.

Definition xdp_portal_create_remote_desktop_session (portal : XdpPortal)
  (devices outputs : Z) (multiple : bool) (cancellable : option GCancellable) (e : Env)
  : CreateCall.t * Env :=
  let call := new_create_call portal XDP_SESSION_REMOTE_DESKTOP devices outputs multiple in
  let e := g_task_new cancellable e in
  create_session call e.

(** ** Start, Close and the PipeWire descriptor *)

Definition start_call_free (call : StartCall.t) (e : Env) : Env :=
  let e := match StartCall.parent call with
           | Some _ => log ev_unexport e
           | None => e
           end in
  let e := if StartCall.signal_id call =? 0 then e
           else g_dbus_connection_signal_unsubscribe (StartCall.signal_id call) e in
  let e := if StartCall.cancelled_id call =? 0 then e
           else g_signal_handler_disconnect (StartCall.cancelled_id call) e in
  e.

(** [session_started] ends in [start_call_free] on every path: the block
    is gone when it returns. *)
Definition session_started (response : Z) (ret : vardict)
  (call : StartCall.t) (w : World) : World :=
  let w :=
    if response =? 0 then
      let w := match g_variant_lookup_value ret "devices" "u" with
               | Some (GV_uint32 devices) =>
                   update_session (fun s => _xdp_session_set_devices s devices) w
               | _ => w
               end in
      let w := match g_variant_lookup_value ret "streams" "a(ua{sv})" with
               | Some streams =>
                   update_session (fun s => _xdp_session_set_streams s streams) w
               | None => w
               end in
      lift (g_task_return_boolean true) w
    else if response =? 1 then
      lift (g_task_return_new_error G_IO_ERROR_CANCELLED "Screencast canceled") w
    else if response =? 2 then
      lift (g_task_return_new_error G_IO_ERROR_FAILED "Screencast failed") w
    else w in
  let w := update_session
             (fun s => _xdp_session_set_session_state s
                         (if response =? 0 then XDP_SESSION_ACTIVE else XDP_SESSION_CLOSED))
             w in
  lift (start_call_free call) w.

Definition start_cancelled_cb (call : StartCall.t) (e : Env) : Env :=
  g_dbus_connection_call
    {| bus_name := PORTAL_BUS_NAME;
       object_path := StartCall.request_path call;
       interface_name := REQUEST_INTERFACE;
       method_name := "Close";
       parameters := None;
       with_cancellable := false |} e.

Definition start_session (call : StartCall.t) (w : World) : StartCall.t * World :=
  match StartCall.parent_handle call with
  | None => (call, lift (log ev_export) w)
  | Some parent_handle =>
      let e := env w in
      let '(r, e) := g_random_int_range 0 G_MAXINT e in
      let token := portal_token r in
      let call := StartCall.set_request_path
                    (g_strconcat [REQUEST_PATH_PREFIX; sender (StartCall.portal call); "/"; token])
                    call in
      let '(sid, e) := g_dbus_connection_signal_subscribe (StartCall.request_path call)
                         cb_session_started e in
      let call := StartCall.set_signal_id sid call in
      let cancellable := g_task_get_cancellable e in
      let '(call, e) :=
        match cancellable with
        | Some _ =>
            let '(hid, e) := g_signal_connect cb_start_cancelled e in
            (StartCall.set_cancelled_id hid call, e)
        | None => (call, e)
        end in
      let options := [("handle_token", GV_string token)] in
      let e :=
        g_dbus_connection_call
          {| bus_name := PORTAL_BUS_NAME;
             object_path := PORTAL_OBJECT_PATH;
             interface_name :=
               if XdpSessionType_eqb (XdpSession.type (session w)) XDP_SESSION_REMOTE_DESKTOP
               then "org.freedesktop.portal.RemoteDesktop"
               else "org.freedesktop.portal.ScreenCast";
             method_name := "Start";
             parameters := Some (GV_tuple [GV_object_path (XdpSession.id (session w));
                                           GV_string parent_handle;
                                           GV_vardict options]);
             with_cancellable := match cancellable with Some _ => true | None => false end |}
          e in
      (call, {| env := e; session := session w |})
  end.

(** [g_strdup] of a NULL handle is NULL. *)
Definition parent_exported (handle : option string) (call : StartCall.t) (w : World)
  : StartCall.t * World :=
  start_session (StartCall.set_parent_handle handle call) w.

(** The only check of [xdp_session_start] is [XDP_IS_SESSION], which every
    value of the session type passes. *)
Definition xdp_session_start (parent : option XdpParent)
  (cancellable : option GCancellable) (w : World) : StartCall.t * World :=
  let call :=
    {| StartCall.portal := XdpSession.portal (session w);
       StartCall.parent := parent;
       StartCall.parent_handle := match parent with Some _ => None | None => Some "" end;
       StartCall.signal_id := 0;
       StartCall.request_path := "";
       StartCall.cancelled_id := 0 |} in
  let w := lift (g_task_new cancellable) w in
  start_session call w.

Definition xdp_session_close (w : World) : World :=
  let w := lift (g_dbus_connection_call
                   {| bus_name := PORTAL_BUS_NAME;
                      object_path := XdpSession.id (session w);
                      interface_name := SESSION_INTERFACE;
                      method_name := "Close";
                      parameters := None;
                      with_cancellable := false |}) w in
  let w := update_session (fun s => _xdp_session_set_session_state s XDP_SESSION_CLOSED) w in
  lift (log (ev_emit "closed")) w.

(** [g_dbus_connection_call_with_unix_fd_list_sync]: [answer] is what the
    bus gives back, the reply and the files whose descriptors come with it
    (no list when none come).  A reply of another type than the expected
    one is a failure of the call, and such a reply is dropped together
    with its descriptors. *)
Definition g_dbus_connection_call_with_unix_fd_list_sync (c : BusCall)
  (reply_type : string) (answer : option (GVariant * option (list File)))
  (t : Descriptors) (e : Env)
  : option (GVariant * option GUnixFDList) * Descriptors * Env :=
  match answer with
  | Some (ret, files) =>
      if String.eqb (g_variant_get_type_string ret) reply_type
      then match files with
           | Some files =>
               let '(fds, t) := receive files t in
               (Some (ret, Some fds), t, log (ev_call_sync c) e)
           | None => (Some (ret, None), t, log (ev_call_sync c) e)
           end
      else (None, t, log (ev_call_sync c) e)
  | None => (None, t, log (ev_call_sync c) e)
  end.

(** [granted] is the system's answer to the request for a duplicate, [t]
    the descriptor table of the process.  [g_warning] is logged as
    [ev_warning].  [ret] and [fd_list] are [g_autoptr] variables; freeing
    the reply has no effect here, freeing the list closes its
    descriptors.  A reply that passed the type check is a tuple of one
    handle, which [g_variant_get] reads into [fd_out].  The result is
    [None] when the index of the reply is negative: the read before the
    array has no defined result. *)
Definition xdp_session_open_pipewire_remote
  (answer : option (GVariant * option (list File))) (granted : bool)
  (t : Descriptors) (w : World) : option (Z * Descriptors * World) :=
  let '(ret, t, e) :=
    g_dbus_connection_call_with_unix_fd_list_sync
      {| bus_name := PORTAL_BUS_NAME;
         object_path := PORTAL_OBJECT_PATH;
         interface_name := "org.freedesktop.portal.ScreenCast";
         method_name := "OpenPipeWireRemote";
         parameters := Some (GV_tuple [GV_object_path (XdpSession.id (session w));
                                       GV_vardict []]);
         with_cancellable := false |}
      "(h)" answer t (env w) in
  match ret with
  | None => Some (-1, t, {| env := log ev_warning e; session := session w |})
  | Some (ret, fd_list) =>
      let fd_out := match ret with GV_tuple [GV_handle h] => h | _ => 0 end in
      match g_unix_fd_list_get fd_list fd_out granted t e with
      | Some (fd, t, e) =>
          Some (fd, glib_autoptr_cleanup_GUnixFDList fd_list t,
                {| env := e; session := session w |})
      | None => None
      end
  end.

(** ** Input injection *)

(** [g_return_if_fail]: when the condition fails a critical warning is
    logged and the function returns; nothing after it runs. *)
Definition g_return_if_fail (condition : bool) (body : World -> World) (w : World) : World :=
  if condition then body w else lift (log ev_critical) w.

(** The instance check of the GObject type; a value of the session type
    is a session. *)
Definition XDP_IS_SESSION (s : XdpSession.t) : bool := true.

Definition xdp_session_pointer_motion (dx : double) (dy : double) (w : World) : World :=
  g_return_if_fail
    (XDP_IS_SESSION (session w) &&
     XdpSessionType_eqb (XdpSession.type (session w)) XDP_SESSION_REMOTE_DESKTOP &&
     XdpSessionState_eqb (XdpSession.state (session w)) XDP_SESSION_ACTIVE &&
     negb (Z.land (XdpSession.devices (session w)) XDP_DEVICE_POINTER =? 0))
    (lift (g_dbus_connection_call
             {| bus_name := PORTAL_BUS_NAME;
                object_path := PORTAL_OBJECT_PATH;
                interface_name := "org.freedesktop.portal.RemoteDesktop";
                method_name := "NotifyPointerMotion";
                parameters := Some (GV_tuple [GV_object_path (XdpSession.id (session w));
                                              GV_vardict [];
                                              GV_double dx;
                                              GV_double dy]);
                with_cancellable := false |}))
    w.

Definition xdp_session_pointer_position (stream : Z) (x : double) (y : double)
  (w : World) : World :=
  g_return_if_fail
    (XDP_IS_SESSION (session w) &&
     XdpSessionType_eqb (XdpSession.type (session w)) XDP_SESSION_REMOTE_DESKTOP &&
     XdpSessionState_eqb (XdpSession.state (session w)) XDP_SESSION_ACTIVE &&
     negb (Z.land (XdpSession.devices (session w)) XDP_DEVICE_POINTER =? 0))
    (lift (g_dbus_connection_call
             {| bus_name := PORTAL_BUS_NAME;
                object_path := PORTAL_OBJECT_PATH;
                interface_name := "org.freedesktop.portal.RemoteDesktop";
                method_name := "NotifyPointerMotionAbsolute";
                parameters := Some (GV_tuple [GV_object_path (XdpSession.id (session w));
                                              GV_vardict [];
                                              GV_uint32 stream;
                                              GV_double x;
                                              GV_double y]);
                with_cancellable := false |}))
    w.

Definition xdp_session_pointer_button (button : Z) (state : Z) (w : World) : World :=
  g_return_if_fail
    (XDP_IS_SESSION (session w) &&
     XdpSessionType_eqb (XdpSession.type (session w)) XDP_SESSION_REMOTE_DESKTOP &&
     XdpSessionState_eqb (XdpSession.state (session w)) XDP_SESSION_ACTIVE &&
     negb (Z.land (XdpSession.devices (session w)) XDP_DEVICE_POINTER =? 0))
    (lift (g_dbus_connection_call
             {| bus_name := PORTAL_BUS_NAME;
                object_path := PORTAL_OBJECT_PATH;
                interface_name := "org.freedesktop.portal.RemoteDesktop";
                method_name := "NotifyPointerButton";
                parameters := Some (GV_tuple [GV_object_path (XdpSession.id (session w));
                                              GV_vardict [];
                                              GV_int32 button;
                                              GV_uint32 state]);
                with_cancellable := false |}))
    w.

Definition xdp_session_pointer_axis (finish : bool) (dx : double) (dy : double)
  (w : World) : World :=
  g_return_if_fail
    (XDP_IS_SESSION (session w) &&
     XdpSessionType_eqb (XdpSession.type (session w)) XDP_SESSION_REMOTE_DESKTOP &&
     XdpSessionState_eqb (XdpSession.state (session w)) XDP_SESSION_ACTIVE &&
     negb (Z.land (XdpSession.devices (session w)) XDP_DEVICE_POINTER =? 0))
    (lift (g_dbus_connection_call
             {| bus_name := PORTAL_BUS_NAME;
                object_path := PORTAL_OBJECT_PATH;
                interface_name := "org.freedesktop.portal.RemoteDesktop";
                method_name := "NotifyPointerAxis";
                parameters := Some (GV_tuple [GV_object_path (XdpSession.id (session w));
                                              GV_vardict [("finish", GV_boolean finish)];
                                              GV_double dx;
                                              GV_double dy]);
                with_cancellable := false |}))
    w.

Definition xdp_session_pointer_axis_discrete (axis : Z) (steps : Z) (w : World) : World :=
  g_return_if_fail
    (XDP_IS_SESSION (session w) &&
     XdpSessionType_eqb (XdpSession.type (session w)) XDP_SESSION_REMOTE_DESKTOP &&
     XdpSessionState_eqb (XdpSession.state (session w)) XDP_SESSION_ACTIVE &&
     negb (Z.land (XdpSession.devices (session w)) XDP_DEVICE_POINTER =? 0))
    (lift (g_dbus_connection_call
             {| bus_name := PORTAL_BUS_NAME;
                object_path := PORTAL_OBJECT_PATH;
                interface_name := "org.freedesktop.portal.RemoteDesktop";
                method_name := "NotifyPointerAxisDiscrete";
                parameters := Some (GV_tuple [GV_object_path (XdpSession.id (session w));
                                              GV_vardict [];
                                              GV_uint32 axis;
                                              GV_int32 steps]);
                with_cancellable := false |}))
    w.

Definition xdp_session_keyboard_key (keysym : bool) (key : Z) (state : Z) (w : World) : World :=
  g_return_if_fail
    (XDP_IS_SESSION (session w) &&
     XdpSessionType_eqb (XdpSession.type (session w)) XDP_SESSION_REMOTE_DESKTOP &&
     XdpSessionState_eqb (XdpSession.state (session w)) XDP_SESSION_ACTIVE &&
     negb (Z.land (XdpSession.devices (session w)) XDP_DEVICE_KEYBOARD =? 0))
    (lift (g_dbus_connection_call
             {| bus_name := PORTAL_BUS_NAME;
                object_path := PORTAL_OBJECT_PATH;
                interface_name := "org.freedesktop.portal.RemoteDesktop";
                method_name := if keysym then "NotifyKeyboardKeysym" else "NotifyKeyboardKeycode";
                parameters := Some (GV_tuple [GV_object_path (XdpSession.id (session w));
                                              GV_vardict [];
                                              GV_int32 key;
                                              GV_uint32 state]);
                with_cancellable := false |}))
    w.

Definition xdp_session_touch_down (stream : Z) (slot : Z) (x : double) (y : double)
  (w : World) : World :=
  g_return_if_fail
    (XDP_IS_SESSION (session w) &&
     XdpSessionType_eqb (XdpSession.type (session w)) XDP_SESSION_REMOTE_DESKTOP &&
     XdpSessionState_eqb (XdpSession.state (session w)) XDP_SESSION_ACTIVE &&
     negb (Z.land (XdpSession.devices (session w)) XDP_DEVICE_TOUCHSCREEN =? 0))
    (lift (g_dbus_connection_call
             {| bus_name := PORTAL_BUS_NAME;
                object_path := PORTAL_OBJECT_PATH;
                interface_name := "org.freedesktop.portal.RemoteDesktop";
                method_name := "NotifyTouchDown";
                parameters := Some (GV_tuple [GV_object_path (XdpSession.id (session w));
                                              GV_vardict [];
                                              GV_uint32 stream;
                                              GV_uint32 slot;
                                              GV_double x;
                                              GV_double y]);
                with_cancellable := false |}))
    w.

Definition xdp_session_touch_position (stream : Z) (slot : Z) (x : double) (y : double)
  (w : World) : World :=
  g_return_if_fail
    (XDP_IS_SESSION (session w) &&
     XdpSessionType_eqb (XdpSession.type (session w)) XDP_SESSION_REMOTE_DESKTOP &&
     XdpSessionState_eqb (XdpSession.state (session w)) XDP_SESSION_ACTIVE &&
     negb (Z.land (XdpSession.devices (session w)) XDP_DEVICE_TOUCHSCREEN =? 0))
    (lift (g_dbus_connection_call
             {| bus_name := PORTAL_BUS_NAME;
                object_path := PORTAL_OBJECT_PATH;
                interface_name := "org.freedesktop.portal.RemoteDesktop";
                method_name := "NotifyTouchMotion";
                parameters := Some (GV_tuple [GV_object_path (XdpSession.id (session w));
                                              GV_vardict [];
                                              GV_uint32 stream;
                                              GV_uint32 slot;
                                              GV_double x;
                                              GV_double y]);
                with_cancellable := false |}))
    w.

Definition xdp_session_touch_up (slot : Z) (w : World) : World :=
  g_return_if_fail
    (XDP_IS_SESSION (session w) &&
     XdpSessionType_eqb (XdpSession.type (session w)) XDP_SESSION_REMOTE_DESKTOP &&
     XdpSessionState_eqb (XdpSession.state (session w)) XDP_SESSION_ACTIVE &&
     negb (Z.land (XdpSession.devices (session w)) XDP_DEVICE_TOUCHSCREEN =? 0))
    (lift (g_dbus_connection_call
             {| bus_name := PORTAL_BUS_NAME;
                object_path := PORTAL_OBJECT_PATH;
                interface_name := "org.freedesktop.portal.RemoteDesktop";
                method_name := "NotifyTouchMotion";
                parameters := Some (GV_tuple [GV_object_path (XdpSession.id (session w));
                                              GV_vardict [];
                                              GV_uint32 slot]);
                with_cancellable := false |}))
    w.

(** ** The main loop around one establishment *)

(** What the bus and the caller can do to an establishment in flight: the
    portal emits Response on an object path, the caller cancels. *)
Inductive Input :=
| in_response (path : string) (response : Z) (ret : vardict)
| in_cancel.

(** The environment and the block of the operation, [None] once freed. *)
Record Establishment := { est_env : Env; est_call : option CreateCall.t }.

Definition find_subscription (path : string) (e : Env) : option Subscription :=
  find (fun s => String.eqb (sub_object_path s) path) (subscriptions e).

(** The handler a subscription of an establishment names.
    [session_started] belongs to the Start flow and is never subscribed
    with a [CreateCall]. *)
Definition handler (cb : SignalCallback) (response : Z) (ret : vardict)
  (call : CreateCall.t) (e : Env) : option CreateCall.t * Env :=
  match cb with
  | cb_session_created => session_created response ret call e
  | cb_devices_selected => devices_selected response ret call e
  | cb_sources_selected => sources_selected response ret call e
  | cb_session_started => (Some call, e)
  end.

(** A Response reaches the handler subscribed to its object path, with
    the block as its data. *)
Definition deliver (path : string) (response : Z) (ret : vardict)
  (st : Establishment) : Establishment :=
  match est_call st, find_subscription path (est_env st) with
  | Some call, Some s =>
      let '(live, e) := handler (sub_callback s) response ret call (est_env st) in
      {| est_env := e; est_call := live |}
  | _, _ => st
  end.

Definition set_cancelled (e : Env) : Env :=
  {| subscriptions := subscriptions e;
     next_subscription := next_subscription e;
     cancellable :=
       match cancellable e with
       | Some c => Some {| cancelled := true; handlers := handlers c;
                           next_handler := next_handler c |}
       | None => None
       end;
     random := random e;
     trace := trace e |}.

(** [g_cancellable_cancel]: the first cancellation runs the connected
    handlers, a later one does nothing. *)
Definition g_cancellable_cancel (st : Establishment) : Establishment :=
  match cancellable (est_env st) with
  | None => st
  | Some c =>
      if cancelled c then st
      else
        let e := set_cancelled (est_env st) in
        let e :=
          match est_call st with
          | Some call =>
              fold_left (fun e h =>
                           match snd h with
                           | cb_create_cancelled => create_cancelled_cb call e
                           | cb_start_cancelled => e
                           end)
                        (handlers c) e
          | None => e
          end in
        {| est_env := e; est_call := est_call st |}
  end.

Definition step (st : Establishment) (i : Input) : Establishment :=
  match i with
  | in_response path response ret => deliver path response ret st
  | in_cancel => g_cancellable_cancel st
  end.

Definition run (inputs : list Input) (st : Establishment) : Establishment :=
  fold_left step inputs st.

(** The two public entry points, by session type.  [devices] is ignored
    for a screencast, which passes [XDP_DEVICE_NONE]. *)
Definition establish (type : XdpSessionType) (portal : XdpPortal)
  (devices outputs : Z) (multiple : bool) (cancellable : option GCancellable)
  (rand : list Z) : Establishment :=
  let '(call, e) :=
    match type with
    | XDP_SESSION_SCREENCAST =>
        xdp_portal_create_screencast_session portal outputs multiple cancellable
          (fresh_env rand)
    | XDP_SESSION_REMOTE_DESKTOP =>
        xdp_portal_create_remote_desktop_session portal devices outputs multiple cancellable
          (fresh_env rand)
    end in
  {| est_env := e; est_call := Some call |}.

(** ** Reading the trace *)

Definition is_return (ev : Event) : bool :=
  match ev with ev_return _ => true | _ => false end.

Definition is_call_to (method : string) (ev : Event) : bool :=
  match ev with
  | ev_call c => String.eqb (method_name c) method
  | _ => false
  end.

Definition is_bus_call (ev : Event) : bool :=
  match ev with ev_call _ | ev_call_sync _ => true | _ => false end.

(** The task results handed to the caller, the calls to one method and
    all bus calls, each in order. *)
Definition returns (t : list Event) : list Event := filter is_return t.
Definition calls_to (method : string) (t : list Event) : list Event :=
  filter (is_call_to method) t.
Definition bus_calls (t : list Event) : list Event := filter is_bus_call t.

(** What a step added to the trace. *)
Definition emitted (before after : Env) (evs : list Event) : Prop :=
  trace after = trace before ++ evs.

(** ** The input operations as one family *)

Inductive InputOp :=
| op_pointer_motion (dx dy : double)
| op_pointer_position (stream : Z) (x y : double)
| op_pointer_button (button state : Z)
| op_pointer_axis (finish : bool) (dx dy : double)
| op_pointer_axis_discrete (axis steps : Z)
| op_keyboard_key (keysym : bool) (key state : Z)
| op_touch_down (stream slot : Z) (x y : double)
| op_touch_position (stream slot : Z) (x y : double)
| op_touch_up (slot : Z).

Definition inject (op : InputOp) : World -> World :=
  match op with
  | op_pointer_motion dx dy => xdp_session_pointer_motion dx dy
  | op_pointer_position stream x y => xdp_session_pointer_position stream x y
  | op_pointer_button button state => xdp_session_pointer_button button state
  | op_pointer_axis finish dx dy => xdp_session_pointer_axis finish dx dy
  | op_pointer_axis_discrete axis steps => xdp_session_pointer_axis_discrete axis steps
  | op_keyboard_key keysym key state => xdp_session_keyboard_key keysym key state
  | op_touch_down stream slot x y => xdp_session_touch_down stream slot x y
  | op_touch_position stream slot x y => xdp_session_touch_position stream slot x y
  | op_touch_up slot => xdp_session_touch_up slot
  end.

(** The capability each operation is documented to need. *)
Definition required_device (op : InputOp) : Z :=
  match op with
  | op_pointer_motion _ _ | op_pointer_position _ _ _ | op_pointer_button _ _
  | op_pointer_axis _ _ _ | op_pointer_axis_discrete _ _ => XDP_DEVICE_POINTER
  | op_keyboard_key _ _ _ => XDP_DEVICE_KEYBOARD
  | op_touch_down _ _ _ _ | op_touch_position _ _ _ _ | op_touch_up _ => XDP_DEVICE_TOUCHSCREEN
  end.

(** The three preconditions of an input operation. *)
Definition may_inject (device : Z) (s : XdpSession.t) : Prop :=
  XdpSession.type s = XDP_SESSION_REMOTE_DESKTOP /\
  XdpSession.state s = XDP_SESSION_ACTIVE /\
  Z.land (XdpSession.devices s) device <> 0.

(** Whether a dictionary has an entry for a key, of whatever type. *)
Definition vardict_has (key : string) (dict : vardict) : bool :=
  existsb (fun kv => String.eqb (fst kv) key) dict.

(** The responses on which a handler of an establishment completes the
    task: the codes 1 and 2 at every stage, and code 0 at the last one. *)
Definition completing (cb : SignalCallback) (response : Z) : Prop :=
  response = 1 \/ response = 2 \/ (response = 0 /\ cb = cb_sources_selected).

(** The invariant of an establishment of type [ty] with output mask
    [outs]: the task was returned at most once, and not at all while the
    block lives; a screencast never selected devices and a remote desktop
    without outputs never selected sources; a live block owns the one
    subscription of the operation, a freed block leaves none. *)
Record Inv (ty : XdpSessionType) (outs : Z) (st : Establishment) : Prop := {
  inv_returns : (length (returns (trace (est_env st))) <= 1)%nat;
  inv_devices : ty = XDP_SESSION_SCREENCAST ->
                calls_to "SelectDevices" (trace (est_env st)) = [];
  inv_sources : ty = XDP_SESSION_REMOTE_DESKTOP -> outs = 0 ->
                calls_to "SelectSources" (trace (est_env st)) = [];
  inv_call : match est_call st with
             | None => subscriptions (est_env st) = []
             | Some c =>
                 CreateCall.type c = ty /\ CreateCall.outputs c = outs /\
                 returns (trace (est_env st)) = [] /\
                 exists s, subscriptions (est_env st) = [s] /\
                           sub_id s = CreateCall.signal_id c /\ 0 < sub_id s
             end
}.

(** The order the specification asks of a response handler, read off
    the events it emits: no task return before the first unsubscription. *)
Fixpoint unsubscribes_first (evs : list Event) : bool :=
  match evs with
  | [] => true
  | ev_unsubscribe _ :: _ => true
  | ev_return _ :: _ => false
  | _ :: rest => unsubscribes_first rest
  end.

(** ** Further readings of the trace *)

(** The methods of the bus calls of a trace, in order, the Close calls
    of cancellations left out: the stages an establishment has called. *)
Definition stage_calls (t : list Event) : list string :=
  flat_map (fun ev =>
              match ev with
              | ev_call c => if String.eqb (method_name c) "Close" then [] else [method_name c]
              | _ => []
              end) t.

(** The stages called so far when the pending subscription is for the
    given handler. *)
Definition stages_until (ty : XdpSessionType) (cb : SignalCallback) : list string :=
  match cb with
  | cb_session_created => ["CreateSession"]
  | cb_devices_selected => ["CreateSession"; "SelectDevices"]
  | cb_sources_selected =>
      match ty with
      | XDP_SESSION_SCREENCAST => ["CreateSession"; "SelectSources"]
      | XDP_SESSION_REMOTE_DESKTOP => ["CreateSession"; "SelectDevices"; "SelectSources"]
      end
  | cb_session_started => []
  end.

(** The stages an establishment of the given type and output mask goes
    through when every response is 0. *)
Definition all_stages (ty : XdpSessionType) (outs : Z) : list string :=
  match ty with
  | XDP_SESSION_SCREENCAST => ["CreateSession"; "SelectSources"]
  | XDP_SESSION_REMOTE_DESKTOP =>
      if outs =? 0 then ["CreateSession"; "SelectDevices"]
      else ["CreateSession"; "SelectDevices"; "SelectSources"]
  end.

(** The Close call both cancellation handlers make on a request path. *)
Definition close_request (path : string) : BusCall :=
  {| bus_name := PORTAL_BUS_NAME;
     object_path := path;
     interface_name := REQUEST_INTERFACE;
     method_name := "Close";
     parameters := None;
     with_cancellable := false |}.

(** Events by kind. *)
Definition is_subscribe (ev : Event) : bool :=
  match ev with ev_subscribe _ => true | _ => false end.

Definition is_unsubscribe (ev : Event) : bool :=
  match ev with ev_unsubscribe _ => true | _ => false end.

Definition is_connect (ev : Event) : bool :=
  match ev with ev_connect _ _ => true | _ => false end.

Definition is_disconnect (ev : Event) : bool :=
  match ev with ev_disconnect _ => true | _ => false end.

Definition is_export (ev : Event) : bool :=
  match ev with ev_export => true | _ => false end.

Definition is_unexport (ev : Event) : bool :=
  match ev with ev_unexport => true | _ => false end.

(** A SelectDevices or SelectSources call carries the session
    identifier and the masks of the block. *)
Definition forwarded (c0 : CreateCall.t) (ev : Event) : Prop :=
  match ev with
  | ev_call c =>
      (method_name c = "SelectDevices" ->
       exists token,
         parameters c =
           Some (GV_tuple [GV_object_path (CreateCall.id c0);
                           GV_vardict [("handle_token", GV_string token);
                                       ("type", GV_uint32 (CreateCall.devices c0))]])) /\
      (method_name c = "SelectSources" ->
       exists token,
         parameters c =
           Some (GV_tuple [GV_object_path (CreateCall.id c0);
                           GV_vardict [("handle_token", GV_string token);
                                       ("types", GV_uint32 (CreateCall.outputs c0));
                                       ("multiple", GV_boolean (CreateCall.multiple c0))]]))
  | _ => True
  end.

(** What an establishment returns to its task: a session made from the
    block, or an error; never a boolean. *)
Definition result_of (c0 : CreateCall.t) (r : TaskResult) : Prop :=
  match r with
  | task_pointer s =>
      s = _xdp_session_new (CreateCall.portal c0) (CreateCall.id c0) (CreateCall.type c0)
  | task_error _ _ => True
  | task_boolean _ => False
  end.

(** The events the cancellation handlers of an establishment add. *)
Definition cancelled_calls (call : CreateCall.t) (hs : list (Z * CancelledCallback))
  : list Event :=
  flat_map (fun h =>
              match snd h with
              | cb_create_cancelled =>
                  [ev_call (close_request (CreateCall.request_path call))]
              | cb_start_cancelled => []
              end) hs.

(** Whether the cancellable of the task, if any, has been cancelled. *)
Definition cancelled_flag (e : Env) : option bool := option_map cancelled (cancellable e).

(** The object path of the request with the given handle token. *)
Definition request_path_of (portal : XdpPortal) (token : string) : string :=
  g_strconcat [REQUEST_PATH_PREFIX; sender portal; "/"; token].

(** The number [g_random_int_range (0, G_MAXINT)] gives next. *)
Definition next_random (e : Env) : Z := hd 0 (random e) mod G_MAXINT.

(** The token made from the draw with the given index of a random
    source. *)
Definition token_of_draw (rand : list Z) (i : nat) : string :=
  portal_token (nth i rand 0 mod G_MAXINT).

(** The draws of an establishment that make request tokens: the first
    one, for CreateSession, and after the draw for the session token one
    for every selection request. *)
Definition request_draws : list nat := [0; 2; 3]%nat.

(** The request paths subscribed to, in the order of the subscriptions. *)
Definition subscribed_paths (t : list Event) : list string :=
  flat_map (fun ev =>
              match ev with
              | ev_subscribe s => [sub_object_path s]
              | _ => []
              end) t.

(** Two sessions are the same negotiated grant: same portal, identifier
    and type. *)
Definition same_identity (a b : XdpSession.t) : Prop :=
  XdpSession.portal a = XdpSession.portal b /\
  XdpSession.id a = XdpSession.id b /\
  XdpSession.type a = XdpSession.type b.

(** ** The main loop around one Start

    What can happen to a Start in flight: the host hands over the handle
    of the exported parent (NULL when it has none), the portal emits
    Response on an object path, the caller cancels. *)
Inductive StartInput :=
| sin_exported (handle : option string)
| sin_response (path : string) (response : Z) (ret : vardict)
| sin_cancel.

(** The world and the block of the Start, [None] once freed. *)
Record Activation := { act_world : World; act_call : option StartCall.t }.

(** The host calls [parent_exported] once for each export it was asked
    for: the block is waiting when it has a parent and no handle yet. *)
Definition start_exported (handle : option string) (st : Activation) : Activation :=
  match act_call st with
  | Some call =>
      match StartCall.parent call, StartCall.parent_handle call with
      | Some _, None =>
          let '(call, w) := parent_exported handle call (act_world st) in
          {| act_world := w; act_call := Some call |}
      | _, _ => st
      end
  | None => st
  end.

(** A Response reaches [session_started] through the subscription on
    its object path; the handler frees the block. *)
Definition start_deliver (path : string) (response : Z) (ret : vardict)
  (st : Activation) : Activation :=
  match act_call st, find_subscription path (env (act_world st)) with
  | Some call, Some s =>
      match sub_callback s with
      | cb_session_started =>
          {| act_world := session_started response ret call (act_world st);
             act_call := None |}
      | _ => st
      end
  | _, _ => st
  end.

(** [g_cancellable_cancel] for the cancellable of a Start. *)
Definition start_cancel (st : Activation) : Activation :=
  match cancellable (env (act_world st)) with
  | None => st
  | Some c =>
      if cancelled c then st
      else
        let e := set_cancelled (env (act_world st)) in
        let e :=
          match act_call st with
          | Some call =>
              fold_left (fun e h =>
                           match snd h with
                           | cb_start_cancelled => start_cancelled_cb call e
                           | cb_create_cancelled => e
                           end)
                        (handlers c) e
          | None => e
          end in
        {| act_world := {| env := e; session := session (act_world st) |};
           act_call := act_call st |}
  end.

Definition start_step (st : Activation) (i : StartInput) : Activation :=
  match i with
  | sin_exported handle => start_exported handle st
  | sin_response path response ret => start_deliver path response ret st
  | sin_cancel => start_cancel st
  end.

Definition start_run (inputs : list StartInput) (st : Activation) : Activation :=
  fold_left start_step inputs st.

(** [xdp_session_start] in a process that has subscribed to nothing. *)
Definition activate (parent : option XdpParent) (cancel : option GCancellable)
  (s : XdpSession.t) (rand : list Z) : Activation :=
  let '(call, w) := xdp_session_start parent cancel {| env := fresh_env rand; session := s |} in
  {| act_world := w; act_call := Some call |}.

(** ** Invariants of the runs

    Stages: a live block has called the stages up to the one it waits
    for; the stages called are always a prefix, from CreateSession on, of
    those the request needs, and a session is returned only after all of
    them. *)
Record InvS (ty : XdpSessionType) (outs : Z) (st : Establishment) : Prop := {
  invs_live : forall c, est_call st = Some c ->
     exists s, subscriptions (est_env st) = [s] /\
       stage_calls (trace (est_env st)) = stages_until ty (sub_callback s) /\
       (sub_callback s = cb_devices_selected -> ty = XDP_SESSION_REMOTE_DESKTOP) /\
       (sub_callback s = cb_sources_selected -> ty = XDP_SESSION_REMOTE_DESKTOP -> outs <> 0) /\
       sub_callback s <> cb_session_started;
  invs_prefix : exists rest, stage_calls (trace (est_env st)) ++ rest = all_stages ty outs;
  invs_first : exists rest, stage_calls (trace (est_env st)) = "CreateSession" :: rest;
  invs_result : forall s, In (ev_return (task_pointer s)) (trace (est_env st)) ->
                          stage_calls (trace (est_env st)) = all_stages ty outs
}.

(** Block: a live block differs from the one [create_session] left only
    in its subscription identifier; the calls carry its fields, the
    results are made from it, and subscriptions are balanced. *)
Record InvB (c0 : CreateCall.t) (st : Establishment) : Prop := {
  invb_block : forall c, est_call st = Some c ->
                 c = CreateCall.set_signal_id (CreateCall.signal_id c) c0;
  invb_forward : Forall (forwarded c0) (trace (est_env st));
  invb_result : forall r, In (ev_return r) (trace (est_env st)) -> result_of c0 r;
  invb_subs : length (filter is_subscribe (trace (est_env st))) =
              (length (filter is_unsubscribe (trace (est_env st))) +
               length (subscriptions (est_env st)))%nat
}.

(** Cancellation, for a caller who passed a fresh cancellable or none:
    the handler is connected exactly while the block lives, and a Close
    goes out at most once, after a cancellation, on the path the block
    recorded. *)
Record InvK (c0 : CreateCall.t) (st : Establishment) : Prop := {
  invk_none : cancellable (est_env st) = None ->
      CreateCall.cancelled_id c0 = 0 /\
      calls_to "Close" (trace (est_env st)) = [] /\
      filter is_connect (trace (est_env st)) = [] /\
      filter is_disconnect (trace (est_env st)) = [];
  invk_some : forall k, cancellable (est_env st) = Some k ->
      CreateCall.cancelled_id c0 <> 0 /\
      handlers k = match est_call st with
                   | Some _ => [(CreateCall.cancelled_id c0, cb_create_cancelled)]
                   | None => []
                   end /\
      (cancelled k = false -> calls_to "Close" (trace (est_env st)) = []) /\
      (calls_to "Close" (trace (est_env st)) = [] \/
       calls_to "Close" (trace (est_env st)) =
         [ev_call (close_request (CreateCall.request_path c0))]) /\
      length (filter is_connect (trace (est_env st))) =
        (length (filter is_disconnect (trace (est_env st))) + length (handlers k))%nat
}.

(** The invariants that hold whatever cancellable the caller passed. *)
Record Inv3 (ty : XdpSessionType) (outs : Z) (c0 : CreateCall.t) (st : Establishment)
  : Prop := {
  inv3_inv : Inv ty outs st;
  inv3_stage : InvS ty outs st;
  inv3_block : InvB c0 st
}.

(** All invariants of an establishment. *)
Record InvAll (ty : XdpSessionType) (outs : Z) (c0 : CreateCall.t) (st : Establishment)
  : Prop := {
  all_inv : Inv ty outs st;
  all_stage : InvS ty outs st;
  all_block : InvB c0 st;
  all_cancel : InvK c0 st
}.

(** The invariant of a Start on the session [s0], with or without a
    parent: the block is waiting for the export, or waiting for the
    response with its one subscription, or gone. *)
Record InvStart (parent : option XdpParent) (s0 : XdpSession.t) (st : Activation) : Prop := {
  invst_identity : same_identity (session (act_world st)) s0;
  invst_returns : (length (returns (trace (env (act_world st)))) <= 1)%nat;
  invst_starts : (length (calls_to "Start" (trace (env (act_world st)))) <= 1)%nat;
  invst_closes : (length (calls_to "Close" (trace (env (act_world st)))) <= 1)%nat;
  invst_call :
    match act_call st with
    | None =>
        subscriptions (env (act_world st)) = [] /\
        (forall k, cancellable (env (act_world st)) = Some k -> handlers k = []) /\
        length (filter is_unexport (trace (env (act_world st)))) =
          match parent with Some _ => 1%nat | None => 0%nat end /\
        (XdpSession.state (session (act_world st)) = XDP_SESSION_ACTIVE \/
         XdpSession.state (session (act_world st)) = XDP_SESSION_CLOSED)
    | Some c =>
        session (act_world st) = s0 /\
        StartCall.parent c = parent /\
        returns (trace (env (act_world st))) = [] /\
        filter is_unexport (trace (env (act_world st))) = [] /\
        match StartCall.parent_handle c with
        | None =>
            parent <> None /\
            StartCall.cancelled_id c = 0 /\
            subscriptions (env (act_world st)) = [] /\
            (forall k, cancellable (env (act_world st)) = Some k -> handlers k = []) /\
            bus_calls (trace (env (act_world st))) = []
        | Some _ =>
            (exists s, subscriptions (env (act_world st)) = [s] /\
                       sub_callback s = cb_session_started /\
                       sub_id s = StartCall.signal_id c /\ 0 < sub_id s /\
                       sub_object_path s = StartCall.request_path c) /\
            length (calls_to "Start" (trace (env (act_world st)))) = 1%nat /\
            match cancellable (env (act_world st)) with
            | None => StartCall.cancelled_id c = 0
            | Some k => handlers k = [(StartCall.cancelled_id c, cb_start_cancelled)] /\
                        StartCall.cancelled_id c <> 0 /\
                        (cancelled k = false ->
                         calls_to "Close" (trace (env (act_world st))) = [])
            end /\
            Forall (fun ev => ev = ev_call (close_request (StartCall.request_path c)))
                   (calls_to "Close" (trace (env (act_world st))))
        end
    end
}.

(** Tokens: every stage called has subscribed to the request path of its
    own draw, and the random source has advanced by one draw for each
    stage and one for the session token. *)
Record InvT (portal : XdpPortal) (rand : list Z) (st : Establishment) : Prop := {
  invt_paths :
    subscribed_paths (trace (est_env st))
    = map (fun i => request_path_of portal (token_of_draw rand i))
        (firstn (length (stage_calls (trace (est_env st)))) request_draws);
  invt_random :
    random (est_env st) = skipn (S (length (stage_calls (trace (est_env st))))) rand
}.

(** * Properties *)

(** ** The Start response *)

(** C6.  Whatever the response code of Start and whatever is or is not
    reported to the caller, [session_started] sets the lifecycle state:
    to Active for code 0 and to Closed for every other code. *)
Theorem session_started_sets_state
  (response : Z) (ret : vardict) (call : StartCall.t) (w : World) :
  (response = 0 ->
   XdpSession.state (session (session_started response ret call w)) = XDP_SESSION_ACTIVE) /\
  (response <> 0 ->
   XdpSession.state (session (session_started response ret call w)) = XDP_SESSION_CLOSED).
Proof.
  unfold session_started. split; intros H.
  - subst response. reflexivity.
  - apply Z.eqb_neq in H. rewrite H. reflexivity.
Qed.

Lemma lookup_without_key (key ty : string) (dict : vardict) :
  vardict_has key dict = false -> g_variant_lookup_value dict key ty = None.
Proof.
  induction dict as [|[k v] rest IH]; cbn; [reflexivity|].
  destruct (String.eqb k key); cbn; [discriminate|exact IH].
Qed.

Lemma lookup_type (key ty : string) (dict : vardict) (v : GVariant) :
  g_variant_lookup_value dict key ty = Some v -> g_variant_get_type_string v = ty.
Proof.
  induction dict as [|[k x] rest IH]; cbn; [discriminate|].
  destruct (String.eqb k key); [|exact IH].
  destruct (String.eqb_spec (g_variant_get_type_string x) ty); [|discriminate].
  intros E. injection E as <-. assumption.
Qed.

(** C7.  After a Start response with code 0 the device mask is the one of
    a [devices] entry of type [u] and the stream list the one of a
    [streams] entry of type [a(ua{sv})]; a payload without the entry
    leaves the attribute of the session as it was, which for a session
    fresh from establishment is no devices and no streams. *)
Theorem session_started_frame (ret : vardict) (call : StartCall.t) (w : World) :
  let s' := session (session_started 0 ret call w) in
  (vardict_has "devices" ret = false ->
   XdpSession.devices s' = XdpSession.devices (session w)) /\
  (vardict_has "streams" ret = false ->
   XdpSession.streams s' = XdpSession.streams (session w)) /\
  (forall v, g_variant_lookup_value ret "devices" "u" = Some v ->
             v = GV_uint32 (XdpSession.devices s')) /\
  (forall v, g_variant_lookup_value ret "streams" "a(ua{sv})" = Some v ->
             XdpSession.streams s' = Some v) /\
  (forall portal id type,
     session w = _xdp_session_new portal id type ->
     vardict_has "devices" ret = false -> vardict_has "streams" ret = false ->
     XdpSession.devices s' = 0 /\ XdpSession.streams s' = None).
Proof.
  cbv zeta. unfold session_started. cbn [Z.eqb].
  assert (D : vardict_has "devices" ret = false ->
              XdpSession.devices (session (session_started 0 ret call w))
              = XdpSession.devices (session w)).
  { intros H. unfold session_started. cbn [Z.eqb].
    rewrite (lookup_without_key _ "u" _ H).
    destruct (g_variant_lookup_value ret "streams" "a(ua{sv})"); reflexivity. }
  assert (S : vardict_has "streams" ret = false ->
              XdpSession.streams (session (session_started 0 ret call w))
              = XdpSession.streams (session w)).
  { intros H. unfold session_started. cbn [Z.eqb].
    rewrite (lookup_without_key _ "a(ua{sv})" _ H).
    destruct (g_variant_lookup_value ret "devices" "u") as [[]|]; reflexivity. }
  unfold session_started in D, S. cbn [Z.eqb] in D, S.
  repeat split.
  - exact D.
  - exact S.
  - intros v H. rewrite H. pose proof (lookup_type _ _ _ _ H) as T.
    destruct v; cbn in T; try discriminate T.
    destruct (g_variant_lookup_value ret "streams" "a(ua{sv})"); reflexivity.
  - intros v H. rewrite H.
    destruct (g_variant_lookup_value ret "devices" "u") as [[]|]; reflexivity.
  - rewrite (D H0), H. reflexivity.
  - rewrite (S H1), H. reflexivity.
Qed.

(** ** Input injection *)

Lemma XdpSessionType_eqb_eq (a b : XdpSessionType) :
  XdpSessionType_eqb a b = true <-> a = b.
Proof. destruct a, b; cbn; split; congruence. Qed.

Lemma XdpSessionState_eqb_eq (a b : XdpSessionState) :
  XdpSessionState_eqb a b = true <-> a = b.
Proof. destruct a, b; cbn; split; congruence. Qed.

(** The condition every input operation hands to [g_return_if_fail]. *)
Lemma gate_true (device : Z) (s : XdpSession.t) :
  XDP_IS_SESSION s &&
  XdpSessionType_eqb (XdpSession.type s) XDP_SESSION_REMOTE_DESKTOP &&
  XdpSessionState_eqb (XdpSession.state s) XDP_SESSION_ACTIVE &&
  negb (Z.land (XdpSession.devices s) device =? 0) = true <-> may_inject device s.
Proof.
  unfold may_inject, XDP_IS_SESSION. cbn [andb].
  rewrite !andb_true_iff, negb_true_iff, Z.eqb_neq,
    XdpSessionType_eqb_eq, XdpSessionState_eqb_eq.
  tauto.
Qed.

Lemma gate_false (device : Z) (s : XdpSession.t) :
  ~ may_inject device s ->
  XDP_IS_SESSION s &&
  XdpSessionType_eqb (XdpSession.type s) XDP_SESSION_REMOTE_DESKTOP &&
  XdpSessionState_eqb (XdpSession.state s) XDP_SESSION_ACTIVE &&
  negb (Z.land (XdpSession.devices s) device =? 0) = false.
Proof.
  intros H. apply not_true_is_false. intros G. apply H, gate_true, G.
Qed.

Lemma bus_calls_app (t u : list Event) : bus_calls (t ++ u) = bus_calls t ++ bus_calls u.
Proof. apply filter_app. Qed.

Ltac unfold_input :=
  unfold xdp_session_pointer_motion, xdp_session_pointer_position,
    xdp_session_pointer_button, xdp_session_pointer_axis,
    xdp_session_pointer_axis_discrete, xdp_session_keyboard_key,
    xdp_session_touch_down, xdp_session_touch_position, xdp_session_touch_up,
    g_return_if_fail.

Lemma inject_rejected (op : InputOp) (w : World) :
  ~ may_inject (required_device op) (session w) ->
  inject op w = lift (log ev_critical) w.
Proof.
  intros H. destruct op; cbn [inject required_device] in *; unfold_input;
    rewrite (gate_false _ _ H); reflexivity.
Qed.


(** C9.  With its preconditions met, touch-up issues one call without
    reply callback to the method [NotifyTouchMotion], the method of
    touch-motion, whose arguments are the session identifier, an empty
    options dictionary and the slot, and nothing else. *)
Theorem touch_up_reuses_touch_motion (slot : Z) (w : World) :
  may_inject XDP_DEVICE_TOUCHSCREEN (session w) ->
  emitted (env w) (env (xdp_session_touch_up slot w))
    [ev_call {| bus_name := PORTAL_BUS_NAME;
                object_path := PORTAL_OBJECT_PATH;
                interface_name := "org.freedesktop.portal.RemoteDesktop";
                method_name := "NotifyTouchMotion";
                parameters := Some (GV_tuple [GV_object_path (XdpSession.id (session w));
                                              GV_vardict [];
                                              GV_uint32 slot]);
                with_cancellable := false |}] /\
  forall stream x y, exists c,
    emitted (env w) (env (xdp_session_touch_position stream slot x y w)) [ev_call c] /\
    method_name c = "NotifyTouchMotion".
Proof.
  intros H. pose proof (proj2 (gate_true _ _) H) as G. split.
  - unfold xdp_session_touch_up, g_return_if_fail. rewrite G. reflexivity.
  - intros stream x y. unfold xdp_session_touch_position, g_return_if_fail. rewrite G.
    eexists. split; reflexivity.
Qed.

(** ** The descriptor table *)

Lemma fd_file_in (fd : Z) (f : File) (t : Descriptors) :
  In (fd, f) t -> fd_file fd t <> None.
Proof.
  induction t as [|[n g] t IH]; cbn; [tauto|].
  intros [E|H].
  - injection E as -> ->. rewrite Z.eqb_refl. discriminate.
  - destruct (n =? fd); [discriminate|auto].
Qed.

Lemma fd_file_keys (fd : Z) (t : Descriptors) :
  fd_file fd t <> None -> In fd (map fst t).
Proof.
  induction t as [|[n g] t IH]; cbn; [congruence|].
  destruct (n =? fd) eqn:E; [left; apply Z.eqb_eq, E|right; auto].
Qed.

Lemma lowest_free_from_spec (fuel : nat) (n : Z) (t : Descriptors) :
  let r := lowest_free_from fuel n t in
  n <= r <= n + Z.of_nat fuel /\
  (forall k, n <= k < r -> fd_file k t <> None) /\
  (r < n + Z.of_nat fuel -> fd_file r t = None).
Proof.
  revert n. induction fuel as [|fuel IH]; intros n; cbn [lowest_free_from].
  - cbv zeta. split; [lia|]. split; intros; lia.
  - destruct (fd_file n t) eqn:E.
    + specialize (IH (n + 1)). cbv zeta in IH. destruct IH as (A & B & C).
      cbv zeta. split; [lia|]. split.
      * intros k Hk. destruct (Z.eq_dec k n) as [->|]; [congruence|]. apply B. lia.
      * intros H. apply C. lia.
    + cbv zeta. split; [lia|]. split; [intros; lia|]. intros _. exact E.
Qed.

Lemma install_fresh (f : File) (t : Descriptors) :
  fd_file (fst (install f t)) t = None /\ 0 <= fst (install f t).
Proof.
  unfold install. cbn [fst].
  destruct (lowest_free_from_spec (length t) 0 t) as (A & B & C). cbv zeta in A, B, C.
  split; [|lia].
  destruct (Z.eq_dec (lowest_free_from (length t) 0 t) (Z.of_nat (length t))) as [E|];
    [|apply C; lia].
  destruct (fd_file (lowest_free_from (length t) 0 t) t) eqn:F; [exfalso|reflexivity].
  assert (I : incl (map Z.of_nat (seq 0 (S (length t)))) (map fst t)).
  { intros k Hk. apply in_map_iff in Hk. destruct Hk as (i & <- & Hi).
    apply in_seq in Hi. apply fd_file_keys.
    destruct (Z.eq_dec (Z.of_nat i) (Z.of_nat (length t))) as [Ei|].
    - rewrite Ei, <- E, F. discriminate.
    - apply B. lia. }
  apply NoDup_incl_length in I.
  - rewrite !length_map, length_seq in I. lia.
  - apply Injective_map_NoDup; [intros a b; apply Nat2Z.inj|apply seq_NoDup].
Qed.

Lemma fd_file_install (f : File) (t : Descriptors) (fd : Z) :
  fd_file fd t <> None -> fd_file fd (snd (install f t)) = fd_file fd t.
Proof.
  intros H. unfold install. cbn.
  destruct (lowest_free_from (length t) 0 t =? fd) eqn:E; [|reflexivity].
  apply Z.eqb_eq in E. destruct (install_fresh f t) as [F _].
  unfold install in F. cbn in F. rewrite E in F. contradiction.
Qed.

(** What [receive] adds to the table: the new entries lie before the old
    ones, their numbers are the descriptors handed out, none of which was
    open, and the descriptor at an index refers to the file at it. *)
Lemma receive_spec (files : list File) (t : Descriptors) :
  let fds := fst (receive files t) in
  let t' := snd (receive files t) in
  length fds = length files /\
  (exists added, t' = added ++ t /\ forall d, In d added -> In (fst d) fds) /\
  (forall fd, In fd fds -> fd_file fd t = None /\ fd_file fd t' <> None) /\
  (forall fd, fd_file fd t <> None -> fd_file fd t' = fd_file fd t) /\
  (forall i f, nth_error files i = Some f ->
     exists fd, nth_error fds i = Some fd /\ fd_file fd t' = Some f).
Proof.
  revert t. induction files as [|f files IH]; intros t; cbn [receive].
  - cbn. split; [reflexivity|]. split; [exists []; split; [reflexivity|intros ? []]|].
    split; [intros ? []|]. split; [reflexivity|]. intros [|i] g; discriminate.
  - destruct (install f t) as [fd t1] eqn:Ei.
    specialize (IH t1). destruct (receive files t1) as [fds t2] eqn:Er.
    cbn [fst snd] in *. destruct IH as (L & (added & Ea & Hadd) & Hin & Hkeep & Hnth).
    pose proof (install_fresh f t) as [Hfresh _]. rewrite Ei in Hfresh. cbn in Hfresh.
    assert (Et1 : t1 = (fd, f) :: t).
    { unfold install in Ei. injection Ei as <- <-. reflexivity. }
    assert (Hfd : fd_file fd t1 = Some f).
    { rewrite Et1. cbn. rewrite Z.eqb_refl. reflexivity. }
    assert (Hold : forall k, fd_file k t <> None -> fd_file k t1 = fd_file k t).
    { intros k Hk. rewrite Et1. cbn. destruct (fd =? k) eqn:E; [|reflexivity].
      apply Z.eqb_eq in E. subst k. contradiction. }
    split; [cbn; congruence|]. split.
    { exists (added ++ [(fd, f)]). split.
      - rewrite Ea, Et1, <- app_assoc. reflexivity.
      - intros d Hd. apply in_app_iff in Hd. destruct Hd as [Hd|[<-|[]]].
        + right. auto.
        + left. reflexivity. }
    split.
    { intros k [<-|Hk].
      - split; [exact Hfresh|]. rewrite Hkeep; congruence.
      - destruct (Hin k Hk) as [A B]. split; [|exact B].
        destruct (fd_file k t) eqn:E; [|reflexivity].
        rewrite Hold in A; congruence. }
    split.
    { intros k Hk. rewrite Hkeep; [apply Hold, Hk|]. rewrite Hold; assumption. }
    intros [|i] g Hg; cbn in Hg.
    + injection Hg as <-. exists fd. split; [reflexivity|]. rewrite Hkeep; congruence.
    + destruct (Hnth i g Hg) as (k & A & B). exists k. split; assumption.
Qed.

Lemma finalize_filter (fds : GUnixFDList) (t : Descriptors) :
  g_unix_fd_list_finalize fds t
  = filter (fun d => negb (existsb (Z.eqb (fst d)) fds)) t.
Proof.
  unfold g_unix_fd_list_finalize. revert t.
  induction fds as [|fd fds IH]; intros t; cbn [fold_left existsb].
  - induction t as [|d t IHt]; cbn; [reflexivity|f_equal; exact IHt].
  - rewrite IH. unfold close. clear IH.
    induction t as [|d t IHt]; cbn; [reflexivity|].
    destruct (fst d =? fd); cbn; [exact IHt|].
    destruct (existsb (Z.eqb (fst d)) fds); cbn; congruence.
Qed.

(** Freeing the list of a received message undoes [receive]: the table is
    the one from before, whatever was installed in between stays. *)
Lemma finalize_receive (files : list File) (t : Descriptors) (between : Descriptors) :
  (forall d, In d between -> ~ In (fst d) (fst (receive files t))) ->
  g_unix_fd_list_finalize (fst (receive files t)) (between ++ snd (receive files t))
  = between ++ t.
Proof.
  intros Hb. destruct (receive_spec files t) as (_ & (added & Ea & Hadd) & Hin & _ & _).
  cbv zeta in *. rewrite finalize_filter, Ea, !filter_app. f_equal; [|].
  - apply forallb_filter_id. apply forallb_forall. intros d Hd.
    apply negb_true_iff. destruct (existsb _ _) eqn:E; [|reflexivity].
    apply existsb_exists in E. destruct E as (k & Hk & Ek). apply Z.eqb_eq in Ek. subst k.
    destruct (Hb d Hd Hk).
  - replace (filter _ added) with (@nil (Z * File)).
    + cbn. apply forallb_filter_id. apply forallb_forall. intros [k g] Hd.
      apply negb_true_iff. destruct (existsb _ _) eqn:E; [|reflexivity].
      apply existsb_exists in E. destruct E as (k' & Hk & Ek). apply Z.eqb_eq in Ek.
      cbn in Ek. subst k'. destruct (Hin k Hk) as [A _].
      destruct (fd_file_in k g t Hd A).
    + symmetry. clear Ea. induction added as [|d added IH]; [reflexivity|]. cbn.
      assert (E : existsb (Z.eqb (fst d)) (fst (receive files t)) = true).
      { apply existsb_exists. exists (fst d). split; [apply Hadd; left; reflexivity|].
        apply Z.eqb_refl. }
      rewrite E. cbn. apply IH. intros d' Hd'. apply Hadd. right. exact Hd'.
Qed.

Lemma reply_is_handle (ret : GVariant) :
  g_variant_get_type_string ret = "(h)" -> exists h, ret = GV_tuple [GV_handle h].
Proof.
  destruct ret as [| | | | | | |elt items|items|]; try discriminate.
  destruct items as [|x [|y rest]]; [discriminate| |].
  - destruct x as [| | | | | |h|elt items|items|]; try discriminate.
    intros _. exists h. reflexivity.
  - destruct x as [| | | | | |h|elt items|items|]; try discriminate.
    destruct y as [| | | | | |h'|elt items|items|], rest; cbn; discriminate.
Qed.

(** ** The PipeWire descriptor *)

Lemma open_pipewire_remote_call (answer : option (GVariant * option (list File)))
  (t : Descriptors) (w : World) :
  exists reply t',
    g_dbus_connection_call_with_unix_fd_list_sync
      {| bus_name := PORTAL_BUS_NAME;
         object_path := PORTAL_OBJECT_PATH;
         interface_name := "org.freedesktop.portal.ScreenCast";
         method_name := "OpenPipeWireRemote";
         parameters := Some (GV_tuple [GV_object_path (XdpSession.id (session w));
                                       GV_vardict []]);
         with_cancellable := false |}
      "(h)" answer t (env w)
    = (reply, t',
       log (ev_call_sync
              {| bus_name := PORTAL_BUS_NAME;
                 object_path := PORTAL_OBJECT_PATH;
                 interface_name := "org.freedesktop.portal.ScreenCast";
                 method_name := "OpenPipeWireRemote";
                 parameters := Some (GV_tuple [GV_object_path (XdpSession.id (session w));
                                               GV_vardict []]);
                 with_cancellable := false |}) (env w)).
Proof.
  unfold g_dbus_connection_call_with_unix_fd_list_sync.
  destruct answer as [[ret [files|]]|]; [| |eexists; eexists; reflexivity].
  - destruct (String.eqb _ _); [|eexists; eexists; reflexivity].
    destruct (receive files t). eexists; eexists; reflexivity.
  - destruct (String.eqb _ _); eexists; eexists; reflexivity.
Qed.

(** C10.  [xdp_session_open_pipewire_remote] never changes the session.
    When the synchronous call fails, be it that the bus gives no reply
    or a reply that is not a single handle, it returns -1 after a warning
    and the descriptors of the process are as before.  When the reply is
    a handle [h] and comes with a list of descriptors that has an entry
    at index [h], for the file [f], the function has made the call
    OpenPipeWireRemote for its session and returns a descriptor that was
    not open before and now refers to [f]; this is the only change to the
    descriptors of the process, those of the list being closed again.
    When the system does not grant the duplicate it returns -1 and the
    descriptors are as before. *)
Theorem open_pipewire_remote_result (t : Descriptors) (w : World) :
  (forall answer granted fd t' w',
     xdp_session_open_pipewire_remote answer granted t w = Some (fd, t', w') ->
     session w' = session w) /\
  (forall answer granted,
     answer = None \/
     (exists ret files, answer = Some (ret, files) /\
                        g_variant_get_type_string ret <> "(h)") ->
     exists c w',
       xdp_session_open_pipewire_remote answer granted t w = Some (-1, t, w') /\
       emitted (env w) (env w') [ev_call_sync c; ev_warning]) /\
  (forall h files f,
     0 <= h -> nth_error files (Z.to_nat h) = Some f ->
     exists fd c w',
       xdp_session_open_pipewire_remote
         (Some (GV_tuple [GV_handle h], Some files)) true t w
       = Some (fd, (fd, f) :: t, w') /\
       0 <= fd /\ fd_file fd t = None /\
       emitted (env w) (env w') [ev_call_sync c] /\
       method_name c = "OpenPipeWireRemote" /\
       parameters c = Some (GV_tuple [GV_object_path (XdpSession.id (session w));
                                      GV_vardict []])) /\
  (forall h files f,
     0 <= h -> nth_error files (Z.to_nat h) = Some f ->
     exists w',
       xdp_session_open_pipewire_remote
         (Some (GV_tuple [GV_handle h], Some files)) false t w
       = Some (-1, t, w')).
Proof.
  split; [|split; [|split]].
  - intros answer granted fd t' w'. unfold xdp_session_open_pipewire_remote.
    destruct (open_pipewire_remote_call answer t w) as (reply & t1 & ->).
    destruct reply as [[ret fd_list]|]; [|intros [= _ _ <-]; reflexivity].
    destruct (g_unix_fd_list_get _ _ _ _ _) as [[[r t2] e2]|]; [|discriminate].
    intros [= _ _ <-]. reflexivity.
  - intros answer granted H. unfold xdp_session_open_pipewire_remote,
      g_dbus_connection_call_with_unix_fd_list_sync.
    destruct H as [->|(ret & files & -> & Hty)].
    + eexists; eexists. split; [reflexivity|]. unfold emitted. cbn.
      rewrite <- app_assoc. reflexivity.
    + apply String.eqb_neq in Hty. rewrite Hty.
      eexists; eexists. split; [reflexivity|]. unfold emitted. cbn.
      rewrite <- app_assoc. reflexivity.
  - intros h files f Hh Hf.
    destruct (receive_spec files t) as (Hlen & _ & Hin & _ & Hnth). cbv zeta in *.
    destruct (Hnth _ _ Hf) as (k & Hk & Hkf).
    assert (Hlt : (Z.to_nat h < length files)%nat) by (apply nth_error_Some; congruence).
    pose proof (finalize_receive files t
                  [(fst (install f (snd (receive files t))), f)]) as Hfin.
    destruct (install_fresh f (snd (receive files t))) as [Hfresh Hpos].
    unfold xdp_session_open_pipewire_remote, g_dbus_connection_call_with_unix_fd_list_sync.
    cbn [g_variant_get_type_string map String.concat String.append String.eqb Ascii.eqb
         Bool.eqb].
    destruct (receive files t) as [fds t1] eqn:Er. cbn [fst snd] in *.
    unfold g_unix_fd_list_get, array_get, dup_close_on_exec_fd.
    replace (h <? Z.of_nat (length fds)) with true by (symmetry; apply Z.ltb_lt; lia).
    replace (h <? 0) with false by (symmetry; apply Z.ltb_ge; lia).
    rewrite Hk, Hkf. unfold install in *. cbn [fst snd] in *.
    cbn [glib_autoptr_cleanup_GUnixFDList].
    change ((lowest_free_from (length t1) 0 t1, f) :: t1)
      with ([(lowest_free_from (length t1) 0 t1, f)] ++ t1).
    rewrite Hfin.
    + eexists; eexists; eexists. split; [reflexivity|]. split; [exact Hpos|]. split.
      * destruct (fd_file (lowest_free_from (length t1) 0 t1) t) eqn:E; [|reflexivity].
        destruct (receive_spec files t) as (_ & _ & _ & Hkeep & _). cbv zeta in Hkeep.
        rewrite Er in Hkeep. cbn [snd] in Hkeep.
        rewrite <- Hkeep in E by congruence. congruence.
      * split; [unfold emitted; reflexivity|]. split; reflexivity.
    + intros d [<-|[]] Hd. cbn [fst] in Hd. destruct (Hin _ Hd) as [_ B]. contradiction.
  - intros h files f Hh Hf.
    destruct (receive_spec files t) as (Hlen & _ & Hin & _ & Hnth). cbv zeta in *.
    destruct (Hnth _ _ Hf) as (k & Hk & Hkf).
    assert (Hlt : (Z.to_nat h < length files)%nat) by (apply nth_error_Some; congruence).
    pose proof (finalize_receive files t []) as Hfin.
    unfold xdp_session_open_pipewire_remote, g_dbus_connection_call_with_unix_fd_list_sync.
    cbn [g_variant_get_type_string map String.concat String.append String.eqb Ascii.eqb
         Bool.eqb].
    destruct (receive files t) as [fds t1] eqn:Er. cbn [fst snd] in *.
    unfold g_unix_fd_list_get, array_get, dup_close_on_exec_fd.
    replace (h <? Z.of_nat (length fds)) with true by (symmetry; apply Z.ltb_lt; lia).
    replace (h <? 0) with false by (symmetry; apply Z.ltb_ge; lia).
    rewrite Hk, Hkf. cbn [glib_autoptr_cleanup_GUnixFDList].
    cbn [app] in Hfin. rewrite Hfin by (intros ? []).
    eexists. reflexivity.
Qed.

(** Where the reply names no entry of its list.  Without a list, and with
    an index from the length of the list on, [g_unix_fd_list_get] refuses
    with a critical warning: the function returns -1 and the descriptors
    are as before.  A negative index passes the check of
    [g_unix_fd_list_get] and is read before the array. *)
Lemma open_pipewire_remote_outside_list (granted : bool) (t : Descriptors) (w : World) :
  (forall h,
     exists c w',
       xdp_session_open_pipewire_remote (Some (GV_tuple [GV_handle h], None)) granted t w
       = Some (-1, t, w') /\
       emitted (env w) (env w') [ev_call_sync c; ev_critical]) /\
  (forall h files,
     Z.of_nat (length files) <= h ->
     exists c w',
       xdp_session_open_pipewire_remote
         (Some (GV_tuple [GV_handle h], Some files)) granted t w
       = Some (-1, t, w') /\
       emitted (env w) (env w') [ev_call_sync c; ev_critical]) /\
  (forall h files,
     h < 0 ->
     xdp_session_open_pipewire_remote
       (Some (GV_tuple [GV_handle h], Some files)) granted t w = None).
Proof.
  split; [|split].
  - intros h. eexists; eexists. split; [reflexivity|]. unfold emitted. cbn.
    rewrite <- app_assoc. reflexivity.
  - intros h files Hh.
    destruct (receive_spec files t) as (Hlen & _). cbv zeta in Hlen.
    pose proof (finalize_receive files t []) as Hfin.
    unfold xdp_session_open_pipewire_remote, g_dbus_connection_call_with_unix_fd_list_sync.
    cbn [g_variant_get_type_string map String.concat String.append String.eqb Ascii.eqb
         Bool.eqb].
    destruct (receive files t) as [fds t1] eqn:Er. cbn [fst snd] in *.
    unfold g_unix_fd_list_get.
    replace (h <? Z.of_nat (length fds)) with false by (symmetry; apply Z.ltb_ge; lia).
    cbn [glib_autoptr_cleanup_GUnixFDList]. cbn [app] in Hfin.
    rewrite Hfin by (intros ? []).
    eexists; eexists. split; [reflexivity|]. unfold emitted. cbn.
    rewrite <- app_assoc. reflexivity.
  - intros h files Hh.
    unfold xdp_session_open_pipewire_remote, g_dbus_connection_call_with_unix_fd_list_sync.
    cbn [g_variant_get_type_string map String.concat String.append String.eqb Ascii.eqb
         Bool.eqb].
    destruct (receive files t) as [fds t1] eqn:Er.
    unfold g_unix_fd_list_get, array_get.
    replace (h <? Z.of_nat (length fds)) with true by (symmetry; apply Z.ltb_lt; lia).
    replace (h <? 0) with true by (symmetry; apply Z.ltb_lt; lia).
    reflexivity.
Qed.

(** ** Establishment: what holds along every run *)

Lemma returns_app (t u : list Event) : returns (t ++ u) = returns t ++ returns u.
Proof. apply filter_app. Qed.

Lemma calls_to_app (m : string) (t u : list Event) :
  calls_to m (t ++ u) = calls_to m t ++ calls_to m u.
Proof. apply filter_app. Qed.

Arguments g_strconcat : simpl never.
Arguments portal_token : simpl never.
Arguments Z.modulo : simpl never.

Ltac close_inv Hret HD HS :=
  split; cbn; rewrite ?Z.eqb_refl; cbn;
  intros; unfold returns, calls_to in *; rewrite ?filter_app; cbn;
  rewrite ?Hret, ?HD, ?HS by auto; cbn;
  try lia; try reflexivity; try discriminate; try congruence;
  try (repeat split; try reflexivity; eexists; repeat split; try reflexivity; cbn; lia).

Lemma Inv_establish ty portal devices outputs multiple cancellable rand :
  Inv ty outputs (establish ty portal devices outputs multiple cancellable rand).
Proof.
  destruct ty, cancellable as [k|]; split; cbn; try lia; try reflexivity; try discriminate;
    intuition; eexists; intuition; try reflexivity; cbn; lia.
Qed.

Lemma Inv_deliver ty outs st path response ret :
  Inv ty outs st -> Inv ty outs (deliver path response ret st).
Proof.
  intros [HR HD HS HC]. unfold deliver.
  destruct st as [e [c|]]; cbn [est_call est_env] in *; [|split; assumption].
  destruct HC as (Hty & Hout & Hret & s & Hsubs & Hid & Hpos).
  unfold find_subscription. rewrite Hsubs. cbn [find].
  destruct (String.eqb (sub_object_path s) path); [|split; cbn; eauto 10].
  destruct e as [subs nxt cancel rand tr], c as [p i t d o m sid rp cid], s as [n sp cb].
  cbn in Hty, Hout, Hret, Hsubs, Hid, Hpos, HR, HD, HS. subst subs sid t o.
  assert (Hn : (n =? 0) = false) by (apply Z.eqb_neq; lia).
  destruct cb; cbn [sub_callback handler].
  - unfold session_created.
    destruct (response =? 0) eqn:E0.
    + destruct ty; cbn; close_inv Hret HD HS.
    + destruct (response =? 1), (response =? 2), (cid =? 0) eqn:Ec;
        cbn; unfold create_call_free; cbn; rewrite Hn, ?Ec; cbn;
        close_inv Hret HD HS.
  - unfold devices_selected.
    destruct (response =? 0) eqn:E0.
    + cbn. destruct (outs =? 0) eqn:Eo; cbn.
      * unfold create_call_free; cbn. destruct (cid =? 0); cbn; close_inv Hret HD HS.
      * apply Z.eqb_neq in Eo. close_inv Hret HD HS.
    + destruct (response =? 1), (response =? 2), (cid =? 0) eqn:Ec;
        cbn; unfold create_call_free; cbn; rewrite Hn, ?Ec; cbn;
        close_inv Hret HD HS.
  - unfold sources_selected, create_call_free.
    destruct (response =? 0), (response =? 1), (response =? 2), (cid =? 0) eqn:Ec;
      cbn; rewrite Hn, ?Ec; cbn; close_inv Hret HD HS.
  - cbn. close_inv Hret HD HS.
Qed.

(** The cancellation handlers only add Close calls to the trace. *)
Lemma cancelled_handlers_effect (call : CreateCall.t) (hs : list (Z * CancelledCallback))
  (e : Env) :
  let e' := fold_left (fun e h =>
                         match snd h with
                         | cb_create_cancelled => create_cancelled_cb call e
                         | cb_start_cancelled => e
                         end) hs e in
  subscriptions e' = subscriptions e /\
  returns (trace e') = returns (trace e) /\
  calls_to "SelectDevices" (trace e') = calls_to "SelectDevices" (trace e) /\
  calls_to "SelectSources" (trace e') = calls_to "SelectSources" (trace e).
Proof.
  revert e. induction hs as [|[id cb] hs IH]; intros e; cbn [fold_left snd].
  - repeat split.
  - destruct cb.
    + destruct (IH (create_cancelled_cb call e)) as (A & B & C & D).
      cbv zeta in *. rewrite A, B, C, D.
      unfold create_cancelled_cb, g_dbus_connection_call, log. cbn [trace subscriptions].
      rewrite returns_app, !calls_to_app. cbn. rewrite !app_nil_r. repeat split.
    + apply IH.
Qed.

Lemma Inv_cancel ty outs st : Inv ty outs st -> Inv ty outs (g_cancellable_cancel st).
Proof.
  intros [HR HD HS HC]. unfold g_cancellable_cancel.
  destruct (cancellable (est_env st)) as [k|] eqn:Ek; [|split; assumption].
  destruct (cancelled k); [split; assumption|].
  destruct st as [e [c|]]; cbn [est_call est_env] in *.
  - destruct (cancelled_handlers_effect c (handlers k) (set_cancelled e)) as (A & B & C & D).
    cbv zeta in A, B, C, D. split; cbn [est_call est_env]; rewrite ?A, ?B, ?C, ?D; assumption.
  - split; assumption.
Qed.

Lemma Inv_run ty outs inputs st : Inv ty outs st -> Inv ty outs (run inputs st).
Proof.
  revert st. induction inputs as [|i inputs IH]; intros st H; [exact H|].
  apply IH. destruct i; [apply Inv_deliver|apply Inv_cancel]; exact H.
Qed.

(** Once the block is freed nothing reaches the operation any more. *)
Lemma freed_is_final (inputs : list Input) (st : Establishment) :
  est_call st = None ->
  est_call (run inputs st) = None /\
  trace (est_env (run inputs st)) = trace (est_env st).
Proof.
  revert st. induction inputs as [|i inputs IH]; intros st H; [split; [exact H|reflexivity]|].
  cbn [run fold_left]. fold (run inputs (step st i)).
  assert (S : est_call (step st i) = None /\ trace (est_env (step st i)) = trace (est_env st)).
  { destruct i; cbn [step].
    - unfold deliver. rewrite H. split; [exact H|reflexivity].
    - unfold g_cancellable_cancel. rewrite H.
      destruct (cancellable (est_env st)) as [k|]; [|split; [exact H|reflexivity]].
      destruct (cancelled k); split; try exact H; reflexivity. }
  destruct S as [S1 S2]. destruct (IH _ S1) as [I1 I2]. split; [exact I1|congruence].
Qed.

(** ** Which stages an establishment goes through *)

(** C4, as the code has it.  Along every run of an establishment a
    screencast never calls SelectDevices and a remote desktop with an
    empty output mask never calls SelectSources.  A successful
    CreateSession response is followed by SelectDevices exactly when the
    session is a remote desktop, and by SelectSources otherwise, whatever
    the output mask; a successful SelectDevices response is followed by
    SelectSources when the output mask is not empty and by no call when it
    is. *)
Theorem stage_selection :
  (forall type portal devices outputs multiple cancel rand inputs,
     let t := trace (est_env (run inputs
                (establish type portal devices outputs multiple cancel rand))) in
     (type = XDP_SESSION_SCREENCAST -> calls_to "SelectDevices" t = []) /\
     (type = XDP_SESSION_REMOTE_DESKTOP -> outputs = 0 -> calls_to "SelectSources" t = [])) /\
  (forall ret call e, exists s c,
     emitted e (snd (session_created 0 ret call e))
       [ev_unsubscribe (CreateCall.signal_id call); ev_subscribe s; ev_call c] /\
     method_name c =
       match CreateCall.type call with
       | XDP_SESSION_REMOTE_DESKTOP => "SelectDevices"
       | XDP_SESSION_SCREENCAST => "SelectSources"
       end) /\
  (forall ret call e, CreateCall.outputs call <> 0 -> exists s c,
     emitted e (snd (devices_selected 0 ret call e))
       [ev_unsubscribe (CreateCall.signal_id call); ev_subscribe s; ev_call c] /\
     method_name c = "SelectSources") /\
  (forall ret call e, CreateCall.outputs call = 0 ->
     bus_calls (trace (snd (devices_selected 0 ret call e))) = bus_calls (trace e)).
Proof.
  repeat split.
  - intros ->. apply (inv_devices _ _ _ (Inv_run _ _ inputs _ (Inv_establish
      XDP_SESSION_SCREENCAST portal devices outputs multiple cancel rand))).
    reflexivity.
  - intros -> ->. apply (inv_sources _ _ _ (Inv_run _ _ inputs _ (Inv_establish
      XDP_SESSION_REMOTE_DESKTOP portal devices 0 multiple cancel rand)));
      reflexivity.
  - intros ret call e. unfold session_created, emitted. cbn [Z.eqb negb].
    destruct call as [p i t d o m sid rp cid]. destruct t; cbn;
      eexists; eexists; rewrite <- !app_assoc; cbn; split; reflexivity.
  - intros ret call e H. unfold devices_selected, emitted. cbn [Z.eqb negb].
    destruct call as [p i t d o m sid rp cid]. cbn in *.
    apply Z.eqb_neq in H. rewrite H. cbn.
    eexists; eexists; rewrite <- !app_assoc; cbn; split; reflexivity.
  - intros ret call e H. unfold devices_selected. cbn [Z.eqb negb].
    destruct call as [p i t d o m sid rp cid]. cbn in *. subst o. cbn.
    unfold create_call_free. cbn. destruct (cid =? 0); cbn;
      rewrite !bus_calls_app; cbn; rewrite ?app_nil_r; reflexivity.
Qed.

(** ** Responses, completion and the subscription *)

(** C2, as the code has it.  Over any interleaving of responses and
    cancellations the task of an establishment is completed at most once,
    and a freed block leaves no subscription behind.  A handler that ends
    the operation on a response 0, 1 or 2 completes the task once and
    removes the subscription once, and it completes first: the
    unsubscription comes afterwards, from [create_call_free] or
    [start_call_free].  Only [devices_selected] on success with an empty
    output mask unsubscribes before it completes.  A handler that moves
    on to the next stage completes nothing. *)
Theorem response_completes_once :
  (forall type portal devices outputs multiple cancel rand inputs,
     let st := run inputs (establish type portal devices outputs multiple cancel rand) in
     (length (returns (trace (est_env st))) <= 1)%nat /\
     (est_call st = None -> subscriptions (est_env st) = [])) /\
  (forall cb response ret call e,
     cb <> cb_session_started -> completing cb response ->
     CreateCall.signal_id call <> 0 ->
     exists r rest,
       fst (handler cb response ret call e) = None /\
       emitted e (snd (handler cb response ret call e))
         (ev_return r :: ev_unsubscribe (CreateCall.signal_id call) :: rest) /\
       (rest = [] \/ rest = [ev_disconnect (CreateCall.cancelled_id call)])) /\
  (forall ret call e,
     CreateCall.outputs call = 0 ->
     exists r rest,
       fst (devices_selected 0 ret call e) = None /\
       emitted e (snd (devices_selected 0 ret call e))
         (ev_unsubscribe (CreateCall.signal_id call) :: ev_return r :: rest) /\
       (rest = [] \/ rest = [ev_disconnect (CreateCall.cancelled_id call)])) /\
  (forall ret call e,
     returns (trace (snd (session_created 0 ret call e))) = returns (trace e) /\
     (CreateCall.outputs call <> 0 ->
      returns (trace (snd (devices_selected 0 ret call e))) = returns (trace e))) /\
  (forall response ret call w,
     response = 0 \/ response = 1 \/ response = 2 ->
     StartCall.signal_id call <> 0 ->
     exists r before rest,
       emitted (env w) (env (session_started response ret call w))
         (ev_return r :: before ++ ev_unsubscribe (StartCall.signal_id call) :: rest) /\
       (before = [] \/ before = [ev_unexport]) /\
       (rest = [] \/ rest = [ev_disconnect (StartCall.cancelled_id call)])).
Proof.
  split; [|split; [|split; [|split]]].
  - intros type portal devices outputs multiple cancel rand inputs st.
    pose proof (Inv_run _ _ inputs _
                  (Inv_establish type portal devices outputs multiple cancel rand)) as I.
    fold st in I. destruct I as [HR _ _ HC]. split; [exact HR|].
    intros E. rewrite E in HC. exact HC.
  - intros cb response ret call e Hcb Hc Hid. apply Z.eqb_neq in Hid.
    destruct call as [p i t d o m sid rp cid]. cbn in Hid |- *.
    unfold emitted.
    destruct cb; try congruence; destruct Hc as [-> | [-> | [-> Hcb']]]; try discriminate;
      cbn [handler]; unfold session_created, devices_selected, sources_selected;
      cbn [Z.eqb negb]; unfold create_call_free; cbn; rewrite Hid;
      destruct (cid =? 0); cbn; rewrite <- ?app_assoc; cbn;
      eexists; eexists; (split; [reflexivity|]); (split; [reflexivity|]); auto.
  - intros ret call e Ho.
    destruct call as [p i t d o m sid rp cid]. cbn in Ho |- *. subst o.
    unfold devices_selected, emitted. cbn [Z.eqb negb]. cbn.
    unfold create_call_free. cbn.
    destruct (cid =? 0); cbn; rewrite <- ?app_assoc; cbn;
      eexists; eexists; (split; [reflexivity|]); (split; [reflexivity|]); auto.
  - intros ret call e. destruct call as [p i t d o m sid rp cid]. split.
    + unfold session_created. cbn [Z.eqb negb].
      destruct t; cbn; rewrite !returns_app; cbn; rewrite !app_nil_r; reflexivity.
    + cbn. intros Ho. apply Z.eqb_neq in Ho.
      unfold devices_selected. cbn [Z.eqb negb]. cbn. rewrite Ho. cbn.
      rewrite !returns_app. cbn. rewrite !app_nil_r. reflexivity.
  - intros response ret call w Hr Hid. apply Z.eqb_neq in Hid.
    destruct call as [p prt ph sid rp cid]. cbn in Hid |- *.
    unfold emitted, session_started, start_call_free.
    destruct Hr as [-> | [-> | ->]]; cbn [Z.eqb];
      destruct (g_variant_lookup_value ret "devices" "u") as [[]|];
      destruct (g_variant_lookup_value ret "streams" "a(ua{sv})");
      destruct prt; cbn; rewrite Hid; destruct (cid =? 0); cbn;
      rewrite <- ?app_assoc; cbn;
      eexists;
      first [ exists [ev_unexport]; eexists; split; [reflexivity|auto]
            | exists []; eexists; split; [reflexivity|auto] ].
Qed.

(** ** Cancellation *)

(** C1, as the code has it.  When the caller's cancellation fires while
    the CreateSession request of an establishment is outstanding, one
    Close call without reply callback is issued, on the object path of
    that request.  The cancellation itself resolves nothing: the task is
    not completed, the block and its subscription stay, and the outcome
    is left to a later Response.  A second cancellation does nothing. *)
Theorem cancel_during_create_session
  (type : XdpSessionType) (portal : XdpPortal) (devices outputs : Z)
  (multiple : bool) (rand : list Z) :
  let st := establish type portal devices outputs multiple (Some new_cancellable) rand in
  let st' := step st in_cancel in
  exists s,
    let close := {| bus_name := PORTAL_BUS_NAME;
                    object_path := sub_object_path s;
                    interface_name := REQUEST_INTERFACE;
                    method_name := "Close";
                    parameters := None;
                    with_cancellable := false |} in
    subscriptions (est_env st) = [s] /\
    sub_callback s = cb_session_created /\
    emitted (est_env st) (est_env st') [ev_call close] /\
    calls_to "Close" (trace (est_env st')) = [ev_call close] /\
    returns (trace (est_env st')) = [] /\
    subscriptions (est_env st') = [s] /\
    est_call st' = est_call st /\
    step st' in_cancel = st'.
Proof.
  destruct type; cbn; eexists; repeat split.
Qed.

(** ** The Closed state *)

(** C5, as the code has it.  On a Closed session every input operation
    is rejected with the critical warning and no bus call; Close leaves
    the session Closed, and so does every Start response other than 0.
    [xdp_session_start] does not look at the lifecycle state: what it
    does is the same for every state, and without a parent it issues the
    Start call on a Closed session too. *)
Theorem closed_session_gate (w : World) :
  XdpSession.state (session w) = XDP_SESSION_CLOSED ->
  (forall op, inject op w = lift (log ev_critical) w) /\
  XdpSession.state (session (xdp_session_close w)) = XDP_SESSION_CLOSED /\
  (forall response ret call, response <> 0 ->
     XdpSession.state (session (session_started response ret call w))
     = XDP_SESSION_CLOSED) /\
  (forall parent cancel state,
     let w' := update_session (fun s => _xdp_session_set_session_state s state) w in
     fst (xdp_session_start parent cancel w) = fst (xdp_session_start parent cancel w') /\
     env (snd (xdp_session_start parent cancel w))
     = env (snd (xdp_session_start parent cancel w'))) /\
  (forall cancel, exists c,
     bus_calls (trace (env (snd (xdp_session_start None cancel w))))
     = bus_calls (trace (env w)) ++ [ev_call c] /\
     method_name c = "Start").
Proof.
  intros Hc. split; [|split; [|split; [|split]]].
  - intros op. apply inject_rejected. unfold may_inject. rewrite Hc.
    intros (_ & H & _). discriminate.
  - reflexivity.
  - intros response ret call H. apply Z.eqb_neq in H.
    unfold session_started. rewrite H. reflexivity.
  - intros parent cancel state.
    unfold xdp_session_start, start_session. destruct parent, cancel; cbn; split; reflexivity.
  - intros cancel. unfold xdp_session_start, start_session.
    destruct cancel; cbn; rewrite !bus_calls_app; cbn; rewrite ?app_nil_r;
      eexists; split; reflexivity.
Qed.

(** * Further properties *)

Lemma stage_calls_app t u : stage_calls (t ++ u) = stage_calls t ++ stage_calls u.
Proof. apply flat_map_app. Qed.

Lemma no_return_in t r : returns t = [] -> ~ In (ev_return r) t.
Proof.
  intros H HI.
  assert (In (ev_return r) (returns t))
    by (apply filter_In; split; [exact HI|reflexivity]).
  rewrite H in *. contradiction.
Qed.

Lemma InvS_establish ty portal devices outputs multiple cancel rand :
  InvS ty outputs (establish ty portal devices outputs multiple cancel rand).
Proof.
  destruct ty, cancel as [k|]; split; cbn.
  all: try (intros c _; eexists; repeat split; try discriminate; reflexivity).
  all: try (destruct (outputs =? 0); eexists; reflexivity).
  all: try (eexists; reflexivity).
  all: intros s H; intuition discriminate.
Qed.

Ltac invs_result Hret :=
  let s := fresh "s" in let H := fresh "H" in
  intros s H; rewrite ?in_app_iff in H; cbn in H;
  repeat match goal with
         | H : _ \/ _ |- _ => destruct H
         | H : False |- _ => contradiction
         | H : In (ev_return _) _ |- _ => exfalso; exact (no_return_in _ _ Hret H)
         | H : _ = ev_return _ |- _ => try discriminate H; clear H
         end.

Ltac use_eqb :=
  repeat match goal with
         | H : (?o =? 0) = _ |- context [?o =? 0] => rewrite H
         end.

Ltac solve_prefix :=
  unfold all_stages; use_eqb;
  repeat match goal with
         | |- context [match ?x with _ => _ end] => destruct x
         end;
  eexists; reflexivity.

Ltac close_invs Hret Hst :=
  split; cbn; rewrite ?Z.eqb_refl; cbn; unfold stage_calls in *; rewrite ?flat_map_app; cbn;
  rewrite ?Hst; cbn;
  [ try (intros ? ?; discriminate);
    try (intros ? _; eexists; split; [reflexivity|]; cbn;
         repeat split; try reflexivity; try discriminate; try congruence)
  | try solve_prefix
  | try (eexists; reflexivity)
  | invs_result Hret; use_eqb; try reflexivity; try congruence ].

Lemma InvS_deliver ty outs st path response ret :
  Inv ty outs st -> InvS ty outs st -> InvS ty outs (deliver path response ret st).
Proof.
  intros [HR HD HS HC] [HL HP HF HRes]. unfold deliver.
  destruct st as [e [c|]]; cbn [est_call est_env] in *; [|split; assumption].
  destruct HC as (Hty & Hout & Hret & s & Hsubs & Hid & Hpos).
  destruct (HL c eq_refl) as (s' & Hsubs' & Hst & Hdev & Hsrc & Hns).
  rewrite Hsubs in Hsubs'. injection Hsubs' as <-.
  unfold find_subscription. rewrite Hsubs. cbn [find].
  destruct (String.eqb (sub_object_path s) path); [|split; cbn; eauto 10].
  destruct e as [subs nxt cancel rand tr], c as [p i t d o m sid rp cid], s as [n sp cb].
  cbn in Hty, Hout, Hret, Hsubs, Hid, Hpos, HR, HD, HS, Hst, Hdev, Hsrc, Hns, HP, HF, HRes.
  subst subs sid t o. unfold returns in Hret. fold (returns tr) in Hret.
  assert (Hn : (n =? 0) = false) by (apply Z.eqb_neq; lia).
  clear HL HD HS HR.
  destruct cb; cbn [sub_callback handler stages_until] in *; try congruence.
  - unfold session_created.
    destruct (response =? 0) eqn:E0.
    + destruct ty; cbn; close_invs Hret Hst.
    + destruct (response =? 1), (response =? 2), (cid =? 0) eqn:Ec;
        cbn; unfold create_call_free; cbn; rewrite Hn, ?Ec; cbn;
        close_invs Hret Hst.
  - pose proof (Hdev eq_refl) as ->. unfold devices_selected.
    destruct (response =? 0) eqn:E0.
    + cbn. destruct (outs =? 0) eqn:Eo; cbn.
      * unfold create_call_free; cbn. destruct (cid =? 0); cbn; close_invs Hret Hst.
      * close_invs Hret Hst. intros _ _. apply Z.eqb_neq, Eo.
    + destruct (response =? 1), (response =? 2), (cid =? 0) eqn:Ec;
        cbn; unfold create_call_free; cbn; rewrite Hn, ?Ec; cbn;
        close_invs Hret Hst.
  - assert (Eo : ty = XDP_SESSION_REMOTE_DESKTOP -> (outs =? 0) = false)
      by (intros E; apply Z.eqb_neq, Hsrc; auto).
    unfold sources_selected, create_call_free.
    destruct ty; [clear Eo|specialize (Eo eq_refl)];
    destruct (response =? 0), (response =? 1), (response =? 2), (cid =? 0) eqn:Ec;
      cbn; rewrite Hn, ?Ec; cbn; close_invs Hret Hst.
Qed.

Lemma InvB_establish ty portal devices outputs multiple cancel rand :
  exists c0,
    est_call (establish ty portal devices outputs multiple cancel rand) = Some c0 /\
    CreateCall.portal c0 = portal /\ CreateCall.type c0 = ty /\
    CreateCall.outputs c0 = outputs /\ CreateCall.multiple c0 = multiple /\
    CreateCall.devices c0 =
      match ty with XDP_SESSION_SCREENCAST => XDP_DEVICE_NONE
               | XDP_SESSION_REMOTE_DESKTOP => devices end /\
    InvB c0 (establish ty portal devices outputs multiple cancel rand).
Proof.
  destruct ty, cancel as [k|]; cbn; eexists; (split; [reflexivity|]); repeat split; cbn.
  all: try (intros c E; injection E as <-; reflexivity).
  all: try (repeat constructor; cbn; intros; discriminate).
  all: intros r H; intuition discriminate.
Qed.

Ltac invb_result Hret :=
  let r := fresh "r" in let H := fresh "H" in
  intros r H; rewrite ?in_app_iff in H; cbn in H;
  repeat match goal with
         | H : _ \/ _ |- _ => destruct H
         | H : False |- _ => contradiction
         | H : In (ev_return _) _ |- _ => exfalso; exact (no_return_in _ _ Hret H)
         | H : _ = ev_return _ |- _ => try discriminate H; injection H as <-
         end; cbn; try reflexivity; try exact I.

Ltac close_invb Hret HFw HN :=
  split; cbn; rewrite ?Z.eqb_refl; cbn;
  [ try (intros ? ?; discriminate); try (intros ? E; injection E as <-; reflexivity)
  | rewrite ?Forall_app; repeat split; try exact HFw;
    repeat constructor; cbn; intros; try discriminate; try (eexists; reflexivity)
  | invb_result Hret
  | rewrite ?filter_app, ?length_app; cbn; rewrite ?HN; cbn; lia ].

Lemma InvB_deliver ty outs c0 st path response ret :
  Inv ty outs st -> InvB c0 st -> InvB c0 (deliver path response ret st).
Proof.
  intros [HR HD HS HC] [HB HFw HRes HN]. unfold deliver.
  destruct st as [e [c|]]; cbn [est_call est_env] in *; [|split; assumption].
  destruct HC as (Hty & Hout & Hret & s & Hsubs & Hid & Hpos).
  specialize (HB c eq_refl).
  unfold find_subscription. rewrite Hsubs. cbn [find].
  destruct (String.eqb (sub_object_path s) path);
    [|split; cbn; eauto 10; intros ? E; injection E as <-; exact HB].
  destruct e as [subs nxt cancel rand tr], c as [p i t d o m sid rp cid], s as [n sp cb],
    c0 as [p0 i0 t0 d0 o0 m0 sid0 rp0 cid0].
  cbn in Hty, Hout, Hret, Hsubs, Hid, Hpos, HR, HD, HS, HB, HFw, HRes, HN.
  injection HB as -> -> -> -> -> -> -> ->.
  subst subs sid ty outs. unfold returns in Hret. fold (returns tr) in Hret.
  assert (Hn : (n =? 0) = false) by (apply Z.eqb_neq; lia).
  clear HD HS HR.
  destruct cb; cbn [sub_callback handler] in *.
  - unfold session_created.
    destruct (response =? 0) eqn:E0.
    + destruct t0; cbn; close_invb Hret HFw HN.
    + destruct (response =? 1), (response =? 2), (cid0 =? 0) eqn:Ec;
        cbn; unfold create_call_free; cbn; rewrite Hn, ?Ec; cbn;
        close_invb Hret HFw HN.
  - unfold devices_selected.
    destruct (response =? 0) eqn:E0.
    + cbn. destruct (o0 =? 0) eqn:Eo; cbn.
      * unfold create_call_free; cbn. destruct (cid0 =? 0); cbn; close_invb Hret HFw HN.
      * close_invb Hret HFw HN.
    + destruct (response =? 1), (response =? 2), (cid0 =? 0) eqn:Ec;
        cbn; unfold create_call_free; cbn; rewrite Hn, ?Ec; cbn;
        close_invb Hret HFw HN.
  - unfold sources_selected, create_call_free.
    destruct (response =? 0), (response =? 1), (response =? 2), (cid0 =? 0) eqn:Ec;
      cbn; rewrite Hn, ?Ec; cbn; close_invb Hret HFw HN.
  - cbn. close_invb Hret HFw HN.
Qed.

Lemma cancelled_handlers_trace (call : CreateCall.t) (hs : list (Z * CancelledCallback))
  (e : Env) :
  fold_left (fun e h =>
               match snd h with
               | cb_create_cancelled => create_cancelled_cb call e
               | cb_start_cancelled => e
               end) hs e
  = {| subscriptions := subscriptions e;
       next_subscription := next_subscription e;
       cancellable := cancellable e;
       random := random e;
       trace := trace e ++ cancelled_calls call hs |}.
Proof.
  revert e. induction hs as [|[id cb] hs IH]; intros e; cbn [fold_left snd].
  - destruct e; cbn. rewrite app_nil_r. reflexivity.
  - destruct cb; rewrite IH; destruct e; cbn; rewrite <- ?app_assoc; reflexivity.
Qed.

Lemma InvK_establish ty portal devices outputs multiple rand (fresh : bool) :
  forall c0,
    est_call (establish ty portal devices outputs multiple
                (if fresh then Some new_cancellable else None) rand) = Some c0 ->
    InvK c0 (establish ty portal devices outputs multiple
               (if fresh then Some new_cancellable else None) rand).
Proof.
  intros c0 E. destruct ty, fresh; cbn in E; injection E as <-; split; cbn;
    try discriminate; try (intros; repeat split; reflexivity).
  all: intros k E; injection E as <-; cbn; repeat split; auto; discriminate.
Qed.

Ltac close_invk :=
  split; cbn; rewrite ?Z.eqb_refl; cbn; unfold calls_to in *; rewrite ?filter_app; cbn;
  rewrite ?app_nil_r;
  [ try (intros E; discriminate E);
    try (intros _; repeat split; auto;
         match goal with H : _ = [] |- _ => rewrite H; reflexivity end)
  | try (intros ? E; discriminate E);
    try (let k := fresh "k" in let E := fresh "E" in
         intros k E; injection E as <-; cbn;
         repeat split;
         first [ assumption | solve [auto] | rewrite ?length_app; cbn in *; lia ]) ].

Lemma InvK_deliver ty outs c0 st path response ret :
  Inv ty outs st -> InvB c0 st -> InvK c0 st -> InvK c0 (deliver path response ret st).
Proof.
  intros [HR HD HS HC] [HB _ _ _] [HKn HKs]. unfold deliver.
  destruct st as [e [c|]]; cbn [est_call est_env] in *; [|split; assumption].
  destruct HC as (Hty & Hout & Hret & s & Hsubs & Hid & Hpos).
  specialize (HB c eq_refl).
  unfold find_subscription. rewrite Hsubs. cbn [find].
  destruct (String.eqb (sub_object_path s) path); [|split; cbn; eauto 10].
  destruct e as [subs nxt cancel rand tr], c as [p i t d o m sid rp cid], s as [n sp cb],
    c0 as [p0 i0 t0 d0 o0 m0 sid0 rp0 cid0].
  cbn in Hty, Hout, Hret, Hsubs, Hid, Hpos, HR, HD, HS, HB, HKn, HKs.
  injection HB as -> -> -> -> -> -> -> ->.
  subst subs sid ty outs.
  assert (Hn : (n =? 0) = false) by (apply Z.eqb_neq; lia).
  clear HD HS HR Hret.
  destruct cancel as [[kc kh kn]|].
  - clear HKn. destruct (HKs _ eq_refl) as (Hcid & Hh & Hnc & Hcl & Hcnt). clear HKs.
    cbn in Hh, Hnc, Hcl, Hcnt. subst kh.
    assert (Ec : (cid0 =? 0) = false) by (apply Z.eqb_neq; exact Hcid).
    destruct cb; cbn [sub_callback handler] in *.
    + unfold session_created.
      destruct (response =? 0) eqn:E0.
      * destruct t0; cbn; close_invk.
      * destruct (response =? 1), (response =? 2);
          cbn; unfold create_call_free; cbn; rewrite Hn, ?Ec; cbn; close_invk.
    + unfold devices_selected.
      destruct (response =? 0) eqn:E0.
      * cbn. destruct (o0 =? 0) eqn:Eo; cbn.
        -- unfold create_call_free; cbn. rewrite Ec; cbn; close_invk.
        -- close_invk.
      * destruct (response =? 1), (response =? 2);
          cbn; unfold create_call_free; cbn; rewrite Hn, ?Ec; cbn; close_invk.
    + unfold sources_selected, create_call_free.
      destruct (response =? 0), (response =? 1), (response =? 2);
        cbn; rewrite Hn, ?Ec; cbn; close_invk.
    + cbn. close_invk.
  - clear HKs. destruct (HKn eq_refl) as (Hcid & Hcl & Hco & Hdi). clear HKn.
    subst cid0.
    destruct cb; cbn [sub_callback handler] in *.
    + unfold session_created.
      destruct (response =? 0) eqn:E0.
      * destruct t0; cbn; close_invk.
      * destruct (response =? 1), (response =? 2);
          cbn; unfold create_call_free; cbn; rewrite Hn; cbn; close_invk.
    + unfold devices_selected.
      destruct (response =? 0) eqn:E0.
      * cbn. destruct (o0 =? 0) eqn:Eo; cbn.
        -- unfold create_call_free; cbn; close_invk.
        -- close_invk.
      * destruct (response =? 1), (response =? 2);
          cbn; unfold create_call_free; cbn; rewrite Hn; cbn; close_invk.
    + unfold sources_selected, create_call_free.
      destruct (response =? 0), (response =? 1), (response =? 2);
        cbn; rewrite Hn; cbn; close_invk.
    + cbn. close_invk.
Qed.

Lemma cancel_effect (st : Establishment) :
  let st' := g_cancellable_cancel st in
  est_call st' = est_call st /\
  subscriptions (est_env st') = subscriptions (est_env st) /\
  (exists closes,
     trace (est_env st') = trace (est_env st) ++ closes /\
     (closes = [] \/
      exists k call, cancellable (est_env st) = Some k /\ cancelled k = false /\
                     est_call st = Some call /\
                     closes = cancelled_calls call (handlers k))) /\
  cancellable (est_env st') =
    match cancellable (est_env st) with
    | None => None
    | Some k => Some {| cancelled := true; handlers := handlers k;
                        next_handler := next_handler k |}
    end.
Proof.
  cbv zeta. unfold g_cancellable_cancel.
  destruct (cancellable (est_env st)) as [[kc kh kn]|] eqn:Ek.
  - cbn [cancelled]. destruct kc.
    + rewrite Ek. repeat split. exists []. rewrite app_nil_r. auto.
    + destruct st as [e [call|]]; cbn [est_call est_env] in *.
      * rewrite cancelled_handlers_trace. cbn. rewrite Ek. repeat split.
        eexists. split; [reflexivity|]. right.
        exists {| cancelled := false; handlers := kh; next_handler := kn |}, call. auto.
      * cbn. rewrite Ek. repeat split. exists []. rewrite app_nil_r. auto.
  - rewrite Ek. repeat split. exists []. rewrite app_nil_r. auto.
Qed.

Lemma cancelled_calls_quiet (call : CreateCall.t) (hs : list (Z * CancelledCallback)) :
  stage_calls (cancelled_calls call hs) = [] /\
  returns (cancelled_calls call hs) = [] /\
  filter is_subscribe (cancelled_calls call hs) = [] /\
  filter is_unsubscribe (cancelled_calls call hs) = [] /\
  filter is_connect (cancelled_calls call hs) = [] /\
  filter is_disconnect (cancelled_calls call hs) = [] /\
  (forall c0, Forall (forwarded c0) (cancelled_calls call hs)) /\
  (forall r, ~ In (ev_return r) (cancelled_calls call hs)).
Proof.
  induction hs as [|[id cb] hs (A & B & C & D & E & F & G & H)]; cbn.
  - repeat split; auto. 
  - destruct cb; cbn; repeat split; auto.
    + intros c0. constructor; [|apply G]. cbn. split; intros; discriminate.
    + intros r [X|X]; [discriminate|exact (H r X)].
Qed.

Lemma InvS_cancel ty outs st : InvS ty outs st -> InvS ty outs (g_cancellable_cancel st).
Proof.
  intros [HL HP HF HRes].
  destruct (cancel_effect st) as (Ec & Es & (closes & Et & Hc) & _). cbv zeta in *.
  assert (Q : stage_calls closes = [] /\ forall r, ~ In (ev_return r) closes).
  { destruct Hc as [->|(k & call & _ & _ & _ & ->)]; [split; [reflexivity|intros r []]|].
    destruct (cancelled_calls_quiet call (handlers k)) as (A & _ & _ & _ & _ & _ & _ & H).
    split; assumption. }
  destruct Q as [Q1 Q2].
  split; rewrite ?Ec, ?Es, ?Et, ?stage_calls_app, ?Q1, ?app_nil_r; try assumption.
  intros s H. apply in_app_iff in H. destruct H as [H|H]; [exact (HRes s H)|destruct (Q2 _ H)].
Qed.

Lemma InvB_cancel c0 st : InvB c0 st -> InvB c0 (g_cancellable_cancel st).
Proof.
  intros [HB HFw HRes HN].
  destruct (cancel_effect st) as (Ec & Es & (closes & Et & Hc) & _). cbv zeta in *.
  assert (Q : Forall (forwarded c0) closes /\ (forall r, ~ In (ev_return r) closes) /\
              filter is_subscribe closes = [] /\ filter is_unsubscribe closes = []).
  { destruct Hc as [->|(k & call & _ & _ & _ & ->)]; [repeat split; auto|].
    destruct (cancelled_calls_quiet call (handlers k)) as (_ & _ & C & D & _ & _ & G & H).
    repeat split; auto. }
  destruct Q as (Q1 & Q2 & Q3 & Q4).
  split; rewrite ?Ec, ?Es, ?Et; try assumption.
  - apply Forall_app; split; assumption.
  - intros r H. apply in_app_iff in H. destruct H as [H|H]; [exact (HRes r H)|destruct (Q2 _ H)].
  - rewrite !filter_app, !length_app, Q3, Q4. cbn. lia.
Qed.

Lemma InvK_cancel c0 st : InvB c0 st -> InvK c0 st -> InvK c0 (g_cancellable_cancel st).
Proof.
  intros [HB _ _ _] [HKn HKs].
  destruct (cancel_effect st) as (Ec & Es & (closes & Et & Hc) & Ek). cbv zeta in *.
  split; rewrite ?Ec, ?Et, ?Ek.
  - intros E. destruct (cancellable (est_env st)) eqn:E'; [discriminate|].
    destruct Hc as [->|(k & call & X & _)]; [|discriminate].
    rewrite app_nil_r. apply HKn. reflexivity.
  - intros k' E. destruct (cancellable (est_env st)) as [k|] eqn:E'; [|discriminate].
    injection E as <-. cbn [handlers cancelled].
    destruct (HKs k eq_refl) as (Hcid & Hh & Hnc & Hcl & Hcnt).
    destruct Hc as [->|(k2 & call & X & Hcan & Hcall & ->)].
    + rewrite app_nil_r. repeat split; auto. intros; discriminate.
    + injection X as <-. rewrite Hcall in Hh |- *. rewrite Hh in Hcnt |- *. cbn in Hcnt |- *.
      rewrite (HB call Hcall). cbn.
      unfold calls_to in *. rewrite !filter_app, !length_app, (Hnc Hcan). cbn.
      repeat split; auto; try (intros; discriminate); lia.
Qed.

Lemma InvAll_run ty outs c0 inputs st : InvAll ty outs c0 st -> InvAll ty outs c0 (run inputs st).
Proof.
  revert st. induction inputs as [|i inputs IH]; intros st H; [exact H|].
  apply IH. destruct H as [A B C D]. destruct i; cbn [step].
  - split; [apply Inv_deliver|apply InvS_deliver|eapply InvB_deliver|eapply InvK_deliver];
      eassumption.
  - split; [apply Inv_cancel|apply InvS_cancel|apply InvB_cancel|apply InvK_cancel]; assumption.
Qed.

Lemma InvStart_activate parent (fresh : bool) s0 rand :
  InvStart parent s0 (activate parent (if fresh then Some new_cancellable else None) s0 rand).
Proof.
  destruct parent, fresh, s0 as [p i t st d str]; split; cbn; try lia;
    try (repeat split; reflexivity).
  all: try (destruct t; cbn; lia).
  all: repeat split; try discriminate; try reflexivity;
    try (intros k E; injection E as <-; reflexivity).
  all: try (eexists; repeat split; reflexivity).
  all: try (destruct t; cbn; try reflexivity; constructor).
Qed.

Lemma no_bus_calls (m : string) (t : list Event) : bus_calls t = [] -> calls_to m t = [].
Proof.
  induction t as [|ev t IH]; [reflexivity|]. cbn.
  destruct ev; cbn; try exact IH; discriminate.
Qed.

Lemma InvStart_exported parent s0 st handle :
  InvStart parent s0 st -> InvStart parent s0 (start_exported handle st).
Proof.
  intros I. unfold start_exported.
  destruct st as [[e ses] [c|]]; cbn [act_call act_world]; [|exact I].
  destruct c as [p prt ph sid rp cid]. cbn [StartCall.parent StartCall.parent_handle].
  destruct prt as [x|]; [|exact I]. destruct ph; [exact I|].
  destruct I as [HI HR HS HC HL]. cbn in HI, HR, HS, HC, HL.
  destruct HL as (-> & <- & Hret & Hun & _ & -> & Hsubs & Hh & Hbus).
  pose proof (no_bus_calls "Start" _ Hbus) as HS0.
  pose proof (no_bus_calls "Close" _ Hbus) as HC0.
  destruct e as [subs nxt cancel rand tr]. cbn in *. subst subs.
  unfold parent_exported, start_session. cbn.
  destruct handle as [h|]; cbn.
  - destruct cancel as [[kc kh kn]|]; cbn.
    + pose proof (Hh _ eq_refl) as Hkh. cbn in Hkh. subst kh.
      split; cbn; unfold returns, calls_to, bus_calls in *; rewrite ?filter_app; cbn;
        rewrite ?Hret, ?HS0, ?HC0, ?Hun; cbn; try lia; try assumption.
      repeat split; try discriminate; auto.
      eexists; repeat split; try reflexivity; lia.
    + split; cbn; unfold returns, calls_to, bus_calls in *; rewrite ?filter_app; cbn;
        rewrite ?Hret, ?HS0, ?HC0, ?Hun; cbn; try lia; try assumption.
      repeat split; try discriminate; auto.
      eexists; repeat split; try reflexivity; lia.
  - split; cbn; unfold returns, calls_to, bus_calls in *; rewrite ?filter_app; cbn;
      rewrite ?Hret, ?HS0, ?HC0, ?Hun, ?Hbus; cbn; try lia; try assumption.
    repeat split; try discriminate; auto.
Qed.

Ltac close_start Hret Hun :=
  split; cbn; rewrite ?Z.eqb_refl; cbn;
  unfold returns, calls_to, bus_calls in *; rewrite ?filter_app, ?length_app; cbn;
  rewrite ?Hret, ?Hun; cbn; try lia; try assumption;
  repeat split; auto; try discriminate;
  try (intros ? E; injection E as <-; reflexivity).

Lemma InvStart_deliver parent s0 st path response ret :
  InvStart parent s0 st -> InvStart parent s0 (start_deliver path response ret st).
Proof.
  intros I. unfold start_deliver.
  destruct st as [[e ses] [c|]]; cbn [act_call act_world env]; [|exact I].
  destruct (find_subscription path e) as [s|] eqn:Ef; [|exact I].
  destruct (sub_callback s) eqn:Ecb; try exact I.
  destruct I as [HI HR HS HC HL]. cbn in HI, HR, HS, HC, HL.
  destruct HL as (-> & <- & Hret & Hun & HL).
  destruct c as [p prt ph sid rp cid]. cbn in HL |- *.
  destruct ph as [h|].
  2:{ destruct HL as (_ & _ & Hsubs & _). unfold find_subscription in Ef.
      rewrite Hsubs in Ef. discriminate. }
  destruct HL as ((s' & Hsubs & Hcb & Hid & Hpos & Hpath) & Hst & Hk & Hcl).
  destruct e as [subs nxt cancel rand tr]. cbn in *. subst subs sid.
  assert (Hn : (sub_id s' =? 0) = false) by (apply Z.eqb_neq; lia).
  destruct s0 as [sp si sty sst sd sstr]. destruct HI as (_ & _ & _).
  unfold session_started, start_call_free. cbn.
  destruct cancel as [[kc kh kn]|].
  - destruct Hk as (Hkh & Hcid & Hnc). cbn in Hkh. subst kh.
    assert (Ec : (cid =? 0) = false) by (apply Z.eqb_neq; exact Hcid).
    destruct (response =? 0) eqn:E0; [|destruct (response =? 1), (response =? 2)];
      try destruct (g_variant_lookup_value ret "devices" "u") as [[]|];
      try destruct (g_variant_lookup_value ret "streams" "a(ua{sv})");
      destruct prt; cbn; rewrite Hn, Ec; cbn; close_start Hret Hun.
  - subst cid.
    destruct (response =? 0) eqn:E0; [|destruct (response =? 1), (response =? 2)];
      try destruct (g_variant_lookup_value ret "devices" "u") as [[]|];
      try destruct (g_variant_lookup_value ret "streams" "a(ua{sv})");
      destruct prt; cbn; rewrite Hn; cbn; close_start Hret Hun.
Qed.

Lemma InvStart_cancel parent s0 st :
  InvStart parent s0 st -> InvStart parent s0 (start_cancel st).
Proof.
  intros I. unfold start_cancel.
  destruct st as [[e ses] c]; cbn [act_call act_world env session].
  destruct (cancellable e) as [[kc kh kn]|] eqn:Ek; [|exact I].
  cbn [cancelled handlers]. destruct kc; [exact I|].
  destruct I as [HI HR HS HC HL]. cbn in HI, HR, HS, HC, HL.
  destruct e as [subs nxt cancel rand tr]. cbn in Ek. subst cancel.
  destruct c as [[p prt ph sid rp cid]|]; cbn in HL |- *.
  - destruct HL as (-> & <- & Hret & Hun & HL). destruct ph as [h|].
    + destruct HL as (Hs & Hst & (Hkh & Hcid & Hnc) & Hcl). cbn in Hkh. subst kh.
      specialize (Hnc eq_refl). cbn in Hnc.
      split; cbn; unfold returns, calls_to, bus_calls in *; rewrite ?filter_app, ?length_app; cbn;
        rewrite ?Hret, ?Hun, ?Hnc in *; cbn; try lia; try assumption.
      repeat split; auto; try discriminate; try lia; repeat constructor.
    + destruct HL as (Hp & -> & Hsubs & Hh & Hbus).
      pose proof (Hh _ eq_refl) as Hkh. cbn in Hkh. subst kh. cbn.
      split; cbn; try assumption.
      repeat split; auto. intros k E; injection E as <-; reflexivity.
  - destruct HL as (Hsubs & Hh & Hun & Hstate).
    pose proof (Hh _ eq_refl) as Hkh. cbn in Hkh. subst kh. cbn.
    split; cbn; try assumption.
    repeat split; auto. intros k E; injection E as <-; reflexivity.
Qed.

Lemma InvStart_run parent s0 inputs st :
  InvStart parent s0 st -> InvStart parent s0 (start_run inputs st).
Proof.
  revert st. induction inputs as [|i inputs IH]; intros st H; [exact H|].
  apply IH. destruct i; cbn [start_step];
    [apply InvStart_exported|apply InvStart_deliver|apply InvStart_cancel]; exact H.
Qed.

Lemma Inv3_run ty outs c0 inputs st : Inv3 ty outs c0 st -> Inv3 ty outs c0 (run inputs st).
Proof.
  revert st. induction inputs as [|i inputs IH]; intros st H; [exact H|].
  apply IH. destruct H as [A B C]. destruct i; cbn [step].
  - split; [apply Inv_deliver|apply InvS_deliver|eapply InvB_deliver]; eassumption.
  - split; [apply Inv_cancel|apply InvS_cancel|apply InvB_cancel]; assumption.
Qed.

Lemma Inv3_establish ty portal devices outputs multiple cancel rand :
  exists c0,
    est_call (establish ty portal devices outputs multiple cancel rand) = Some c0 /\
    CreateCall.portal c0 = portal /\ CreateCall.type c0 = ty /\
    CreateCall.outputs c0 = outputs /\ CreateCall.multiple c0 = multiple /\
    CreateCall.devices c0 =
      match ty with XDP_SESSION_SCREENCAST => XDP_DEVICE_NONE
               | XDP_SESSION_REMOTE_DESKTOP => devices end /\
    Inv3 ty outputs c0 (establish ty portal devices outputs multiple cancel rand).
Proof.
  destruct (InvB_establish ty portal devices outputs multiple cancel rand)
    as (c0 & E & A & B & C & D & F & I).
  exists c0. split; [exact E|]. split; [exact A|]. split; [exact B|]. split; [exact C|].
  split; [exact D|]. split; [exact F|].
  split; [apply Inv_establish|apply InvS_establish|exact I].
Qed.

(** X2.  Along every run of an establishment the stages are called in
    order and each at most once: the calls made so far are CreateSession
    followed by a prefix of the remaining stages of the request, and a
    session is returned to the task only when all of them were called. *)
Theorem stages_in_order type portal devices outputs multiple cancel rand inputs :
  let t := trace (est_env (run inputs
             (establish type portal devices outputs multiple cancel rand))) in
  (exists rest, stage_calls t = "CreateSession" :: rest) /\
  (exists rest, stage_calls t ++ rest = all_stages type outputs) /\
  (forall s, In (ev_return (task_pointer s)) t -> stage_calls t = all_stages type outputs).
Proof.
  destruct (Inv3_establish type portal devices outputs multiple cancel rand)
    as (c0 & _ & _ & _ & _ & _ & _ & I).
  destruct (Inv3_run _ _ _ inputs _ I) as [_ [_ HP HF HR] _].
  repeat split; assumption.
Qed.

Lemma no_calls_to (m : string) (t : list Event) (c : BusCall) :
  calls_to m t = [] -> In (ev_call c) t -> method_name c <> m.
Proof.
  intros H HI E.
  assert (X : In (ev_call c) (calls_to m t)).
  { apply filter_In. split; [exact HI|]. cbn. apply String.eqb_eq, E. }
  rewrite H in X. exact X.
Qed.

(** X3.  Along every run, every SelectDevices call carries the session
    identifier made by [create_session] and the device mask the caller
    asked for, and every SelectSources call that identifier, the output
    mask and the multiple flag of the caller. *)
Theorem requested_masks_forwarded type portal devices outputs multiple cancel rand inputs :
  exists c0,
    est_call (establish type portal devices outputs multiple cancel rand) = Some c0 /\
    forall c,
      In (ev_call c) (trace (est_env (run inputs
            (establish type portal devices outputs multiple cancel rand)))) ->
      (method_name c = "SelectDevices" ->
       exists token,
         parameters c =
           Some (GV_tuple [GV_object_path (CreateCall.id c0);
                           GV_vardict [("handle_token", GV_string token);
                                       ("type", GV_uint32 devices)]])) /\
      (method_name c = "SelectSources" ->
       exists token,
         parameters c =
           Some (GV_tuple [GV_object_path (CreateCall.id c0);
                           GV_vardict [("handle_token", GV_string token);
                                       ("types", GV_uint32 outputs);
                                       ("multiple", GV_boolean multiple)]])).
Proof.
  destruct (Inv3_establish type portal devices outputs multiple cancel rand)
    as (c0 & E & Hp & Ht & Ho & Hm & Hd & I).
  exists c0. split; [exact E|]. intros c HI.
  destruct (Inv3_run _ _ _ inputs _ I) as [[_ HD _ _] _ [_ HF _ _]].
  rewrite Forall_forall in HF. specialize (HF _ HI). cbn in HF.
  rewrite Ho, Hm, Hd in HF. destruct HF as [F1 F2]. split; [|exact F2].
  intros Em. destruct type; [|exact (F1 Em)].
  exfalso. exact (no_calls_to _ _ _ (HD eq_refl) HI Em).
Qed.

(** X4.  The CreateSession call announces a session handle token; along
    every run the task is only ever given an error or the session made
    from the caller's portal, the session path built from that token,
    and the session type asked for, never a boolean. *)
Theorem established_session_identity type portal devices outputs multiple cancel rand :
  exists token session_token create,
    calls_to "CreateSession"
      (trace (est_env (establish type portal devices outputs multiple cancel rand)))
    = [ev_call create] /\
    parameters create =
      Some (GV_tuple [GV_vardict [("handle_token", GV_string token);
                                  ("session_handle_token", GV_string session_token)]]) /\
    forall inputs r,
      In (ev_return r) (trace (est_env (run inputs
            (establish type portal devices outputs multiple cancel rand)))) ->
      match r with
      | task_pointer s =>
          s = _xdp_session_new portal
                (g_strconcat [SESSION_PATH_PREFIX; sender portal; "/"; session_token]) type
      | task_error _ _ => True
      | task_boolean _ => False
      end.
Proof.
  destruct (Inv3_establish type portal devices outputs multiple cancel rand)
    as (c0 & E & Hp & Ht & Ho & Hm & Hd & I).
  assert (X : exists token session_token create,
             calls_to "CreateSession"
               (trace (est_env (establish type portal devices outputs multiple cancel rand)))
             = [ev_call create] /\
             parameters create =
               Some (GV_tuple [GV_vardict [("handle_token", GV_string token);
                                  ("session_handle_token", GV_string session_token)]]) /\
             CreateCall.id c0 =
               g_strconcat [SESSION_PATH_PREFIX; sender portal; "/"; session_token]).
  { clear I. destruct type, cancel as [k|]; cbn in E |- *; injection E as <-;
      eexists; eexists; eexists; repeat split. }
  destruct X as (token & session_token & create & X1 & X2 & X3).
  exists token, session_token, create. repeat split; auto.
  intros inputs r HI.
  destruct (Inv3_run _ _ _ inputs _ I) as [_ _ [_ _ HR _]].
  specialize (HR r HI). destruct r; cbn in HR |- *; auto.
  rewrite Hp, Ht, X3 in HR. exact HR.
Qed.

Lemma run_app (a b : list Input) (st : Establishment) : run (a ++ b) st = run b (run a st).
Proof. apply fold_left_app. Qed.

(** X5.  Once the task of an establishment has been completed the block
    is freed and its subscription gone, and nothing that arrives later,
    response or cancellation, adds anything to the trace. *)
Theorem completed_establishment_is_silent
  type portal devices outputs multiple cancel rand inputs more :
  let st := run inputs (establish type portal devices outputs multiple cancel rand) in
  returns (trace (est_env st)) <> [] ->
  est_call st = None /\
  subscriptions (est_env st) = [] /\
  trace (est_env (run (inputs ++ more)
                    (establish type portal devices outputs multiple cancel rand)))
  = trace (est_env st).
Proof.
  intros st H.
  pose proof (Inv_run _ _ inputs _
                (Inv_establish type portal devices outputs multiple cancel rand)) as I.
  fold st in I. destruct I as [_ _ _ HC].
  destruct (est_call st) as [c|] eqn:E.
  - destruct HC as (_ & _ & Hr & _). contradiction.
  - repeat split; auto. rewrite run_app. fold st.
    apply (proj2 (freed_is_final more st E)).
Qed.

Lemma deliver_cancelled_flag path response ret st :
  cancelled_flag (est_env (deliver path response ret st)) = cancelled_flag (est_env st).
Proof.
  unfold deliver.
  destruct st as [e [c|]]; cbn [est_call est_env]; [|reflexivity].
  destruct (find_subscription path e) as [s|]; [|reflexivity].
  destruct e as [subs nxt cancel rand tr], c as [p i t d o m sid rp cid].
  destruct (sub_callback s); cbn [handler].
  - unfold session_created.
    destruct (response =? 0); [destruct t; cbn; reflexivity|].
    destruct (response =? 1), (response =? 2); cbn; unfold create_call_free; cbn;
      destruct (sid =? 0), (cid =? 0), cancel; reflexivity.
  - unfold devices_selected.
    destruct (response =? 0).
    + cbn. destruct (o =? 0); cbn; [|reflexivity].
      unfold create_call_free; cbn. destruct (cid =? 0), cancel; reflexivity.
    + destruct (response =? 1), (response =? 2); cbn; unfold create_call_free; cbn;
        destruct (sid =? 0), (cid =? 0), cancel; reflexivity.
  - unfold sources_selected, create_call_free.
    destruct (response =? 0), (response =? 1), (response =? 2); cbn;
      destruct (sid =? 0), (cid =? 0), cancel; reflexivity.
  - reflexivity.
Qed.

Lemma run_without_cancel inputs st :
  ~ In in_cancel inputs ->
  cancelled_flag (est_env (run inputs st)) = cancelled_flag (est_env st).
Proof.
  revert st. induction inputs as [|i inputs IH]; intros st H; [reflexivity|].
  cbn [run fold_left]. fold (run inputs (step st i)).
  rewrite IH by (intros X; apply H; right; exact X).
  destruct i; [apply deliver_cancelled_flag|]. exfalso. apply H. left. reflexivity.
Qed.

Lemma InvAll_establish ty portal devices outputs multiple rand (fresh : bool) :
  exists c0 s,
    est_call (establish ty portal devices outputs multiple
                (if fresh then Some new_cancellable else None) rand) = Some c0 /\
    subscriptions (est_env (establish ty portal devices outputs multiple
                (if fresh then Some new_cancellable else None) rand)) = [s] /\
    sub_object_path s = CreateCall.request_path c0 /\
    InvAll ty outputs c0 (establish ty portal devices outputs multiple
                            (if fresh then Some new_cancellable else None) rand).
Proof.
  destruct (Inv3_establish ty portal devices outputs multiple
              (if fresh then Some new_cancellable else None) rand)
    as (c0 & E & _ & _ & _ & _ & _ & [A B C]).
  pose proof (InvK_establish ty portal devices outputs multiple rand fresh c0 E) as D.
  assert (X : exists s, subscriptions (est_env (establish ty portal devices outputs multiple
                (if fresh then Some new_cancellable else None) rand)) = [s] /\
              sub_object_path s = CreateCall.request_path c0).
  { clear A B C D. destruct ty, fresh; cbn in E |- *; injection E as <-;
      eexists; split; reflexivity. }
  destruct X as (s & X1 & X2). exists c0, s.
  split; [exact E|]. split; [exact X1|]. split; [exact X2|]. split; assumption.
Qed.

(** X6.  With a fresh cancellable, a run of an establishment issues no
    Close call unless the caller cancels and at most one in all, and
    that call is addressed to the request path of CreateSession,
    whichever stage is pending; without a cancellable no Close call is
    ever issued. *)
Theorem cancellation_closes_once type portal devices outputs multiple rand inputs :
  exists path,
    map sub_object_path
      (subscriptions (est_env (establish type portal devices outputs multiple
                                 (Some new_cancellable) rand))) = [path] /\
    (let t := trace (est_env (run inputs (establish type portal devices outputs multiple
                                            (Some new_cancellable) rand))) in
     (calls_to "Close" t = [] \/ calls_to "Close" t = [ev_call (close_request path)]) /\
     (~ In in_cancel inputs -> calls_to "Close" t = [])) /\
    calls_to "Close"
      (trace (est_env (run inputs (establish type portal devices outputs multiple
                                     None rand)))) = [].
Proof.
  destruct (InvAll_establish type portal devices outputs multiple rand true)
    as (c0 & s & E & Hs & Hp & I).
  destruct (InvAll_establish type portal devices outputs multiple rand false)
    as (c1 & s1 & E1 & _ & _ & I1).
  cbn [negb] in *.
  exists (CreateCall.request_path c0). split; [rewrite Hs; cbn; rewrite Hp; reflexivity|].
  split.
  - cbv zeta.
    pose proof (InvAll_run _ _ _ inputs _ I) as [_ _ _ [_ HKs]].
    pose proof (run_without_cancel inputs
                  (establish type portal devices outputs multiple (Some new_cancellable) rand))
      as Hflag.
    assert (F0 : cancelled_flag (est_env (establish type portal devices outputs multiple
                                  (Some new_cancellable) rand)) = Some false)
      by (destruct type; reflexivity).
    unfold cancelled_flag in *.
    destruct (cancellable (est_env (run inputs (establish type portal devices outputs
                multiple (Some new_cancellable) rand)))) as [k|] eqn:Ek.
    + destruct (HKs k eq_refl) as (_ & _ & Hnc & Hcl & _). split; [exact Hcl|].
      intros Hno. apply Hnc. specialize (Hflag Hno). rewrite F0 in Hflag. cbn in Hflag.
      congruence.
    + exfalso.
        assert (G : forall inputs st, cancellable (est_env st) <> None ->
                      cancellable (est_env (run inputs st)) <> None).
        { clear. intros inputs. induction inputs as [|i inputs IH]; intros st H; [exact H|].
          cbn [run fold_left]. fold (run inputs (step st i)). apply IH.
          destruct i; cbn [step].
          - pose proof (deliver_cancelled_flag path response ret st) as X.
            unfold cancelled_flag in X.
            destruct (cancellable (est_env st)); [|congruence].
            destruct (cancellable (est_env (deliver path response ret st)));
              [discriminate|cbn in X; discriminate X].
          - destruct (cancel_effect st) as (_ & _ & _ & X). cbv zeta in X. rewrite X.
            destruct (cancellable (est_env st)); [discriminate|congruence]. }
        refine (G inputs _ _ Ek). destruct type; cbn; discriminate.
  - pose proof (InvAll_run _ _ _ inputs _ I1) as [_ _ _ [HKn _]].
    assert (G : forall inputs st, cancellable (est_env st) = None ->
                  cancellable (est_env (run inputs st)) = None).
    { clear. intros inputs. induction inputs as [|i inputs IH]; intros st H; [exact H|].
      cbn [run fold_left]. fold (run inputs (step st i)). apply IH.
      destruct i; cbn [step].
      - pose proof (deliver_cancelled_flag path response ret st) as X.
        unfold cancelled_flag in X. rewrite H in X.
        destruct (cancellable (est_env (deliver path response ret st)));
          [cbn in X; discriminate X|reflexivity].
      - destruct (cancel_effect st) as (_ & _ & _ & X). cbv zeta in X. rewrite X, H. reflexivity. }
    apply HKn. apply G. destruct type; reflexivity.
Qed.

(** X7.  Along every run of an establishment every subscription made is
    either removed or the one still held, and at most one is held; once
    the block is freed none is left, unsubscriptions match
    subscriptions, disconnections match connections, and no handler
    stays connected to the caller's cancellable.  The
    caller passed a fresh cancellable or none. *)
Theorem establishment_releases type portal devices outputs multiple rand (fresh : bool)
  inputs :
  let st := run inputs (establish type portal devices outputs multiple
                          (if fresh then Some new_cancellable else None) rand) in
  let t := trace (est_env st) in
  length (filter is_subscribe t) =
    (length (filter is_unsubscribe t) + length (subscriptions (est_env st)))%nat /\
  (length (subscriptions (est_env st)) <= 1)%nat /\
  (est_call st = None ->
   subscriptions (est_env st) = [] /\
   length (filter is_subscribe t) = length (filter is_unsubscribe t) /\
   length (filter is_connect t) = length (filter is_disconnect t) /\
   forall k, cancellable (est_env st) = Some k -> handlers k = []).
Proof.
  intros st t.
  destruct (InvAll_establish type portal devices outputs multiple rand fresh)
    as (c0 & s & _ & _ & _ & I).
  pose proof (InvAll_run _ _ _ inputs _ I) as [[_ _ _ HC] _ [_ _ _ HN] [HKn HKs]].
  fold st in HC, HN, HKn, HKs. fold t in HN, HKn, HKs.
  split; [exact HN|]. split.
  - destruct (est_call st); [|rewrite HC; cbn; lia].
    destruct HC as (_ & _ & _ & s' & -> & _). cbn. lia.
  - intros E. rewrite E in HC, HKs. rewrite HC in HN |- *. cbn in HN.
    split; [reflexivity|]. split; [lia|].
    destruct (cancellable (est_env st)) as [k|] eqn:Ek.
    + destruct (HKs k eq_refl) as (_ & Hh & _ & _ & Hcnt). rewrite Hh in Hcnt. cbn in Hcnt.
      split; [lia|]. intros k' X. injection X as <-. exact Hh.
    + destruct (HKn eq_refl) as (_ & _ & -> & ->). split; [reflexivity|]. intros; discriminate.
Qed.

(** X8.  At every stage of an establishment a response 1 completes the
    task with the error G_IO_ERROR_CANCELLED and a response 2 with
    G_IO_ERROR_FAILED; a response 0 at SelectSources completes it with
    the session made from the block.  [session_started] completes its
    task with TRUE on 0, and with the same two errors on 1 and 2. *)
Theorem response_code_mapping :
  (forall cb response ret call e,
     cb <> cb_session_started ->
     let e' := snd (handler cb response ret call e) in
     (response = 1 ->
      exists message,
        returns (trace e') = returns (trace e) ++
                             [ev_return (task_error G_IO_ERROR_CANCELLED message)]) /\
     (response = 2 ->
      exists message,
        returns (trace e') = returns (trace e) ++
                             [ev_return (task_error G_IO_ERROR_FAILED message)]) /\
     (response = 0 -> cb = cb_sources_selected ->
      returns (trace e') = returns (trace e) ++
        [ev_return (task_pointer (_xdp_session_new (CreateCall.portal call)
                                    (CreateCall.id call) (CreateCall.type call)))])) /\
  (forall response ret call w,
     let e' := env (session_started response ret call w) in
     (response = 0 ->
      returns (trace e') = returns (trace (env w)) ++ [ev_return (task_boolean true)]) /\
     (response = 1 ->
      exists message,
        returns (trace e') = returns (trace (env w)) ++
                             [ev_return (task_error G_IO_ERROR_CANCELLED message)]) /\
     (response = 2 ->
      exists message,
        returns (trace e') = returns (trace (env w)) ++
                             [ev_return (task_error G_IO_ERROR_FAILED message)])).
Proof.
  split.
  - intros cb response ret call e Hcb.
    destruct call as [p i t d o m sid rp cid]. cbn.
    repeat split.
    + intros ->. destruct cb; try congruence; cbn [handler];
        unfold session_created, devices_selected, sources_selected;
        cbn [Z.eqb negb]; unfold create_call_free; cbn;
        destruct (sid =? 0), (cid =? 0); cbn; rewrite ?returns_app; cbn; rewrite ?app_nil_r;
        eexists; reflexivity.
    + intros ->. destruct cb; try congruence; cbn [handler];
        unfold session_created, devices_selected, sources_selected;
        cbn [Z.eqb negb]; unfold create_call_free; cbn;
        destruct (sid =? 0), (cid =? 0); cbn; rewrite ?returns_app; cbn; rewrite ?app_nil_r;
        eexists; reflexivity.
    + intros -> ->. cbn [handler]. unfold sources_selected.
      cbn [Z.eqb negb]. unfold create_call_free; cbn;
        destruct (sid =? 0), (cid =? 0); cbn; rewrite ?returns_app; cbn; rewrite ?app_nil_r;
        reflexivity.
  - intros response ret call w. destruct call as [p prt ph sid rp cid]. cbn.
    unfold session_started, start_call_free. repeat split.
    + intros ->. cbn [Z.eqb].
      destruct (g_variant_lookup_value ret "devices" "u") as [[]|];
        destruct (g_variant_lookup_value ret "streams" "a(ua{sv})");
        destruct prt; cbn; destruct (sid =? 0), (cid =? 0); cbn;
        rewrite !returns_app; cbn; rewrite ?app_nil_r; reflexivity.
    + intros ->. cbn [Z.eqb].
      destruct prt; cbn; destruct (sid =? 0), (cid =? 0); cbn;
        rewrite !returns_app; cbn; rewrite ?app_nil_r; eexists; reflexivity.
    + intros ->. cbn [Z.eqb].
      destruct prt; cbn; destruct (sid =? 0), (cid =? 0); cbn;
        rewrite !returns_app; cbn; rewrite ?app_nil_r; eexists; reflexivity.
Qed.

Lemma append_inj_l (a x y : string) : String.append a x = String.append a y -> x = y.
Proof. induction a as [|c a IH]; cbn; [auto|]. intros [= H]. auto. Qed.

Lemma portal_token_inj (n m : Z) : portal_token n = portal_token m -> n = m.
Proof.
  unfold portal_token. intros H. apply append_inj_l in H.
  assert (I : forall z, NilZero.int_of_string (NilZero.string_of_int (Z.to_int z))
                        = Some (Z.to_int z)).
  { intros z. apply NilZero.isi; destruct z as [|p|p]; cbn; try discriminate.
    - intros [= E]. exact (Unsigned.to_uint_nonnil p E).
    - intros [= E]. exact (Unsigned.to_uint_nonnil p E). }
  apply to_int_inj. pose proof (I n) as A. rewrite H, I in A. congruence.
Qed.

Lemma request_path_inj (portal : XdpPortal) (a b : string) :
  request_path_of portal a = request_path_of portal b -> a = b.
Proof.
  unfold request_path_of, g_strconcat. cbn [String.concat]. intros H.
  repeat apply append_inj_l in H. exact H.
Qed.

Lemma hd_skipn (n : nat) (l : list Z) : hd 0 (skipn n l) = nth n l 0.
Proof. revert l. induction n as [|n IH]; intros [|x l]; cbn; auto. Qed.

Lemma tl_skipn (n : nat) (l : list Z) : tl (skipn n l) = skipn (S n) l.
Proof. revert l. induction n as [|n IH]; intros [|x l]; cbn; auto. Qed.

Lemma subscribed_paths_app (t u : list Event) :
  subscribed_paths (t ++ u) = subscribed_paths t ++ subscribed_paths u.
Proof. apply flat_map_app. Qed.

Lemma InvT_establish ty portal devices outputs multiple cancel rand :
  InvT portal rand (establish ty portal devices outputs multiple cancel rand).
Proof.
  destruct ty, cancel as [k|]; split; cbn.
  all: destruct rand as [|? [|? ?]]; reflexivity.
Qed.

Ltac close_invt HT HRnd Hst :=
  split; cbn; rewrite ?Z.eqb_refl; cbn;
  rewrite ?subscribed_paths_app, ?stage_calls_app, ?HT, ?Hst; cbn;
  rewrite ?app_nil_r; try assumption;
  unfold request_path_of, token_of_draw;
  rewrite ?HRnd, ?Hst, ?hd_skipn, ?tl_skipn; try reflexivity.

Lemma InvT_deliver ty outs c0 rand st path response ret :
  Inv3 ty outs c0 st -> InvT (CreateCall.portal c0) rand st ->
  InvT (CreateCall.portal c0) rand (deliver path response ret st).
Proof.
  intros [[HR HD HS HC] [HL HP HF HRes] [HB _ _ _]] [HT HRnd]. unfold deliver.
  destruct st as [e [c|]]; cbn [est_call est_env] in *; [|split; assumption].
  destruct HC as (Hty & Hout & Hret & s & Hsubs & Hid & Hpos).
  destruct (HL c eq_refl) as (s' & Hsubs' & Hst & Hdev & Hsrc & Hns).
  rewrite Hsubs in Hsubs'. injection Hsubs' as <-.
  pose proof (f_equal CreateCall.portal (HB c eq_refl)) as Ep. cbn in Ep.
  unfold find_subscription. rewrite Hsubs. cbn [find].
  destruct (String.eqb (sub_object_path s) path); [|split; cbn; assumption].
  destruct e as [subs nxt cancel rnd tr], c as [p i t d o m sid rp cid], s as [n sp cb].
  cbn in Hty, Hout, Hsubs, Hid, Hpos, Hdev, Hsrc, Hns, Ep.
  cbn [trace random sub_callback] in Hst, HT, HRnd.
  subst subs sid t o p.
  assert (Hn : (n =? 0) = false) by (apply Z.eqb_neq; lia).
  clear HL HD HS HR HP HF HRes HB Hret.
  destruct cb; cbn [sub_callback handler stages_until] in *; try congruence.
  - unfold session_created.
    destruct (response =? 0) eqn:E0.
    + destruct ty; cbn; close_invt HT HRnd Hst.
    + destruct (response =? 1), (response =? 2), (cid =? 0) eqn:Ec;
        cbn; unfold create_call_free; cbn; rewrite Hn, ?Ec; cbn;
        close_invt HT HRnd Hst.
  - pose proof (Hdev eq_refl) as ->. unfold devices_selected.
    destruct (response =? 0) eqn:E0.
    + cbn. destruct (outs =? 0) eqn:Eo; cbn.
      * unfold create_call_free; cbn. destruct (cid =? 0); cbn; close_invt HT HRnd Hst.
      * close_invt HT HRnd Hst.
    + destruct (response =? 1), (response =? 2), (cid =? 0) eqn:Ec;
        cbn; unfold create_call_free; cbn; rewrite Hn, ?Ec; cbn;
        close_invt HT HRnd Hst.
  - unfold sources_selected, create_call_free.
    destruct ty;
    destruct (response =? 0), (response =? 1), (response =? 2), (cid =? 0) eqn:Ec;
      cbn; rewrite Hn, ?Ec; cbn; close_invt HT HRnd Hst.
Qed.

Lemma cancel_random (st : Establishment) :
  random (est_env (g_cancellable_cancel st)) = random (est_env st).
Proof.
  unfold g_cancellable_cancel.
  destruct (cancellable (est_env st)) as [[kc kh kn]|]; [|reflexivity].
  cbn [cancelled]. destruct kc; [reflexivity|].
  destruct st as [e [call|]]; cbn [est_call est_env]; [|reflexivity].
  rewrite cancelled_handlers_trace. reflexivity.
Qed.

Lemma no_subscribed_paths (t : list Event) :
  filter is_subscribe t = [] -> subscribed_paths t = [].
Proof.
  induction t as [|ev t IH]; [reflexivity|]. destruct ev; cbn; auto. discriminate.
Qed.

Lemma InvT_cancel portal rand st :
  InvT portal rand st -> InvT portal rand (g_cancellable_cancel st).
Proof.
  intros [HT HRnd].
  destruct (cancel_effect st) as (_ & _ & (closes & Et & Hc) & _). cbv zeta in *.
  assert (Q : stage_calls closes = [] /\ subscribed_paths closes = []).
  { destruct Hc as [->|(k & call & _ & _ & _ & ->)]; [split; reflexivity|].
    destruct (cancelled_calls_quiet call (handlers k)) as (A & _ & B & _).
    split; [exact A|apply no_subscribed_paths, B]. }
  destruct Q as [Q1 Q2].
  split; rewrite ?cancel_random, Et, ?subscribed_paths_app, ?stage_calls_app, ?Q1, ?Q2,
           ?app_nil_r; assumption.
Qed.

Lemma InvT_run ty outs c0 rand inputs st :
  Inv3 ty outs c0 st -> InvT (CreateCall.portal c0) rand st ->
  InvT (CreateCall.portal c0) rand (run inputs st).
Proof.
  revert st. induction inputs as [|i inputs IH]; intros st H3 HT; [exact HT|].
  apply IH.
  - apply (Inv3_run ty outs c0 [i] st H3).
  - destruct i; cbn [step]; [eapply InvT_deliver; eassumption|apply InvT_cancel, HT].
Qed.

Lemma firstn_request_draws (n : nat) :
  NoDup (firstn n request_draws) /\
  forall i, In i (firstn n request_draws) -> (i < 4)%nat.
Proof.
  unfold request_draws.
  destruct n as [|[|[|[|n]]]]; cbn; (split; [repeat constructor; cbn; lia|intros i; lia]).
Qed.

Lemma distinct_draws_distinct_paths (portal : XdpPortal) (rand : list Z) (l : list nat) :
  NoDup l -> (forall i, In i l -> (i < length rand)%nat) ->
  NoDup (map (fun r => r mod G_MAXINT) rand) ->
  NoDup (map (fun i => request_path_of portal (token_of_draw rand i)) l).
Proof.
  intros Hl Hb Hr. apply NoDup_map_NoDup_ForallPairs; [|exact Hl].
  intros i j Hi Hj E. apply request_path_inj, portal_token_inj in E.
  rewrite (NoDup_nth _ (0 mod G_MAXINT)) in Hr.
  apply Hr; rewrite ?length_map; auto.
  rewrite !(map_nth (fun r => r mod G_MAXINT)). exact E.
Qed.

(** X1.  Every request is correlated before it is sent, by a token of its
    own draw.  [select_devices], [select_sources], [create_session] and
    [start_session] (once it has a parent handle) first subscribe to
    Response on the request path built from the sender name and the
    token made from the next number of the random source, store the
    nonzero subscription identifier in the block, and only then issue
    their call, whose [handle_token] option is that same token;
    [create_session] and [start_session] also record the path in
    [request_path].  The number is used up: [create_session] makes the
    session token from the one after it, and a later request draws a
    later number.  Tokens of different numbers give different request
    paths.  So along every run of an establishment the paths subscribed
    to are, one for each stage called, those of draws 0, 2 and 3 of the
    random source, and no two of them are the same when the source holds
    four numbers that do not repeat. *)
Theorem request_correlation :
  (forall call e, exists s c options,
     emitted e (snd (select_devices call e)) [ev_subscribe s; ev_call c] /\
     sub_object_path s
     = request_path_of (CreateCall.portal call) (portal_token (next_random e)) /\
     sub_callback s = cb_devices_selected /\
     CreateCall.signal_id (fst (select_devices call e)) = sub_id s /\ sub_id s <> 0 /\
     parameters c =
       Some (GV_tuple [GV_object_path (CreateCall.id call);
                       GV_vardict (("handle_token", GV_string (portal_token (next_random e)))
                                   :: options)]) /\
     random (snd (select_devices call e)) = tl (random e)) /\
  (forall call e, exists s c options,
     emitted e (snd (select_sources call e)) [ev_subscribe s; ev_call c] /\
     sub_object_path s
     = request_path_of (CreateCall.portal call) (portal_token (next_random e)) /\
     sub_callback s = cb_sources_selected /\
     CreateCall.signal_id (fst (select_sources call e)) = sub_id s /\ sub_id s <> 0 /\
     parameters c =
       Some (GV_tuple [GV_object_path (CreateCall.id call);
                       GV_vardict (("handle_token", GV_string (portal_token (next_random e)))
                                   :: options)]) /\
     random (snd (select_sources call e)) = tl (random e)) /\
  (forall call e, exists s c connect,
     emitted e (snd (create_session call e)) (ev_subscribe s :: connect ++ [ev_call c]) /\
     filter is_subscribe connect = [] /\ bus_calls connect = [] /\
     sub_object_path s
     = request_path_of (CreateCall.portal call) (portal_token (next_random e)) /\
     sub_callback s = cb_session_created /\
     CreateCall.request_path (fst (create_session call e)) = sub_object_path s /\
     CreateCall.signal_id (fst (create_session call e)) = sub_id s /\ sub_id s <> 0 /\
     parameters c =
       Some (GV_tuple
               [GV_vardict
                  [("handle_token", GV_string (portal_token (next_random e)));
                   ("session_handle_token",
                    GV_string (token_of_draw (random e) 1))]]) /\
     random (snd (create_session call e)) = tl (tl (random e))) /\
  (forall call w handle,
     StartCall.parent_handle call = Some handle ->
     exists s c connect,
       emitted (env w) (env (snd (start_session call w)))
         (ev_subscribe s :: connect ++ [ev_call c]) /\
       filter is_subscribe connect = [] /\ bus_calls connect = [] /\
       sub_object_path s
       = request_path_of (StartCall.portal call) (portal_token (next_random (env w))) /\
       sub_callback s = cb_session_started /\
       StartCall.request_path (fst (start_session call w)) = sub_object_path s /\
       StartCall.signal_id (fst (start_session call w)) = sub_id s /\ sub_id s <> 0 /\
       parameters c =
         Some (GV_tuple [GV_object_path (XdpSession.id (session w));
                         GV_string handle;
                         GV_vardict [("handle_token",
                                      GV_string (portal_token (next_random (env w))))]]) /\
       random (env (snd (start_session call w))) = tl (random (env w))) /\
  (forall portal n m,
     request_path_of portal (portal_token n) = request_path_of portal (portal_token m) ->
     n = m) /\
  (forall type portal devices outputs multiple cancel rand inputs,
     let t := trace (est_env (run inputs
                (establish type portal devices outputs multiple cancel rand))) in
     subscribed_paths t
     = map (fun i => request_path_of portal (token_of_draw rand i))
         (firstn (length (stage_calls t)) request_draws) /\
     ((4 <= length rand)%nat -> NoDup (map (fun r => r mod G_MAXINT) rand) ->
      NoDup (subscribed_paths t))).
Proof.
  unfold emitted, request_path_of, next_random, token_of_draw.
  split; [|split; [|split; [|split; [|split]]]].
  - intros [p i t d o m sid rp cid] e. unfold select_devices. cbn.
    do 3 eexists. rewrite <- !app_assoc. cbn. repeat split; discriminate.
  - intros [p i t d o m sid rp cid] e. unfold select_sources. cbn.
    do 3 eexists. rewrite <- !app_assoc. cbn. repeat split; discriminate.
  - intros [p i t d o m sid rp cid] [subs nxt k rnd tr]. unfold create_session. cbn.
    replace (hd 0 (tl rnd)) with (nth 1 rnd 0) by (destruct rnd as [|? [|? ?]]; reflexivity).
    destruct k as [k|]; cbn; unfold g_signal_connect; cbn.
    + do 2 eexists. exists [ev_connect (Z.pos (next_handler k)) cb_create_cancelled].
      rewrite <- !app_assoc. cbn. repeat split; discriminate.
    + do 2 eexists. exists []. rewrite <- !app_assoc. cbn. repeat split; discriminate.
  - intros [p prt ph sid rp cid] [e ses] handle H. cbn in H. subst ph.
    unfold start_session. cbn.
    destruct (cancellable e) as [k|] eqn:Ek; cbn; unfold g_signal_connect; cbn;
      rewrite ?Ek; cbn.
    + do 2 eexists. exists [ev_connect (Z.pos (next_handler k)) cb_start_cancelled].
      rewrite <- !app_assoc. cbn. repeat split; discriminate.
    + do 2 eexists. exists []. rewrite <- !app_assoc. cbn. repeat split; discriminate.
  - intros portal n m H. apply portal_token_inj.
    exact (request_path_inj portal _ _ H).
  - intros type portal devices outputs multiple cancel rand inputs. cbv zeta.
    destruct (Inv3_establish type portal devices outputs multiple cancel rand)
      as (c0 & _ & Ep & _ & _ & _ & _ & I3).
    subst portal.
    pose proof (InvT_establish type (CreateCall.portal c0) devices outputs multiple cancel
                  rand) as IT.
    destruct (InvT_run _ _ _ rand inputs _ I3 IT) as [HT _].
    unfold request_path_of, token_of_draw in HT.
    split; [exact HT|].
    intros Hlen Hnd. rewrite HT.
    destruct (firstn_request_draws
                (length (stage_calls (trace (est_env (run inputs
                   (establish type (CreateCall.portal c0) devices outputs multiple cancel
                      rand)))))))
      as [A B].
    apply (distinct_draws_distinct_paths (CreateCall.portal c0) rand _ A); [|exact Hnd].
    intros i Hi. specialize (B i Hi). lia.
Qed.

(** X9.  Without a parent [xdp_session_start] subscribes and issues
    Start at once, with the empty string as parent window, on the
    interface of the session type, and exports nothing.  With a parent it
    only asks for the export and subscribes to nothing; the Start call,
    with the exported handle as parent window, follows when
    [parent_exported] brings a handle, and a NULL handle makes it ask for
    the export again. *)
Theorem start_waits_for_export (cancel : option GCancellable) (w : World) :
  (exists s c connect token,
     emitted (env w) (env (snd (xdp_session_start None cancel w)))
       (ev_subscribe s :: connect ++ [ev_call c]) /\
     bus_calls connect = [] /\ filter is_export connect = [] /\
     method_name c = "Start" /\
     interface_name c =
       match XdpSession.type (session w) with
       | XDP_SESSION_REMOTE_DESKTOP => "org.freedesktop.portal.RemoteDesktop"
       | XDP_SESSION_SCREENCAST => "org.freedesktop.portal.ScreenCast"
       end /\
     parameters c =
       Some (GV_tuple [GV_object_path (XdpSession.id (session w));
                       GV_string "";
                       GV_vardict [("handle_token", GV_string token)]])) /\
  (forall p,
     let started := xdp_session_start (Some p) cancel w in
     emitted (env w) (env (snd started)) [ev_export] /\
     subscriptions (env (snd started)) = subscriptions (env w) /\
     StartCall.parent_handle (fst started) = None /\
     emitted (env (snd started))
       (env (snd (parent_exported None (fst started) (snd started)))) [ev_export] /\
     forall handle, exists s c connect token,
       emitted (env (snd started))
         (env (snd (parent_exported (Some handle) (fst started) (snd started))))
         (ev_subscribe s :: connect ++ [ev_call c]) /\
       bus_calls connect = [] /\
       method_name c = "Start" /\
       parameters c =
         Some (GV_tuple [GV_object_path (XdpSession.id (session w));
                         GV_string handle;
                         GV_vardict [("handle_token", GV_string token)]])).
Proof.
  destruct w as [e [sp si sty sst sd sstr]]. unfold emitted. split.
  - unfold xdp_session_start, start_session.
    destruct sty, cancel as [k|]; cbn;
      do 2 eexists;
      first [ exists [ev_connect (Z.pos (next_handler k)) cb_start_cancelled];
              eexists; rewrite <- !app_assoc; cbn; repeat split; fail
            | exists []; eexists; rewrite <- !app_assoc; cbn; repeat split ].
  - intros p. cbv zeta. unfold xdp_session_start, parent_exported, start_session. cbn.
    repeat split. intros handle.
    destruct sty, cancel as [k|]; cbn;
      do 2 eexists;
      first [ exists [ev_connect (Z.pos (next_handler k)) cb_start_cancelled];
              eexists; rewrite <- !app_assoc; cbn; repeat split; fail
            | exists []; eexists; rewrite <- !app_assoc; cbn; repeat split ].
Qed.

(** X10.  A cancellation while a Start waits for the export of its parent
    adds nothing to the trace, and the Start call is still issued, with
    the cancelled cancellable, when the handle arrives.  A cancellation
    while the Start request is outstanding issues one Close call on the
    path of that request, completes nothing and keeps the subscription;
    a second cancellation does nothing. *)
Theorem start_cancellation (s : XdpSession.t) (rand : list Z) :
  (forall p,
     let st := activate (Some p) (Some new_cancellable) s rand in
     let st' := start_step st sin_cancel in
     trace (env (act_world st')) = trace (env (act_world st)) /\
     act_call st' = act_call st /\
     forall handle,
       let t := trace (env (act_world (start_step st' (sin_exported (Some handle))))) in
       calls_to "Close" t = [] /\
       exists c, calls_to "Start" t = [ev_call c] /\ with_cancellable c = true) /\
  (let st := activate None (Some new_cancellable) s rand in
   let st' := start_step st sin_cancel in
   exists sub,
     subscriptions (env (act_world st)) = [sub] /\
     emitted (env (act_world st)) (env (act_world st'))
       [ev_call (close_request (sub_object_path sub))] /\
     returns (trace (env (act_world st'))) = [] /\
     subscriptions (env (act_world st')) = [sub] /\
     act_call st' = act_call st /\
     start_step st' sin_cancel = st').
Proof.
  split.
  - intros p. cbv zeta. cbn. repeat split. eexists. split; reflexivity.
  - cbv zeta. cbn. eexists. repeat split.
Qed.

(** X11.  Along every run of a Start the task is completed at most once,
    Start is called at most once and Close at most once.  While the
    block lives nothing is returned and the parent is not unexported;
    once it is freed no subscription and no cancellation handler is
    left, and the parent was unexported exactly once if there was one.  The
    caller passed a fresh cancellable or none. *)
Theorem start_completes_once_and_releases
  (parent : option XdpParent) (fresh : bool) (s : XdpSession.t) (rand : list Z)
  (inputs : list StartInput) :
  let st := start_run inputs
              (activate parent (if fresh then Some new_cancellable else None) s rand) in
  let t := trace (env (act_world st)) in
  (length (returns t) <= 1)%nat /\
  (length (calls_to "Start" t) <= 1)%nat /\
  (length (calls_to "Close" t) <= 1)%nat /\
  (act_call st = None ->
   subscriptions (env (act_world st)) = [] /\
   (forall k, cancellable (env (act_world st)) = Some k -> handlers k = []) /\
   length (filter is_unexport t) = match parent with Some _ => 1%nat | None => 0%nat end) /\
  (act_call st <> None -> returns t = [] /\ filter is_unexport t = []).
Proof.
  intros st t.
  pose proof (InvStart_run parent s inputs _ (InvStart_activate parent fresh s rand)) as I.
  fold st in I. destruct I as [_ HR HS HC HL]. fold t in HR, HS, HC.
  repeat split; try assumption.
  - rewrite H in HL. apply HL.
  - rewrite H in HL. apply HL.
  - rewrite H in HL. apply HL.
  - destruct (act_call st); [apply HL|congruence].
  - destruct (act_call st); [apply HL|congruence].
Qed.

(** X12.  Along every run of a Start the session keeps its portal,
    identifier and type; it is left untouched as long as the block
    lives, and once the response was handled its state is Active or
    Closed.  The
    caller passed a fresh cancellable or none. *)
Theorem start_keeps_session
  (parent : option XdpParent) (fresh : bool) (s : XdpSession.t) (rand : list Z)
  (inputs : list StartInput) :
  let st := start_run inputs
              (activate parent (if fresh then Some new_cancellable else None) s rand) in
  same_identity (session (act_world st)) s /\
  (act_call st <> None -> session (act_world st) = s) /\
  (act_call st = None ->
   XdpSession.state (session (act_world st)) = XDP_SESSION_ACTIVE \/
   XdpSession.state (session (act_world st)) = XDP_SESSION_CLOSED).
Proof.
  intros st.
  pose proof (InvStart_run parent s inputs _ (InvStart_activate parent fresh s rand)) as I.
  fold st in I. destruct I as [HI _ _ _ HL].
  repeat split; try apply HI.
  - intros H. destruct (act_call st); [apply HL|congruence].
  - intros H. rewrite H in HL. apply HL.
Qed.

Lemma inject_accepted (op : InputOp) (w : World) :
  may_inject (required_device op) (session w) ->
  exists c, inject op w = lift (g_dbus_connection_call c) w /\
            bus_name c = PORTAL_BUS_NAME /\ object_path c = PORTAL_OBJECT_PATH.
Proof.
  intros H. pose proof (proj2 (gate_true _ _) H) as G.
  destruct op; cbn [inject required_device] in *; unfold_input; rewrite G;
    eexists; repeat split.
Qed.

(** X13.  After a Start response 0 whose payload grants a device mask, an
    input operation goes out on the bus exactly when the session is a
    remote desktop and the bit of the operation is in the granted mask;
    otherwise it is rejected with the critical warning. *)
Theorem granted_devices_gate_input
  (granted : Z) (ret : vardict) (call : StartCall.t) (w : World) (op : InputOp) :
  g_variant_lookup_value ret "devices" "u" = Some (GV_uint32 granted) ->
  let w' := session_started 0 ret call w in
  (XdpSession.type (session w) = XDP_SESSION_REMOTE_DESKTOP /\
   Z.land granted (required_device op) <> 0 ->
   exists c, inject op w' = lift (g_dbus_connection_call c) w') /\
  (~ (XdpSession.type (session w) = XDP_SESSION_REMOTE_DESKTOP /\
      Z.land granted (required_device op) <> 0) ->
   inject op w' = lift (log ev_critical) w').
Proof.
  intros H w'.
  assert (S : XdpSession.type (session w') = XdpSession.type (session w) /\
              XdpSession.state (session w') = XDP_SESSION_ACTIVE /\
              XdpSession.devices (session w') = granted).
  { unfold w', session_started. cbn [Z.eqb]. rewrite H.
    destruct (g_variant_lookup_value ret "streams" "a(ua{sv})"); repeat split. }
  destruct S as (St & Ss & Sd). split.
  - intros [Ht Hd]. destruct (inject_accepted op w') as (c & E & _).
    + unfold may_inject. rewrite St, Ss, Sd. auto.
    + exists c. exact E.
  - intros N. apply inject_rejected. unfold may_inject. rewrite St, Sd.
    intros (A & _ & B). apply N. auto.
Qed.

(** X14.  [xdp_session_close] checks nothing: in every state it sends
    Close to the session's own object path on the session interface and
    then emits closed.  It changes the lifecycle state only, leaves
    subscriptions and cancellable alone, and closing again repeats the
    two events and changes nothing of the session; after it no input
    operation reaches the bus. *)
Theorem close_is_unconditional (w : World) :
  let close := {| bus_name := PORTAL_BUS_NAME;
                  object_path := XdpSession.id (session w);
                  interface_name := SESSION_INTERFACE;
                  method_name := "Close";
                  parameters := None;
                  with_cancellable := false |} in
  let w1 := xdp_session_close w in
  let w2 := xdp_session_close w1 in
  emitted (env w) (env w1) [ev_call close; ev_emit "closed"] /\
  emitted (env w1) (env w2) [ev_call close; ev_emit "closed"] /\
  session w1 = _xdp_session_set_session_state (session w) XDP_SESSION_CLOSED /\
  session w2 = session w1 /\
  subscriptions (env w2) = subscriptions (env w) /\
  cancellable (env w2) = cancellable (env w) /\
  forall op, bus_calls (trace (env (inject op w1))) = bus_calls (trace (env w1)).
Proof.
  destruct w as [e ses]. cbv zeta. unfold emitted, xdp_session_close. cbn.
  rewrite <- !app_assoc. repeat split.
  intros op. rewrite inject_rejected.
  - cbn. rewrite !bus_calls_app. cbn. rewrite !app_nil_r. reflexivity.
  - unfold may_inject. cbn. intros (_ & X & _). discriminate.
Qed.

(** X15.  In every state an establishment can reach, the request it has
    pending is answered by any response on its path: a response 1 or 2
    frees the block and leaves the task completed with exactly that
    error; a response 0 either frees the block and leaves the task
    completed with a session, or removes the subscription, makes the
    next one and issues the next call, with nothing returned yet. *)
Theorem pending_request_is_answered
  type portal devices outputs multiple cancel rand inputs :
  let st := run inputs (establish type portal devices outputs multiple cancel rand) in
  forall s, In s (subscriptions (est_env st)) ->
  forall response ret,
    let st' := step st (in_response (sub_object_path s) response ret) in
    (response = 1 ->
     est_call st' = None /\
     exists message,
       returns (trace (est_env st')) = [ev_return (task_error G_IO_ERROR_CANCELLED message)]) /\
    (response = 2 ->
     est_call st' = None /\
     exists message,
       returns (trace (est_env st')) = [ev_return (task_error G_IO_ERROR_FAILED message)]) /\
    (response = 0 ->
     (est_call st' = None /\
      exists session, returns (trace (est_env st')) = [ev_return (task_pointer session)]) \/
     (est_call st' <> None /\ returns (trace (est_env st')) = [] /\
      exists s' c, subscriptions (est_env st') = [s'] /\
                   emitted (est_env st) (est_env st')
                     [ev_unsubscribe (sub_id s); ev_subscribe s'; ev_call c])).
Proof.
  intros st s Hin response ret.
  destruct (Inv3_establish type portal devices outputs multiple cancel rand)
    as (c0 & _ & _ & _ & _ & _ & _ & I).
  pose proof (Inv3_run _ _ _ inputs _ I) as [[_ _ _ HC] [HL _ _ _] _]. fold st in HC, HL.
  destruct st as [e [c|]]; cbn [est_call est_env] in *;
    [|rewrite HC in Hin; destruct Hin].
  destruct HC as (Hty & Hout & Hret & s1 & Hsubs & Hid & Hpos).
  destruct (HL c eq_refl) as (s2 & Hsubs' & _ & _ & _ & Hns).
  rewrite Hsubs in Hsubs'. injection Hsubs' as <-.
  rewrite Hsubs in Hin. destruct Hin as [<-|[]].
  cbv zeta. cbn [step]. unfold deliver, find_subscription. cbn [est_call est_env].
  rewrite Hsubs. cbn [find]. rewrite String.eqb_refl.
  destruct e as [subs nxt k rnd tr], c as [p i t d o m sid rp cid], s1 as [n sp cb].
  cbn in Hty, Hout, Hret, Hsubs, Hid, Hpos, Hns. subst subs sid.
  assert (Hn : (n =? 0) = false) by (apply Z.eqb_neq; lia).
  unfold returns in *. unfold emitted.
  destruct cb; try congruence; cbn [sub_callback handler];
    unfold session_created, devices_selected, sources_selected.
  all: (split; [|split]); intros ->; cbn [Z.eqb Pos.eqb negb]; unfold create_call_free.
  all: try (cbn; rewrite Hn; destruct (cid =? 0); cbn;
            (split; [reflexivity|rewrite ?filter_app, Hret; cbn; eexists; reflexivity])).
  - right. destruct t; cbn; rewrite ?filter_app, Hret, Z.eqb_refl; cbn;
      (split; [discriminate|]); (split; [reflexivity|]);
      do 2 eexists; rewrite <- !app_assoc; split; reflexivity.
  - cbn. destruct (o =? 0) eqn:Eo; cbn.
    + left. destruct (cid =? 0); cbn;
        (split; [reflexivity|rewrite ?filter_app, Hret; cbn; eexists; reflexivity]).
    + right. rewrite ?filter_app, Hret, Z.eqb_refl; cbn.
      (split; [discriminate|]); (split; [reflexivity|]).
      do 2 eexists; rewrite <- !app_assoc; split; reflexivity.
  - left. cbn; rewrite Hn; destruct (cid =? 0); cbn;
      (split; [reflexivity|rewrite ?filter_app, Hret; cbn; eexists; reflexivity]).
Qed.

(** X16.  In every state a Start can reach, any response on the path of
    its pending request frees the block, removes the subscription and
    sets the session Active for code 0 and Closed otherwise; the task is
    left completed with TRUE on 0, G_IO_ERROR_CANCELLED on 1 and
    G_IO_ERROR_FAILED on 2, and with nothing else.  The
    caller passed a fresh cancellable or none. *)
Theorem pending_start_is_answered
  (parent : option XdpParent) (fresh : bool) (s0 : XdpSession.t) (rand : list Z)
  (inputs : list StartInput) :
  let st := start_run inputs
              (activate parent (if fresh then Some new_cancellable else None) s0 rand) in
  forall s, In s (subscriptions (env (act_world st))) ->
  forall response ret,
    let st' := start_step st (sin_response (sub_object_path s) response ret) in
    act_call st' = None /\
    subscriptions (env (act_world st')) = [] /\
    XdpSession.state (session (act_world st')) =
      (if response =? 0 then XDP_SESSION_ACTIVE else XDP_SESSION_CLOSED) /\
    (response = 0 ->
     returns (trace (env (act_world st'))) = [ev_return (task_boolean true)]) /\
    (response = 1 ->
     exists message,
       returns (trace (env (act_world st'))) =
         [ev_return (task_error G_IO_ERROR_CANCELLED message)]) /\
    (response = 2 ->
     exists message,
       returns (trace (env (act_world st'))) =
         [ev_return (task_error G_IO_ERROR_FAILED message)]).
Proof.
  intros st s Hin response ret.
  pose proof (InvStart_run parent s0 inputs _ (InvStart_activate parent fresh s0 rand)) as I.
  fold st in I. destruct I as [_ _ _ _ HL].
  destruct st as [[e ses] [c|]]; cbn [act_call act_world env session] in *.
  2:{ destruct HL as (Hs & _). rewrite Hs in Hin. destruct Hin. }
  destruct HL as (-> & <- & Hret & Hun & HL).
  destruct c as [p prt ph sid rp cid]. cbn in HL.
  destruct ph as [h|].
  2:{ destruct HL as (_ & _ & Hs & _). rewrite Hs in Hin. destruct Hin. }
  destruct HL as ((s' & Hsubs & Hcb & Hid & Hpos & Hpath) & _ & _ & _).
  rewrite Hsubs in Hin. destruct Hin as [<-|[]].
  cbv zeta. cbn [start_step]. unfold start_deliver, find_subscription.
  cbn [act_call act_world env]. rewrite Hsubs. cbn [find]. rewrite String.eqb_refl, Hcb.
  cbn [act_call act_world].
  destruct e as [subs nxt k rnd tr], s' as [n sp cb].
  cbn in Hsubs, Hret, Hun, Hid, Hpos. subst subs sid.
  assert (Hn : (n =? 0) = false) by (apply Z.eqb_neq; lia).
  unfold returns in *.
  unfold session_started, start_call_free. cbn. rewrite Hn.
  split; [reflexivity|]. split; [|split; [|split; [|split]]].
  - destruct (response =? 0); [|destruct (response =? 1), (response =? 2)];
      try destruct (g_variant_lookup_value ret "devices" "u") as [[]|];
      try destruct (g_variant_lookup_value ret "streams" "a(ua{sv})");
      destruct prt; cbn; destruct (cid =? 0); cbn; rewrite Z.eqb_refl; reflexivity.
  - destruct (response =? 0); [|destruct (response =? 1), (response =? 2)];
      try destruct (g_variant_lookup_value ret "devices" "u") as [[]|];
      try destruct (g_variant_lookup_value ret "streams" "a(ua{sv})");
      destruct prt; cbn; destruct (cid =? 0); reflexivity.
  - intros ->. cbn [Z.eqb].
    destruct (g_variant_lookup_value ret "devices" "u") as [[]|];
      destruct (g_variant_lookup_value ret "streams" "a(ua{sv})");
      destruct prt; cbn; destruct (cid =? 0); cbn;
      rewrite ?filter_app, Hret; reflexivity.
  - intros ->. cbn [Z.eqb].
    destruct prt; cbn; destruct (cid =? 0); cbn;
      rewrite ?filter_app, Hret; eexists; reflexivity.
  - intros ->. cbn [Z.eqb].
    destruct prt; cbn; destruct (cid =? 0); cbn;
      rewrite ?filter_app, Hret; eexists; reflexivity.
Qed.

End Remote.

(** * The model on concrete inputs

    Everything below runs the definitions with the constants of
    [desktop_portal], for the client [example_portal]. *)

(** ** Establishment *)

(** C3.  A screencast establishment whose CreateSession request is
    answered with the response code 3: the handler frees the block and
    removes the subscription without calling any [g_task_return_*], no
    further stage is called, and whatever arrives later the task is never
    completed. *)
Theorem unknown_response_never_returns :
  let st0 := establish (headers := desktop_portal) XDP_SESSION_SCREENCAST example_portal
               0 1 false None [11; 22; 33] in
  let st := step (headers := desktop_portal) st0 (in_response request_11 3 []) in
  map sub_object_path (subscriptions (est_env st0)) = [request_11] /\
  est_call st = None /\
  subscriptions (est_env st) = [] /\
  bus_calls (trace (est_env st)) = bus_calls (trace (est_env st0)) /\
  forall inputs, returns (trace (est_env (run (headers := desktop_portal) inputs st))) = [].
Proof.
  cbv zeta. repeat split.
  intros inputs.
  match goal with
  | |- returns (trace (est_env (run inputs ?st))) = [] =>
      assert (F : est_call st = None) by reflexivity;
      rewrite (proj2 (freed_is_final (headers := desktop_portal) inputs st F))
  end.
  reflexivity.
Qed.

(** C1 fails on the code.  A remote-desktop establishment whose
    CreateSession succeeded is waiting for the SelectDevices response on
    [request_33] when the caller cancels: nothing is returned to the
    caller, and the one Close call goes to [request_11], the request of
    the stage that is over. *)
Lemma cancel_during_select_devices_closes_create_request :
  let st := run (headers := desktop_portal) [in_response request_11 0 []; in_cancel]
              (establish (headers := desktop_portal) XDP_SESSION_REMOTE_DESKTOP example_portal
                 3 0 false (Some new_cancellable) [11; 22; 33]) in
  returns (trace (est_env st)) = [] /\
  map sub_object_path (subscriptions (est_env st)) = [request_33] /\
  map sub_callback (subscriptions (est_env st)) = [cb_devices_selected] /\
  calls_to "Close" (trace (est_env st)) =
    [ev_call {| bus_name := "org.freedesktop.portal.Desktop";
                object_path := request_11;
                interface_name := "org.freedesktop.portal.Request";
                method_name := "Close";
                parameters := None;
                with_cancellable := false |}] /\
  request_11 <> request_33.
Proof.
  cbv zeta. repeat split. discriminate.
Qed.

(** C2 fails on the code.  A screencast establishment at its last stage
    gets the response 0: [sources_selected] returns the session to the
    task first and removes the subscription afterwards. *)
Lemma sources_selected_returns_before_unsubscribe :
  let st0 := run (headers := desktop_portal) [in_response request_11 0 []]
               (establish (headers := desktop_portal) XDP_SESSION_SCREENCAST example_portal
                  0 1 false None [11; 22; 33]) in
  let st := step (headers := desktop_portal) st0 (in_response request_33 0 []) in
  let evs := [ev_return (task_pointer (_xdp_session_new example_portal session_22
                                         XDP_SESSION_SCREENCAST));
              ev_unsubscribe 2] in
  map sub_object_path (subscriptions (est_env st0)) = [request_33] /\
  emitted (est_env st0) (est_env st) evs /\
  unsubscribes_first evs = false.
Proof.
  cbv zeta. repeat split.
Qed.

(** C4 fails on the code.  A screencast establishment with an empty
    output mask calls SelectSources, with [types] 0, as soon as
    CreateSession has succeeded. *)
Lemma screencast_selects_sources_without_outputs :
  let st := run (headers := desktop_portal) [in_response request_11 0 []]
              (establish (headers := desktop_portal) XDP_SESSION_SCREENCAST example_portal
                 0 0 false None [11; 22; 33]) in
  calls_to "SelectSources" (trace (est_env st)) =
    [ev_call {| bus_name := "org.freedesktop.portal.Desktop";
                object_path := "/org/freedesktop/portal/desktop";
                interface_name := "org.freedesktop.portal.ScreenCast";
                method_name := "SelectSources";
                parameters :=
                  Some (GV_tuple [GV_object_path session_22;
                                  GV_vardict [("handle_token", GV_string "portal33");
                                              ("types", GV_uint32 0);
                                              ("multiple", GV_boolean false)]]);
                with_cancellable := false |}].
Proof.
  reflexivity.
Qed.

(** ** Start on a closed session *)

(** C5 fails on the code.  A session is closed and then started again
    without a parent: [xdp_session_start] issues the Start call on the
    bus, and a response 0 to it makes the closed session Active. *)
Lemma start_after_close_issues_start :
  let w0 := {| env := fresh_env [11; 22];
               session := example_session XDP_SESSION_SCREENCAST XDP_SESSION_ACTIVE 0 |} in
  let w1 := xdp_session_close (headers := desktop_portal) w0 in
  let started := xdp_session_start (headers := desktop_portal) None None w1 in
  let w3 := session_started 0 [] (fst started) (snd started) in
  XdpSession.state (session w1) = XDP_SESSION_CLOSED /\
  calls_to "Start" (trace (env (snd started))) =
    [ev_call {| bus_name := "org.freedesktop.portal.Desktop";
                object_path := "/org/freedesktop/portal/desktop";
                interface_name := "org.freedesktop.portal.ScreenCast";
                method_name := "Start";
                parameters :=
                  Some (GV_tuple [GV_object_path session_22;
                                  GV_string "";
                                  GV_vardict [("handle_token", GV_string "portal11")]]);
                with_cancellable := false |}] /\
  XdpSession.state (session w3) = XDP_SESSION_ACTIVE.
Proof.
  cbv zeta. repeat split.
Qed.

(** ** Instances of the conditional theorems *)

Lemma stage_selection_witness :
  calls_to "SelectDevices"
    (trace (est_env (run (headers := desktop_portal) [in_response request_11 0 []]
                       (establish (headers := desktop_portal) XDP_SESSION_SCREENCAST
                          example_portal 0 1 false None [11; 22; 33])))) = [].
Proof.
  apply (proj1 (proj1 (stage_selection (headers := desktop_portal))
                  XDP_SESSION_SCREENCAST example_portal 0 1 false None [11; 22; 33]
                  [in_response request_11 0 []])).
  reflexivity.
Defined.

Lemma response_completes_once_witness :
  exists r rest,
    fst (handler (headers := desktop_portal) cb_sources_selected 0 []
           example_create_call (fresh_env [])) = None /\
    emitted (fresh_env [])
      (snd (handler (headers := desktop_portal) cb_sources_selected 0 []
              example_create_call (fresh_env [])))
      (ev_return r :: ev_unsubscribe 2 :: rest) /\
    (rest = [] \/ rest = [ev_disconnect 0]).
Proof.
  apply (proj1 (proj2 (response_completes_once (headers := desktop_portal)))
           cb_sources_selected 0 [] example_create_call (fresh_env [])).
  - discriminate.
  - right. right. split; reflexivity.
  - cbn. lia.
Defined.

Lemma closed_session_gate_witness :
  inject (headers := desktop_portal) (op_pointer_motion 0 0)
    (example_world XDP_SESSION_REMOTE_DESKTOP XDP_SESSION_CLOSED 7)
  = lift (log ev_critical) (example_world XDP_SESSION_REMOTE_DESKTOP XDP_SESSION_CLOSED 7).
Proof.
  apply (proj1 (closed_session_gate (headers := desktop_portal)
                  (example_world XDP_SESSION_REMOTE_DESKTOP XDP_SESSION_CLOSED 7)
                  eq_refl)).
Defined.

Lemma session_started_sets_state_witness :
  XdpSession.state
    (session (session_started 0 [] example_start_call
                (example_world XDP_SESSION_SCREENCAST XDP_SESSION_INITIAL 0)))
  = XDP_SESSION_ACTIVE /\
  XdpSession.state
    (session (session_started 3 [] example_start_call
                (example_world XDP_SESSION_SCREENCAST XDP_SESSION_INITIAL 0)))
  = XDP_SESSION_CLOSED.
Proof.
  split.
  - apply (proj1 (session_started_sets_state 0 [] example_start_call
                    (example_world XDP_SESSION_SCREENCAST XDP_SESSION_INITIAL 0))).
    reflexivity.
  - apply (proj2 (session_started_sets_state 3 [] example_start_call
                    (example_world XDP_SESSION_SCREENCAST XDP_SESSION_INITIAL 0))).
    lia.
Defined.

Lemma session_started_frame_witness :
  let s' := session (session_started 0 [("devices", GV_uint32 3)] example_start_call
                       (example_world XDP_SESSION_REMOTE_DESKTOP XDP_SESSION_INITIAL 0)) in
  GV_uint32 3 = GV_uint32 (XdpSession.devices s') /\ XdpSession.streams s' = None.
Proof.
  cbv zeta.
  pose proof (session_started_frame [("devices", GV_uint32 3)] example_start_call
                (example_world XDP_SESSION_REMOTE_DESKTOP XDP_SESSION_INITIAL 0)) as F.
  cbv zeta in F. destruct F as (_ & S & D & _). split.
  - apply D. reflexivity.
  - rewrite S; reflexivity.
Defined.


Lemma touch_up_reuses_touch_motion_witness :
  let w := example_world XDP_SESSION_REMOTE_DESKTOP XDP_SESSION_ACTIVE 4 in
  emitted (env w) (env (xdp_session_touch_up (headers := desktop_portal) 5 w))
    [ev_call {| bus_name := "org.freedesktop.portal.Desktop";
                object_path := "/org/freedesktop/portal/desktop";
                interface_name := "org.freedesktop.portal.RemoteDesktop";
                method_name := "NotifyTouchMotion";
                parameters := Some (GV_tuple [GV_object_path session_22;
                                              GV_vardict [];
                                              GV_uint32 5]);
                with_cancellable := false |}].
Proof.
  cbv zeta.
  apply (proj1 (touch_up_reuses_touch_motion (headers := desktop_portal) 5
                  (example_world XDP_SESSION_REMOTE_DESKTOP XDP_SESSION_ACTIVE 4)
                  (conj eq_refl (conj eq_refl (fun H : Z.land 4 4 = 0 =>
                     proj1 (Z.eqb_neq 4 0) eq_refl H))))).
Defined.

Lemma open_pipewire_remote_result_witness :
  let w := example_world XDP_SESSION_SCREENCAST XDP_SESSION_ACTIVE 0 in
  let t := example_descriptors in
  (exists c w',
     xdp_session_open_pipewire_remote (headers := desktop_portal) None true t w
     = Some (-1, t, w') /\
     emitted (env w) (env w') [ev_call_sync c; ev_warning]) /\
  (exists c w',
     xdp_session_open_pipewire_remote (headers := desktop_portal)
       (Some (GV_tuple [GV_string "x"], Some ["pipewire-0"])) true t w
     = Some (-1, t, w') /\
     emitted (env w) (env w') [ev_call_sync c; ev_warning]) /\
  (exists fd c w',
     xdp_session_open_pipewire_remote (headers := desktop_portal)
       (Some (GV_tuple [GV_handle 1], Some ["control"; "pipewire-0"])) true t w
     = Some (fd, (fd, "pipewire-0") :: t, w') /\
     0 <= fd /\ fd_file fd t = None /\
     emitted (env w) (env w') [ev_call_sync c] /\
     method_name c = "OpenPipeWireRemote" /\
     parameters c = Some (GV_tuple [GV_object_path session_22; GV_vardict []])) /\
  option_map (fun r => fst (fst r))
    (xdp_session_open_pipewire_remote (headers := desktop_portal)
       (Some (GV_tuple [GV_handle 1], Some ["control"; "pipewire-0"])) true t w)
  = Some 5.
Proof.
  cbv zeta.
  pose proof (open_pipewire_remote_result (headers := desktop_portal) example_descriptors
                (example_world XDP_SESSION_SCREENCAST XDP_SESSION_ACTIVE 0))
    as (_ & Hfail & Hok & _).
  split; [|split; [|split]].
  - apply Hfail. left. reflexivity.
  - apply Hfail. right. exists (GV_tuple [GV_string "x"]), (Some ["pipewire-0"]).
    split; [reflexivity|discriminate].
  - apply (Hok 1 ["control"; "pipewire-0"] "pipewire-0"); [lia|reflexivity].
  - reflexivity.
Defined.

(** ** Instances of the further properties *)

Lemma request_correlation_witness :
  (exists s c connect,
     emitted (env (example_world XDP_SESSION_SCREENCAST XDP_SESSION_INITIAL 0))
       (env (snd (start_session (headers := desktop_portal) example_start_call
                    (example_world XDP_SESSION_SCREENCAST XDP_SESSION_INITIAL 0))))
       (ev_subscribe s :: connect ++ [ev_call c]) /\
     filter is_subscribe connect = [] /\ bus_calls connect = [] /\
     sub_object_path s
     = request_path_of (headers := desktop_portal) example_portal (portal_token 0) /\
     sub_callback s = cb_session_started /\
     StartCall.request_path
       (fst (start_session (headers := desktop_portal) example_start_call
               (example_world XDP_SESSION_SCREENCAST XDP_SESSION_INITIAL 0)))
     = sub_object_path s /\
     StartCall.signal_id
       (fst (start_session (headers := desktop_portal) example_start_call
               (example_world XDP_SESSION_SCREENCAST XDP_SESSION_INITIAL 0)))
     = sub_id s /\
     sub_id s <> 0 /\
     parameters c =
       Some (GV_tuple [GV_object_path session_22; GV_string "";
                       GV_vardict [("handle_token", GV_string (portal_token 0))]]) /\
     random (env (snd (start_session (headers := desktop_portal) example_start_call
                         (example_world XDP_SESSION_SCREENCAST XDP_SESSION_INITIAL 0))))
     = tl (random (env (example_world XDP_SESSION_SCREENCAST XDP_SESSION_INITIAL 0)))) /\
  request_11 <> request_33 /\
  NoDup (subscribed_paths
           (trace (est_env (run (headers := desktop_portal)
                              [in_response request_11 0 []; in_response request_33 0 []]
                              (establish (headers := desktop_portal) XDP_SESSION_SCREENCAST
                                 example_portal 0 1 false None [11; 22; 33; 44]))))).
Proof.
  pose proof (request_correlation (headers := desktop_portal))
    as (_ & _ & _ & Hstart & Hinj & Hrun).
  split; [|split].
  - exact (Hstart example_start_call
             (example_world XDP_SESSION_SCREENCAST XDP_SESSION_INITIAL 0) "" eq_refl).
  - intros H. specialize (Hinj example_portal 11 33 H). discriminate Hinj.
  - apply (Hrun XDP_SESSION_SCREENCAST example_portal 0 1 false None [11; 22; 33; 44]).
    + cbn. lia.
    + vm_compute. repeat constructor; cbn; intuition discriminate.
Defined.

Lemma stages_in_order_witness :
  stage_calls
    (trace (est_env (run (headers := desktop_portal)
                       [in_response request_11 0 []; in_response request_33 0 []]
                       (establish (headers := desktop_portal) XDP_SESSION_SCREENCAST
                          example_portal 0 1 false None [11; 22; 33]))))
  = all_stages XDP_SESSION_SCREENCAST 1.
Proof.
  pose proof (stages_in_order (headers := desktop_portal) XDP_SESSION_SCREENCAST
                example_portal 0 1 false None [11; 22; 33]
                [in_response request_11 0 []; in_response request_33 0 []]) as H.
  cbv zeta in H. destruct H as (_ & _ & H).
  apply (H (_xdp_session_new example_portal session_22 XDP_SESSION_SCREENCAST)).
  vm_compute. do 5 right. left. reflexivity.
Defined.

Lemma requested_masks_forwarded_witness :
  let select :=
    {| bus_name := "org.freedesktop.portal.Desktop";
       object_path := "/org/freedesktop/portal/desktop";
       interface_name := "org.freedesktop.portal.RemoteDesktop";
       method_name := "SelectDevices";
       parameters :=
         Some (GV_tuple [GV_object_path session_22;
                         GV_vardict [("handle_token", GV_string "portal33");
                                     ("type", GV_uint32 3)]]);
       with_cancellable := false |} in
  exists c0 token,
    est_call (establish (headers := desktop_portal) XDP_SESSION_REMOTE_DESKTOP
                example_portal 3 0 false None [11; 22; 33]) = Some c0 /\
    parameters select =
      Some (GV_tuple [GV_object_path (CreateCall.id c0);
                      GV_vardict [("handle_token", GV_string token);
                                  ("type", GV_uint32 3)]]).
Proof.
  cbv zeta.
  destruct (requested_masks_forwarded (headers := desktop_portal) XDP_SESSION_REMOTE_DESKTOP
              example_portal 3 0 false None [11; 22; 33] [in_response request_11 0 []])
    as (c0 & E & H).
  match goal with
  | |- exists _ _, _ /\ parameters ?c = _ =>
      destruct (H c) as [[token HD] _];
        [vm_compute; do 4 right; left; reflexivity | reflexivity |]
  end.
  exists c0, token. split; [exact E|exact HD].
Defined.

Lemma established_session_identity_witness :
  exists session_token,
    _xdp_session_new example_portal session_22 XDP_SESSION_SCREENCAST
    = _xdp_session_new example_portal
        (g_strconcat ["/org/freedesktop/portal/desktop/session/"; "1_42"; "/"; session_token])
        XDP_SESSION_SCREENCAST.
Proof.
  destruct (established_session_identity (headers := desktop_portal) XDP_SESSION_SCREENCAST
              example_portal 0 1 false None [11; 22; 33])
    as (token & session_token & create & _ & _ & H).
  exists session_token.
  apply (H [in_response request_11 0 []; in_response request_33 0 []]
           (task_pointer (_xdp_session_new example_portal session_22 XDP_SESSION_SCREENCAST))).
  vm_compute. do 5 right. left. reflexivity.
Defined.

Lemma completed_establishment_is_silent_witness :
  trace (est_env (run (headers := desktop_portal)
                    ([in_response request_11 1 []] ++ [in_cancel; in_response request_11 0 []])
                    (establish (headers := desktop_portal) XDP_SESSION_REMOTE_DESKTOP
                       example_portal 3 1 true (Some new_cancellable) [11; 22; 33])))
  = trace (est_env (run (headers := desktop_portal) [in_response request_11 1 []]
                      (establish (headers := desktop_portal) XDP_SESSION_REMOTE_DESKTOP
                         example_portal 3 1 true (Some new_cancellable) [11; 22; 33]))).
Proof.
  pose proof (completed_establishment_is_silent (headers := desktop_portal)
                XDP_SESSION_REMOTE_DESKTOP example_portal 3 1 true (Some new_cancellable)
                [11; 22; 33] [in_response request_11 1 []]
                [in_cancel; in_response request_11 0 []]) as H.
  cbv zeta in H. apply H. vm_compute. discriminate.
Defined.

Lemma cancellation_closes_once_witness :
  calls_to "Close"
    (trace (est_env (run (headers := desktop_portal) [in_response request_11 0 []]
                       (establish (headers := desktop_portal) XDP_SESSION_REMOTE_DESKTOP
                          example_portal 3 1 true (Some new_cancellable) [11; 22; 33]))))
  = [].
Proof.
  destruct (cancellation_closes_once (headers := desktop_portal) XDP_SESSION_REMOTE_DESKTOP
              example_portal 3 1 true [11; 22; 33] [in_response request_11 0 []])
    as (path & _ & H & _).
  cbv zeta in H. apply H. intros [X|[]]. discriminate X.
Defined.

Lemma establishment_releases_witness :
  subscriptions
    (est_env (run (headers := desktop_portal) [in_response request_11 2 []]
                (establish (headers := desktop_portal) XDP_SESSION_REMOTE_DESKTOP
                   example_portal 3 1 true (Some new_cancellable) [11; 22; 33])))
  = [].
Proof.
  pose proof (establishment_releases (headers := desktop_portal) XDP_SESSION_REMOTE_DESKTOP
                example_portal 3 1 true [11; 22; 33] true [in_response request_11 2 []]) as H.
  cbv zeta in H. destruct H as (_ & _ & H). apply H. reflexivity.
Defined.

Lemma response_code_mapping_witness :
  exists message,
    returns (trace (snd (handler (headers := desktop_portal) cb_session_created 1 []
                           example_create_call (fresh_env []))))
    = returns (trace (fresh_env [])) ++
      [ev_return (task_error G_IO_ERROR_CANCELLED message)].
Proof.
  pose proof (proj1 (response_code_mapping (headers := desktop_portal))
                cb_session_created 1 [] example_create_call (fresh_env [])) as H.
  cbv zeta in H. apply H; [discriminate|reflexivity].
Defined.

Lemma start_completes_once_and_releases_witness :
  subscriptions
    (env (act_world (start_run (headers := desktop_portal) [sin_response request_11 0 []]
                       (activate (headers := desktop_portal) None (Some new_cancellable)
                          (example_session XDP_SESSION_SCREENCAST XDP_SESSION_INITIAL 0)
                          [11; 22]))))
  = [].
Proof.
  pose proof (start_completes_once_and_releases (headers := desktop_portal) None true
                (example_session XDP_SESSION_SCREENCAST XDP_SESSION_INITIAL 0) [11; 22]
                [sin_response request_11 0 []]) as H.
  cbv zeta in H. destruct H as (_ & _ & _ & H & _). apply H. reflexivity.
Defined.

Lemma start_keeps_session_witness :
  let st := start_run (headers := desktop_portal) [sin_response request_11 2 []]
              (activate (headers := desktop_portal) None (Some new_cancellable)
                 (example_session XDP_SESSION_SCREENCAST XDP_SESSION_INITIAL 0) [11; 22]) in
  XdpSession.state (session (act_world st)) = XDP_SESSION_ACTIVE \/
  XdpSession.state (session (act_world st)) = XDP_SESSION_CLOSED.
Proof.
  cbv zeta.
  pose proof (start_keeps_session (headers := desktop_portal) None true
                (example_session XDP_SESSION_SCREENCAST XDP_SESSION_INITIAL 0) [11; 22]
                [sin_response request_11 2 []]) as H.
  cbv zeta in H. destruct H as (_ & _ & H). apply H. reflexivity.
Defined.

Lemma granted_devices_gate_input_witness :
  let w' := session_started 0 [("devices", GV_uint32 3)] example_start_call
              (example_world XDP_SESSION_REMOTE_DESKTOP XDP_SESSION_INITIAL 0) in
  (exists c, inject (headers := desktop_portal) (op_keyboard_key true 65 1) w'
             = lift (g_dbus_connection_call c) w') /\
  inject (headers := desktop_portal) (op_touch_up 0) w' = lift (log ev_critical) w'.
Proof.
  cbv zeta. split.
  - apply (proj1 (granted_devices_gate_input (headers := desktop_portal) 3
                    [("devices", GV_uint32 3)] example_start_call
                    (example_world XDP_SESSION_REMOTE_DESKTOP XDP_SESSION_INITIAL 0)
                    (op_keyboard_key true 65 1) eq_refl)).
    split; [reflexivity|]. cbn. discriminate.
  - apply (proj2 (granted_devices_gate_input (headers := desktop_portal) 3
                    [("devices", GV_uint32 3)] example_start_call
                    (example_world XDP_SESSION_REMOTE_DESKTOP XDP_SESSION_INITIAL 0)
                    (op_touch_up 0) eq_refl)).
    intros [_ H]. apply H. reflexivity.
Defined.

Lemma pending_request_is_answered_witness :
  let st' := step (headers := desktop_portal)
               (establish (headers := desktop_portal) XDP_SESSION_SCREENCAST example_portal
                  0 1 false None [11; 22; 33])
               (in_response request_11 1 []) in
  est_call st' = None /\
  exists message,
    returns (trace (est_env st')) = [ev_return (task_error G_IO_ERROR_CANCELLED message)].
Proof.
  pose proof (pending_request_is_answered (headers := desktop_portal) XDP_SESSION_SCREENCAST
                example_portal 0 1 false None [11; 22; 33] []) as H.
  cbv zeta in H |- *.
  apply (H {| sub_id := 1; sub_object_path := request_11;
              sub_callback := cb_session_created |}
           (or_introl eq_refl) 1 []).
  reflexivity.
Defined.

Lemma pending_start_is_answered_witness :
  let st' := start_step (headers := desktop_portal)
               (activate (headers := desktop_portal) None (Some new_cancellable)
                  (example_session XDP_SESSION_SCREENCAST XDP_SESSION_INITIAL 0) [11; 22])
               (sin_response request_11 0 []) in
  returns (trace (env (act_world st'))) = [ev_return (task_boolean true)].
Proof.
  pose proof (pending_start_is_answered (headers := desktop_portal) None true
                (example_session XDP_SESSION_SCREENCAST XDP_SESSION_INITIAL 0) [11; 22] [])
    as H.
  cbv zeta in H |- *.
  destruct (H {| sub_id := 1; sub_object_path := request_11;
                 sub_callback := cb_session_started |}
              (or_introl eq_refl) 0 []) as (_ & _ & _ & H0 & _).
  apply H0. reflexivity.
Defined.
